(** * Cake-order bots: the dialogue engine and the order ledger

    A shallow embedding of the bot variants of the repository
    ([combined_bot.py], [user_bot.py], [o3.py]; the functions of
    [admin_bot.py] have the text of those of [combined_bot.py]): Python
    strings and values, the spreadsheet behind the order ledger, the aiogram
    FSM context, and the message handlers, followed by the properties of the
    order ledger, the dialogue state machine and the pagination renderer. *)

From Stdlib Require Import ZArith NArith Lia String Ascii DecimalPos DecimalN.
From stdpp Require Import base option list sorting gmap.

Local Open Scope Z_scope.

(** ** Python strings

    A Python [str] is a sequence of Unicode code points. *)

Abbreviation pystr := (list N).

(** UTF-8 decoding, to write the literals of the source as they stand there. *)
Fixpoint utf8_decode (bs : list N) : pystr :=
  match bs with
  | [] => []
  | b :: r =>
      if (b <? 128)%N then b :: utf8_decode r
      else if (b <? 224)%N then
        match r with
        | b1 :: r1 => ((b - 192) * 64 + (b1 - 128))%N :: utf8_decode r1
        | _ => []
        end
      else if (b <? 240)%N then
        match r with
        | b1 :: b2 :: r2 =>
            ((b - 224) * 4096 + (b1 - 128) * 64 + (b2 - 128))%N :: utf8_decode r2
        | _ => []
        end
      else
        match r with
        | b1 :: b2 :: b3 :: r3 =>
            ((b - 240) * 262144 + (b1 - 128) * 4096 + (b2 - 128) * 64 + (b3 - 128))%N
              :: utf8_decode r3
        | _ => []
        end
  end.

(** A string literal of the source, as code points. *)
Definition lit (s : string) : pystr :=
  utf8_decode (map N_of_ascii (list_ascii_of_string s)).
Arguments lit : simpl never.

Module Py.

(** The exceptions the modelled code can raise. *)
Inductive exn :=
| KeyError | ValueError | IndexError | AttributeError | TypeError | ZeroDivisionError.

(** The outcome of evaluating an expression: a value or a raised exception. *)
Inductive res (A : Type) :=
| Ok (a : A)
| Raise (e : exn).
Arguments Ok {A} a.
Arguments Raise {A} e.

(** [str.isspace] on one code point: the code points Python's [str.strip]
    removes (Unicode [White_Space] plus the four ASCII separators). *)
Definition is_space (c : N) : bool :=
  ((9 <=? c) && (c <=? 13) || (28 <=? c) && (c <=? 32) || (c =? 133) || (c =? 160)
   || (c =? 5760) || (8192 <=? c) && (c <=? 8202) || (c =? 8232) || (c =? 8233)
   || (c =? 8239) || (c =? 8287) || (c =? 12288))%N.

Fixpoint lstrip (s : pystr) : pystr :=
  match s with
  | c :: s' => if is_space c then lstrip s' else s
  | [] => []
  end.

Definition rstrip (s : pystr) : pystr := rev (lstrip (rev s)).

(** [s.strip()] *)
Definition strip (s : pystr) : pystr := rstrip (lstrip s).

(** The lower-case mapping of one code point, for the Basic Latin, Latin-1
    and Cyrillic capital letters (the alphabets of the bot's texts); every
    other code point is left as it is. This is [str.lower] on the code points
    below 256 and from 1024 to 1119 ([in_alphabet] below); the capital letters
    of other blocks are not mapped. *)
Definition lower_cp (c : N) : N :=
  (if (65 <=? c) && (c <=? 90) then c + 32
   else if (192 <=? c) && (c <=? 222) && negb (c =? 215) then c + 32
   else if (1024 <=? c) && (c <=? 1039) then c + 80
   else if (1040 <=? c) && (c <=? 1071) then c + 32
   else c)%N.

(** [s.lower()] *)
Definition lower (s : pystr) : pystr := map lower_cp s.

(** An ASCII decimal digit [0]..[9]. *)
Definition is_digit (c : N) : bool := ((48 <=? c) && (c <=? 57))%N.

(** Membership in a table of runs of code points, each run given by its
    first and its last code point. *)
Definition in_runs (runs : list (N * N)) (c : N) : bool :=
  existsb (λ r, (r.1 <=? c) && (c <=? r.2))%N runs.

(** The decimal digits of Unicode (property [Numeric_Type=Decimal]), as the
    interpreter's character database lists them (Unicode 14.0, the database
    of CPython 3.11): the digits 0 to 9 of each script form a run of ten code
    points, in this order; the run from 120782 on holds the five sets of
    mathematical digits one after the other. *)
Definition decimal_runs : list (N * N) :=
  [(48, 57); (1632, 1641); (1776, 1785); (1984, 1993);
   (2406, 2415); (2534, 2543); (2662, 2671); (2790, 2799);
   (2918, 2927); (3046, 3055); (3174, 3183); (3302, 3311);
   (3430, 3439); (3558, 3567); (3664, 3673); (3792, 3801);
   (3872, 3881); (4160, 4169); (4240, 4249); (6112, 6121);
   (6160, 6169); (6470, 6479); (6608, 6617); (6784, 6793);
   (6800, 6809); (6992, 7001); (7088, 7097); (7232, 7241);
   (7248, 7257); (42528, 42537); (43216, 43225); (43264, 43273);
   (43472, 43481); (43504, 43513); (43600, 43609); (44016, 44025);
   (65296, 65305); (66720, 66729); (68912, 68921); (69734, 69743);
   (69872, 69881); (69942, 69951); (70096, 70105); (70384, 70393);
   (70736, 70745); (70864, 70873); (71248, 71257); (71360, 71369);
   (71472, 71481); (71904, 71913); (72016, 72025); (72784, 72793);
   (73040, 73049); (73120, 73129); (92768, 92777); (92864, 92873);
   (93008, 93017); (120782, 120831); (123200, 123209); (123632, 123641);
   (125264, 125273); (130032, 130041)]%N.

(** The other code points that count as digits (property
    [Numeric_Type=Digit]): the superscript and subscript digits, the circled,
    parenthesised and dotted digits and the like. They are digits for
    [str.isdigit] and no part of a number for [int]. *)
Definition other_digit_runs : list (N * N) :=
  [(178, 179); (185, 185); (4969, 4977); (6618, 6618);
   (8304, 8304); (8308, 8313); (8320, 8329); (9312, 9320);
   (9332, 9340); (9352, 9360); (9450, 9450); (9461, 9469);
   (9471, 9471); (10102, 10110); (10112, 10120); (10122, 10130);
   (68160, 68163); (69216, 69224); (69714, 69722); (127232, 127242)]%N.

(** The value of a decimal digit of any script, if [c] is one. *)
Definition unicode_todecimal (c : N) : option N :=
  (λ r, (c - r.1) mod 10)%N
    <$> List.find (λ r, (r.1 <=? c) && (c <=? r.2))%N decimal_runs.

(** [str.isdigit] on one code point. *)
Definition unicode_isdigit (c : N) : bool :=
  in_runs decimal_runs c || in_runs other_digit_runs c.

(** [s.isdigit()]: non-empty and every character a digit, of any script,
    the superscripts and their like included. *)
Definition isdigit (s : pystr) : bool :=
  match s with
  | [] => false
  | _ => forallb unicode_isdigit s
  end.

Fixpoint take_token (s : pystr) : pystr * pystr :=
  match s with
  | c :: s' =>
      if is_space c then ([], s)
      else let '(t, r) := take_token s' in (c :: t, r)
  | [] => ([], [])
  end.

(** [s.split(maxsplit=1)]: the first whitespace-separated token, and, when
    something follows the whitespace after it, the remainder as one piece. *)
Definition split_maxsplit1 (s : pystr) : list pystr :=
  match lstrip s with
  | [] => []
  | s1 =>
      let '(tok, r) := take_token s1 in
      match lstrip r with
      | [] => [tok]
      | rest => [tok; rest]
      end
  end.

(** What [int] makes of one code point before it reads the literal: a code
    point below 127 stays, a Unicode space becomes a blank, a decimal digit
    of any script becomes the ASCII digit of its value; with any other code
    point the text is no literal. *)
Definition ascii_of (c : N) : option N :=
  if (c <? 127)%N then Some c
  else if is_space c then Some 32%N
  else (λ d, 48 + d)%N <$> unicode_todecimal c.

(** The whitespace [int] skips around the literal made ASCII: tab to carriage
    return, and the blank (not the separators 28 to 31, which [str.strip]
    removes). *)
Definition ascii_isspace (c : N) : bool := ((9 <=? c) && (c <=? 13) || (c =? 32))%N.

Fixpoint skip_spaces (s : pystr) : pystr :=
  match s with
  | c :: s' => if ascii_isspace c then skip_spaces s' else s
  | [] => []
  end.

(** The digits of an [int] literal: ASCII decimal digits, a single [_]
    allowed between two digits. [prev] says that the previous character was
    a digit. *)
Fixpoint int_digits (acc : N) (prev : bool) (s : pystr) : option N :=
  match s with
  | [] => if prev then Some acc else None
  | c :: s' =>
      if is_digit c then int_digits (10 * acc + (c - 48)) true s'
      else if (c =? 95)%N && prev then int_digits acc false s'
      else None
  end.

(** [int(s)] for a string [s]: the text is made ASCII, the whitespace around
    it is dropped, a sign is allowed, then come the digits; anything else
    raises [ValueError]. (The interpreter's limit on the length of a literal,
    4300 digits by default and lifted with [PYTHONINTMAXSTRDIGITS=0], is not
    part of the model.) *)
Definition int_of_str (s : pystr) : res Z :=
  match mapM ascii_of s with
  | None => Raise ValueError
  | Some t =>
      let t := rev (skip_spaces (rev (skip_spaces t))) in
      let '(neg, ds) :=
        match t with
        | 45%N :: r => (true, r)
        | 43%N :: r => (false, r)
        | _ => (false, t)
        end in
      match int_digits 0 false ds with
      | Some n => Ok (if neg then - Z.of_N n else Z.of_N n)
      | None => Raise ValueError
      end
  end.

Fixpoint uint_codes (d : Decimal.uint) : pystr :=
  match d with
  | Decimal.Nil => []
  | Decimal.D0 l => 48%N :: uint_codes l
  | Decimal.D1 l => 49%N :: uint_codes l
  | Decimal.D2 l => 50%N :: uint_codes l
  | Decimal.D3 l => 51%N :: uint_codes l
  | Decimal.D4 l => 52%N :: uint_codes l
  | Decimal.D5 l => 53%N :: uint_codes l
  | Decimal.D6 l => 54%N :: uint_codes l
  | Decimal.D7 l => 55%N :: uint_codes l
  | Decimal.D8 l => 56%N :: uint_codes l
  | Decimal.D9 l => 57%N :: uint_codes l
  end.

(** [str(n)] for an [int] [n]. *)
Definition str_of_int (z : Z) : pystr :=
  match z with
  | Z0 => [48%N]
  | Zpos p => uint_codes (Pos.to_uint p)
  | Zneg p => 45%N :: uint_codes (Pos.to_uint p)
  end.

(** The values the spreadsheet client hands out and the bot passes around:
    [None], an [int], a [str]. *)
Inductive value :=
| VNone
| VInt (z : Z)
| VStr (s : pystr).

#[export] Instance value_eq_dec : EqDecision value.
Proof. solve_decision. Defined.

(** [str(v)] *)
Definition str (v : value) : pystr :=
  match v with
  | VNone => lit "None"
  | VInt z => str_of_int z
  | VStr s => s
  end.

(** [int(v)] *)
Definition int (v : value) : res Z :=
  match v with
  | VNone => Raise TypeError
  | VInt z => Ok z
  | VStr s => int_of_str s
  end.

(** Truthiness of a value, as [if v:] tests it. *)
Definition truthy (v : value) : bool :=
  match v with
  | VNone => false
  | VInt z => negb (z =? 0)
  | VStr s => match s with [] => false | _ => true end
  end.

End Py.

Export Py.

(** ** Records and the spreadsheet

    A row of [get_all_records], a catalog entry and the like are Python
    dictionaries from column names to values. *)

Abbreviation dict := (gmap pystr value).

(** [d[k]] *)
Definition getitem (d : dict) (k : pystr) : res value :=
  match d !! k with
  | Some v => Ok v
  | None => Raise KeyError
  end.

(** [d.get(k)] *)
Definition get (d : dict) (k : pystr) : value := default VNone (d !! k).

(** [d.get(k, dflt)] *)
Definition get_or (d : dict) (k : pystr) (dflt : value) : value := default dflt (d !! k).

(** [v.strip()] for an arbitrary value: only a [str] has the method. *)
Definition strip_value (v : value) : res pystr :=
  match v with
  | VStr s => Ok (strip s)
  | _ => Raise AttributeError
  end.

(** [v.lower()] *)
Definition lower_value (v : value) : res pystr :=
  match v with
  | VStr s => Ok (lower s)
  | _ => Raise AttributeError
  end.

(** The spreadsheet client (gspread) is outside the repository. A worksheet
    is modelled as its grid of displayed cell texts, row 1 first; that row is
    the header. The client is taken to answer every call (a transport error
    would send each caller into its [except] branch). *)
Definition Sheet := list (list pystr).

Module Worksheet.

(** The conversion [get_all_records] applies to a cell, at the defaults of
    the call: a text with an underscore stays as it is, a text that reads as
    an [int] becomes that [int], any other text stays a [str]. The client
    also turns a text that reads as a [float] into a [float], and its later
    releases drop the commas of a number before reading it; [value] has no
    [float], so a cell that holds a number with a fraction or with commas is
    outside the model. The properties of the ids of orders and customers are
    stated for cells that hold an integer ([integer_column] below). *)
Definition numericise (s : pystr) : value :=
  if bool_decide (95%N ∈ s) then VStr s
  else match int_of_str s with
       | Ok z => VInt z
       | Raise _ => VStr s
       end.

(** [ws.get_all_values()] *)
Definition get_all_values (sh : Sheet) : list (list pystr) := sh.

(** [ws.get_all_records()]: one dictionary per row below the header, as
    [dict(zip(header, row))] builds it. *)
Definition get_all_records (sh : Sheet) : list dict :=
  match sh with
  | [] => []
  | hdr :: rows =>
      (λ row, list_to_map (reverse (zip hdr (numericise <$> row)))) <$> rows
  end.

(** [ws.row_values(1)] *)
Definition header_row (sh : Sheet) : list pystr := hd [] sh.

(** [ws.append_row(values)]: a new last row; each value is shown as its
    text. *)
Definition append_row (sh : Sheet) (values : list value) : Sheet :=
  sh ++ [str <$> values].

(** [ws.update_cell(row, col, text)], both indices counted from 1; a row
    shorter than [col] is filled up with empty cells first. *)
Definition update_cell (sh : Sheet) (row col : nat) (v : pystr) : Sheet :=
  alter (λ r, <[pred col := v]> (r ++ replicate (col - length r) [])) (pred row) sh.

End Worksheet.

(** ** The world a handler runs in *)

(** [OrderStates] and [AdminStates]; a session without a state ([None]) is
    idle. *)
Inductive State :=
| ChoosingCake | ChoosingTaste | ChoosingSize | ChoosingDecor | Confirming
| ViewingOrders | UpdatingOrderStatus.

#[export] Instance State_eq_dec : EqDecision State.
Proof. solve_decision. Defined.

(** The FSM context's data dictionary: the draft collected so far. Its keys
    are the four the handlers store. *)
Record Data := mkData {
  chosen_cake : option dict;
  taste : option pystr;
  size : option pystr;
  decor : option pystr
}.

Definition no_data : Data := mkData None None None None.

Inductive sheet_name := ORDERS_SHEET_NAME | CAKES_SHEET_NAME.

(** Outbound texts. Each constructor stands for one literal (or f-string) of
    the source and carries the values the f-string interpolates. *)
Inductive text_out :=
| Hello_admin | Hello_user | Help_text
| Back_to_admin_menu | Back_to_user_menu
| Admin_cannot_use_command   (* cmd_menu's notice to an administrator *)
| Admin_cannot_use           (* the notice of the other customer handlers *)
| No_access                  (* the notice of the operator handlers *)
| Catalog_empty
| Cake_card (name price description : value)
| Ask_cake | No_such_cake
| Ask_taste | Ask_taste_for (name : value)
| Ask_size | Not_a_number | Ask_decor
| Confirm_prompt (name : value) (taste size decor : pystr)
| Order_accepted (order_id : Z) | Order_failed | Order_cancelled | Yes_or_no
| New_order_notice (order_id : Z) (user_name : pystr) (user_id : Z)
    (name : value) (taste size decor date : pystr)
| No_orders_yet | No_orders_available | No_pending_orders
| Orders_page (blocks : list (list value))
| Ask_status_input | Empty_status_input | Bad_format | Id_must_be_number
| Status_updated_notified (order_id new_status : pystr)
| Status_updated_order_missing (order_id new_status : pystr)
| Status_update_failed (order_id : pystr)
| Status_notice (order_id new_status : pystr)
| Bad_page_number.

(** An inline button: its label and its callback data. *)
Inductive button := Button (label callback_data : pystr).

(** What a handler does to the outside, in order. *)
Inductive event :=
| Fetched (sheet : sheet_name)                    (* get_all_values, get_all_records, row_values *)
| Appended (row : list value)                     (* append_row on the orders sheet *)
| Cell_updated (row col : nat) (v : pystr)        (* update_cell on the orders sheet *)
| Answer (t : text_out) (markup : list button)    (* message.answer *)
| Answer_photo (photo : value) (t : text_out)     (* message.answer_photo *)
| Send_message (chat_id : Z) (t : text_out)       (* bot.send_message *)
| Edit_text (t : text_out) (markup : list button) (* callback_query.message.edit_text *)
| Callback_answer (t : option text_out).          (* callback_query.answer *)

Record World := mkWorld {
  orders : Sheet;            (* the worksheet ORDERS_SHEET_NAME *)
  cakes : Sheet;             (* the worksheet CAKES_SHEET_NAME *)
  state : option State;      (* the sender's FSM state *)
  data : Data;               (* the sender's FSM data *)
  clock : pystr;             (* datetime.now().strftime("%Y-%m-%d %H:%M:%S") *)
  trace : list event         (* the events so far, oldest first *)
}.

(** An event that writes to the order ledger. *)
Definition is_ledger_write (e : event) : bool :=
  match e with
  | Appended _ | Cell_updated _ _ _ => true
  | _ => false
  end.

(** An event that reads the catalog. *)
Definition is_catalog_fetch (e : event) : bool :=
  match e with
  | Fetched CAKES_SHEET_NAME => true
  | _ => false
  end.

(** ** Statements with effects and exceptions

    A statement takes the world to a new world and either yields a value or
    raises; what it did before raising stays done. *)
Definition M (A : Type) : Type := World → res A * World.

#[export] Instance M_ret : MRet M := λ A a w, (Ok a, w).
#[export] Instance M_bind : MBind M := λ A B f m w,
  match m w with
  | (Ok a, w') => f a w'
  | (Raise e, w') => (Raise e, w')
  end.

(** The value of an expression that may raise. *)
Definition lift {A} (r : res A) : M A := λ w, (r, w).

(** [try: body except Exception: handler] *)
Definition try_except {A} (body handler : M A) : M A := λ w,
  match body w with
  | (Ok a, w') => (Ok a, w')
  | (Raise _, w') => handler w'
  end.

Definition emit (e : event) : M () := λ w,
  (Ok (), mkWorld (orders w) (cakes w) (state w) (data w) (clock w) (trace w ++ [e])).

Definition sheet_of (n : sheet_name) (w : World) : Sheet :=
  match n with
  | ORDERS_SHEET_NAME => orders w
  | CAKES_SHEET_NAME => cakes w
  end.

Definition set_orders (sh : Sheet) : M () := λ w,
  (Ok (), mkWorld sh (cakes w) (state w) (data w) (clock w) (trace w)).

(** The worksheet calls, as statements. *)
Definition get_all_values (n : sheet_name) : M (list (list pystr)) := λ w,
  (emit (Fetched n) ;; mret (Worksheet.get_all_values (sheet_of n w))) w.

Definition get_all_records (n : sheet_name) : M (list dict) := λ w,
  (emit (Fetched n) ;; mret (Worksheet.get_all_records (sheet_of n w))) w.

Definition row_values_1 (n : sheet_name) : M (list pystr) := λ w,
  (emit (Fetched n) ;; mret (Worksheet.header_row (sheet_of n w))) w.

Definition append_row (values : list value) : M () := λ w,
  (emit (Appended values) ;; set_orders (Worksheet.append_row (orders w) values)) w.

Definition update_cell (row col : nat) (v : pystr) : M () := λ w,
  (emit (Cell_updated row col v) ;; set_orders (Worksheet.update_cell (orders w) row col v)) w.

(** [datetime.datetime.now().strftime("%Y-%m-%d %H:%M:%S")] *)
Definition now_strftime : M pystr := λ w, (Ok (clock w), w).

(** The FSM context. *)
Definition set_state (s : State) : M () := λ w,
  (Ok (), mkWorld (orders w) (cakes w) (Some s) (data w) (clock w) (trace w)).

Definition state_clear : M () := λ w,
  (Ok (), mkWorld (orders w) (cakes w) None no_data (clock w) (trace w)).

Definition get_data : M Data := λ w, (Ok (data w), w).

Definition update_data (f : Data → Data) : M () := λ w,
  (Ok (), mkWorld (orders w) (cakes w) (state w) (f (data w)) (clock w) (trace w)).

(** [data[key]] on the FSM data. *)
Definition data_item {A} (field : option A) : M A :=
  lift (match field with Some a => Ok a | None => Raise KeyError end).

(** [message.answer(text, reply_markup=...)] and its relatives. Of the
    markups only the inline buttons are kept; a send is taken to go through. *)
Definition answer (t : text_out) : M () := emit (Answer t []).
Definition answer_with (t : text_out) (markup : list button) : M () := emit (Answer t markup).
Definition answer_photo (photo : value) (t : text_out) : M () := emit (Answer_photo photo t).
Definition send_message (chat_id : Z) (t : text_out) : M () := emit (Send_message chat_id t).
Definition edit_text (t : text_out) (markup : list button) : M () := emit (Edit_text t markup).
Definition callback_answer (t : option text_out) : M () := emit (Callback_answer t).

(** An inbound text message: [message.text] is a [str], and the sender is
    known. *)
Record Message := mkMessage {
  from_user_id : Z;
  from_user_username : option pystr;
  from_user_full_name : pystr;
  text : pystr
}.

(** [message.from_user.username or message.from_user.full_name] *)
Definition username_or_full_name (m : Message) : pystr :=
  match from_user_username m with
  | Some (c :: u) => c :: u
  | _ => from_user_full_name m
  end.

(** A button press; [callback_data] is the pressed button's. *)
Record CallbackQuery := mkCallbackQuery {
  callback_from_user : Message;    (* the sender, as in a message; its text is unused *)
  callback_data : pystr
}.

(** ** Helpers shared by the three bots *)

#[export] Instance res_ret : MRet res := λ A a, Ok a.
#[export] Instance res_bind : MBind res := λ A B f r,
  match r with
  | Ok a => f a
  | Raise e => Raise e
  end.

(** [for x in l: body(x)] *)
Fixpoint for_each {A} (l : list A) (body : A → M ()) : M () :=
  match l with
  | [] => mret ()
  | x :: l' => body x ;; for_each l' body
  end.

(** [[f(x) for x in l]], stopping at the first exception. *)
Fixpoint map_res {A B} (f : A → res B) (l : list A) : res (list B) :=
  match l with
  | [] => Ok []
  | x :: l' => y ← f x; ys ← map_res f l'; mret (y :: ys)
  end.

(** [l.index(x)] for an [x] that occurs in [l]. *)
Fixpoint index (x : pystr) (l : list pystr) : nat :=
  match l with
  | [] => 0
  | y :: l' => if decide (y = x) then 0%nat else S (index x l')
  end.

(** [l[-1]] *)
Definition last_item {A} (l : list A) : res A :=
  match last l with
  | Some x => Ok x
  | None => Raise IndexError
  end.

(** [l[0]] *)
Definition first_item {A} (l : list A) : res A :=
  match l with
  | x :: _ => Ok x
  | [] => Raise IndexError
  end.

(** A slice bound, as Python places it in a list of length [len]. *)
Definition slice_bound (len i : Z) : Z :=
  if i <? 0 then Z.max (i + len) 0 else Z.min i len.

(** [l[start:stop]] *)
Definition slice {A} (l : list A) (start stop : Z) : list A :=
  let len := Z.of_nat (length l) in
  let a := slice_bound len start in
  let b := slice_bound len stop in
  take (Z.to_nat (b - a)) (drop (Z.to_nat a) l).

(** Stable insertion into a list sorted by descending key: before the first
    entry whose key is not larger. *)
Fixpoint insert_desc {A} (k : Z) (x : A) (l : list (Z * A)) : list (Z * A) :=
  match l with
  | [] => [(k, x)]
  | (k', y) :: l' =>
      if k' <=? k then (k, x) :: l else (k', y) :: insert_desc k x l'
  end.

(** The stable sort by descending key that [sorted(..., reverse=True)]
    computes. *)
Definition sort_desc {A} (l : list (Z * A)) : list (Z * A) :=
  foldr (λ kx acc, insert_desc kx.1 kx.2 acc) [] l.

(** [sorted(l, key=key, reverse=True)]: the keys are computed first, for
    every element; an exception of [key] ends the call. *)
Definition sorted_reverse {A} (key : A → res Z) (l : list A) : res (list A) :=
  keyed ← map_res (λ x, k ← key x; mret (k, x)) l;
  mret (snd <$> sort_desc keyed).

(** The number of pages, as every variant computes it:
    [(total + page_size - 1) // page_size]. *)
Definition page_count (total page_size : Z) : Z := (total + page_size - 1) `div` page_size.

(** The status every new order gets. *)
Definition initial_status : pystr :=
  Eval cbv in lit "ожидается подтверждение администратора".

Definition CANCEL_TEXT : pystr := Eval cbv in lit "Отмена".

(** The texts aiogram's [Command(name)] accepts: the first word is [/name],
    alone or followed by a mention (taken to be a mention of this bot). *)
Definition is_command (name : string) (t : pystr) : bool :=
  match split_maxsplit1 t with
  | word :: _ =>
      bool_decide (word = lit "/" ++ lit name)
      || bool_decide (take (length (lit name) + 2) word = lit "/" ++ lit name ++ lit "@")
  | [] => false
  end.

(** ** combined_bot.py *)

Module CombinedBot.
Section Bot.

(** The operator allow-list, read from the environment at start-up. *)
Variable ADMIN_IDS : list Z.

(** [datetime.datetime.strptime(s, "%Y-%m-%d %H:%M:%S")] is the standard
    library's: the parsed time as a count of seconds, or nothing where the
    call raises [ValueError]. *)
Variable strptime : pystr → option Z.

Definition is_admin (user_id : Z) : bool := bool_decide (user_id ∈ ADMIN_IDS).

Definition get_catalog_of_cakes : M (list dict) :=
  try_except (get_all_records CAKES_SHEET_NAME) (mret []).

Definition get_all_orders : M (list dict) :=
  try_except (get_all_records ORDERS_SHEET_NAME) (mret []).

Definition get_all_orders_by_user (user_id : Z) : M (list dict) :=
  try_except
    (all_orders ← get_all_records ORDERS_SHEET_NAME;
     mret (filter (λ order, strip (str (get_or order (lit "user_id") (VStr [])))
                            = strip (str (VInt user_id))) all_orders))
    (mret []).

Definition create_new_order (user_id : Z) (user_name : pystr) (cake : dict)
    (taste size decor : pystr) : M (option Z) :=
  try_except
    (all_values ← get_all_values ORDERS_SHEET_NAME;
     order_id ← lift (if decide (length all_values < 2)%nat then Ok 1
                      else last_order ← last_item all_values;
                           cell ← first_item last_order;
                           n ← int_of_str cell;
                           mret (n + 1));
     let status := initial_status in
     current_date ← now_strftime;
     row ← lift (name ← getitem cake (lit "name");
                 name ← strip_value name;
                 price ← getitem cake (lit "price");
                 mret [VInt order_id;
                       VStr (strip (str (VInt user_id)));
                       VStr (strip user_name);
                       VStr name;
                       VStr (strip (str price));
                       VStr (strip taste);
                       VStr (strip (str (VStr size)));
                       VStr (strip decor);
                       VStr status;
                       VStr current_date]);
     append_row row;;
     mret (Some order_id))
    (mret None).

(** The loop of [update_order_status] over [enumerate(all_orders, start=2)]. *)
Fixpoint find_and_update (order_id : value) (status_col : nat) (new_status : pystr)
    (idx : nat) (all_orders : list dict) : M bool :=
  match all_orders with
  | [] => mret false
  | order :: rest =>
      if decide (str (get order (lit "OrderID")) = str order_id)
      then update_cell idx status_col new_status ;; mret true
      else find_and_update order_id status_col new_status (S idx) rest
  end.

Definition update_order_status (order_id : value) (new_status : pystr) : M bool :=
  try_except
    (all_orders ← get_all_records ORDERS_SHEET_NAME;
     headers ← row_values_1 ORDERS_SHEET_NAME;
     if negb (bool_decide (lit "status" ∈ headers)) then mret false
     else
       let status_col := (index (lit "status") headers + 1)%nat in
       find_and_update order_id status_col new_status 2 all_orders)
    (mret false).

Definition send_status_update (user_id : Z) (order_id new_status : pystr) : M () :=
  try_except (send_message user_id (Status_notice order_id new_status)) (mret ()).

Definition cmd_start (message : Message) : M () :=
  (if is_admin (from_user_id message) then answer Hello_admin else answer Hello_user) ;;
  state_clear.

(** The text and photo of one catalog entry. *)
Definition show_cake (cake : dict) : M () :=
  name ← lift (getitem cake (lit "name"));
  price ← lift (getitem cake (lit "price"));
  description ← lift (getitem cake (lit "description"));
  let photo := get cake (lit "photo") in
  if truthy photo then answer_photo photo (Cake_card name price description)
  else answer (Cake_card name price description).

Definition cmd_menu (message : Message) : M () :=
  (if is_admin (from_user_id message) then answer Admin_cannot_use_command else mret ()) ;;
  catalog ← get_catalog_of_cakes;
  if decide (catalog = []) then answer Catalog_empty
  else
    for_each catalog show_cake ;;
    answer Ask_cake ;;
    set_state ChoosingCake.

(** [next((cake for cake in catalog if cake['name'].lower() == name.lower()), None)] *)
Fixpoint find_cake (catalog : list dict) (name : pystr) : res (option dict) :=
  match catalog with
  | [] => Ok None
  | cake :: rest =>
      n ← getitem cake (lit "name");
      n ← lower_value n;
      if decide (n = lower name) then Ok (Some cake) else find_cake rest name
  end.

Definition process_choosing_cake (message : Message) : M () :=
  (if is_admin (from_user_id message) then answer Admin_cannot_use else mret ()) ;;
  let chosen_cake_name := strip (text message) in
  catalog ← get_catalog_of_cakes;
  chosen_cake ← lift (find_cake catalog chosen_cake_name);
  match chosen_cake with
  | None => answer No_such_cake
  | Some cake =>
      if decide (cake = ∅) then answer No_such_cake
      else
        update_data (λ d, mkData (Some cake) (taste d) (size d) (decor d)) ;;
        name ← lift (getitem cake (lit "name"));
        answer (Ask_taste_for name) ;;
        set_state ChoosingTaste
  end.

Definition process_choosing_taste (message : Message) : M () :=
  (if is_admin (from_user_id message) then answer Admin_cannot_use else mret ()) ;;
  let taste' := strip (text message) in
  update_data (λ d, mkData (chosen_cake d) (Some taste') (size d) (decor d)) ;;
  answer Ask_size ;;
  set_state ChoosingSize.

Definition process_choosing_size (message : Message) : M () :=
  (if is_admin (from_user_id message) then answer Admin_cannot_use else mret ()) ;;
  let size' := strip (text message) in
  if negb (isdigit size') then answer Not_a_number
  else
    update_data (λ d, mkData (chosen_cake d) (taste d) (Some size') (decor d)) ;;
    answer Ask_decor ;;
    set_state ChoosingDecor.

Definition process_choosing_decor (message : Message) : M () :=
  (if is_admin (from_user_id message) then answer Admin_cannot_use else mret ()) ;;
  let decor' := strip (text message) in
  update_data (λ d, mkData (chosen_cake d) (taste d) (size d) (Some decor')) ;;
  d ← get_data;
  cake ← data_item (chosen_cake d);
  taste' ← data_item (taste d);
  size' ← data_item (size d);
  decor' ← data_item (decor d);
  name ← lift (getitem cake (lit "name"));
  answer (Confirm_prompt name taste' size' decor') ;;
  set_state Confirming.

(** The notice of a new order, sent to every operator; a failed send is
    logged and the loop goes on. *)
Definition notify_admins (order_id : Z) (user_name : pystr) (user_id : Z)
    (d : Data) (current_date : pystr) : M () :=
  for_each ADMIN_IDS (λ admin_id,
    try_except
      (cake ← data_item (chosen_cake d);
       name ← lift (getitem cake (lit "name"));
       taste' ← data_item (taste d);
       size' ← data_item (size d);
       decor' ← data_item (decor d);
       send_message admin_id
         (New_order_notice order_id user_name user_id name taste' size' decor' current_date))
      (mret ())).

Definition process_confirming (message : Message) : M () :=
  (if is_admin (from_user_id message) then answer Admin_cannot_use else mret ()) ;;
  let response := lower (strip (text message)) in
  if decide (response = lit "да") then
    d ← get_data;
    let user_id := from_user_id message in
    let user_name := username_or_full_name message in
    cake ← data_item (chosen_cake d);
    taste' ← data_item (taste d);
    size' ← data_item (size d);
    decor' ← data_item (decor d);
    order_id ← create_new_order user_id user_name cake taste' size' decor';
    match order_id with
    | Some order_id =>
        answer (Order_accepted order_id) ;;
        current_date ← now_strftime;
        notify_admins order_id user_name user_id d current_date
    | None => answer Order_failed
    end ;;
    state_clear
  else if decide (response = lit "нет") then
    answer Order_cancelled ;;
    state_clear
  else answer Yes_or_no.

(** The sort key of an order: [strptime(x['date'], ...)]. *)
Definition date_key (x : dict) : res Z :=
  d ← getitem x (lit "date");
  match d with
  | VStr s => match strptime s with Some t => Ok t | None => Raise ValueError end
  | _ => Raise TypeError
  end.

(** [try: sorted(...) except Exception: the list as it is] *)
Definition sort_orders (orders : list dict) : list dict :=
  match sorted_reverse date_key orders with
  | Ok sorted_orders => sorted_orders
  | Raise _ => orders
  end.

(** The fields of an order the customer's list shows. *)
Definition user_block (order : dict) : res (list value) :=
  map_res (getitem order)
    [lit "OrderID"; lit "cake_name"; lit "price"; lit "taste"; lit "size";
     lit "decor"; lit "status"; lit "date"].

(** The fields of an order the operator's list shows. *)
Definition admin_block (order : dict) : res (list value) :=
  map_res (getitem order)
    [lit "OrderID"; lit "user_name"; lit "user_id"; lit "cake_name"; lit "price";
     lit "taste"; lit "size"; lit "decor"; lit "status"; lit "date"].

(** [for page in range(pages): ...], one message per page. *)
Definition send_pages (block : dict → res (list value)) (sorted_orders : list dict)
    (page_size : Z) : M () :=
  let total_orders := Z.of_nat (length sorted_orders) in
  let pages := page_count total_orders page_size in
  for_each (seqZ 0 pages) (λ page,
    let start := page * page_size in
    let end_ := start + page_size in
    let orders_slice := slice sorted_orders start end_ in
    blocks ← lift (map_res block orders_slice);
    answer (Orders_page blocks)).

Definition cmd_status (message : Message) : M () :=
  (if is_admin (from_user_id message) then answer Admin_cannot_use else mret ()) ;;
  let user_id := from_user_id message in
  user_orders ← get_all_orders_by_user user_id;
  if decide (user_orders = []) then answer No_orders_yet
  else send_pages user_block (sort_orders user_orders) 5.

Definition admin_cmd_help (message : Message) : M () :=
  if negb (is_admin (from_user_id message)) then answer No_access
  else answer Help_text ;; state_clear.

Definition admin_cmd_view_orders (message : Message) : M () :=
  if negb (is_admin (from_user_id message)) then answer No_access
  else
    all_orders ← get_all_orders;
    if decide (all_orders = []) then answer No_orders_available
    else
      let filtered_orders :=
        filter (λ order, get order (lit "status") ≠ VStr (lit "Доставлен")) all_orders in
      if decide (filtered_orders = []) then answer No_pending_orders
      else send_pages admin_block (sort_orders filtered_orders) 10.

Definition admin_cmd_update_status (message : Message) : M () :=
  if negb (is_admin (from_user_id message)) then answer No_access
  else answer Ask_status_input ;; set_state UpdatingOrderStatus.

(** [next((o for o in all_orders if str(o['OrderID']) == str(order_id)), None)] *)
Fixpoint find_order (all_orders : list dict) (order_id : pystr) : res (option dict) :=
  match all_orders with
  | [] => Ok None
  | o :: rest =>
      i ← getitem o (lit "OrderID");
      if decide (str i = order_id) then Ok (Some o) else find_order rest order_id
  end.

Definition process_update_status (message : Message) : M () :=
  if negb (is_admin (from_user_id message)) then answer No_access
  else
    let input_text := strip (text message) in
    if decide (input_text = []) then answer Empty_status_input
    else
      match split_maxsplit1 input_text with
      | [order_id; new_status] =>
          if negb (isdigit order_id) then answer Id_must_be_number
          else
            success ← update_order_status (VStr order_id) new_status;
            (if (success : bool) then
               all_orders ← get_all_orders;
               order ← lift (find_order all_orders order_id);
               match order with
               | Some o =>
                   if decide (o = ∅)
                   then answer (Status_updated_order_missing order_id new_status)
                   else
                     uid ← lift (getitem o (lit "user_id"));
                     user_id_to_notify ← lift (int uid);
                     send_status_update user_id_to_notify order_id new_status ;;
                     answer (Status_updated_notified order_id new_status)
               | None => answer (Status_updated_order_missing order_id new_status)
               end
             else answer (Status_update_failed order_id)) ;;
            state_clear
      | _ => answer Bad_format
      end.

End Bot.
End CombinedBot.

(** ** Routing

    A router tries its handlers in the order of their registration and runs
    the first whose filter accepts the message; a message no filter accepts
    is dropped. *)

Definition filter_of := Message → option State → bool.

(** [Command(name)] *)
Definition command (name : string) : filter_of := λ m _, is_command name (text m).

(** [lambda m: m.text == s] *)
Definition text_is (s : pystr) : filter_of := λ m _, bool_decide (text m = s).

(** A state of [OrderStates] or [AdminStates] as a filter. *)
Definition in_state (s : State) : filter_of := λ _ st, bool_decide (st = Some s).

Fixpoint route (handlers : list (filter_of * (Message → M ()))) (m : Message)
    (st : option State) : option (Message → M ()) :=
  match handlers with
  | [] => None
  | (accepts, handler) :: rest =>
      if accepts m st then Some handler else route rest m st
  end.

Definition dispatch_with (handlers : list (filter_of * (Message → M ()))) (m : Message) : M () :=
  λ w, match route handlers m (state w) with
       | Some handler => handler m w
       | None => (Ok (), w)
       end.

(** ** user_bot.py *)

Module UserBot.
Section Bot.

Variable ADMIN_IDS : list Z.
Variable strptime : pystr → option Z.

Definition is_admin (user_id : Z) : bool := bool_decide (user_id ∈ ADMIN_IDS).

(** The spreadsheet functions have the text of those of combined_bot.py. *)
Definition get_catalog_of_cakes : M (list dict) := CombinedBot.get_catalog_of_cakes.
Definition get_all_orders : M (list dict) := CombinedBot.get_all_orders.
Definition get_all_orders_by_user : Z → M (list dict) := CombinedBot.get_all_orders_by_user.
Definition create_new_order : Z → pystr → dict → pystr → pystr → pystr → M (option Z) :=
  CombinedBot.create_new_order.
Definition update_order_status : value → pystr → M bool := CombinedBot.update_order_status.
Definition send_status_update : Z → pystr → pystr → M () := CombinedBot.send_status_update.

Definition handle_start (message : Message) : M () :=
  state_clear ;;
  if is_admin (from_user_id message) then answer Hello_admin else answer Hello_user.

Definition handle_cancel (message : Message) : M () :=
  state_clear ;;
  if is_admin (from_user_id message) then answer Back_to_admin_menu
  else answer Back_to_user_menu.

Definition user_make_order (message : Message) : M () :=
  (if is_admin (from_user_id message) then answer Admin_cannot_use else mret ()) ;;
  catalog ← get_catalog_of_cakes;
  if decide (catalog = []) then answer Catalog_empty
  else
    for_each catalog CombinedBot.show_cake ;;
    answer Ask_cake ;;
    set_state ChoosingCake.

Definition user_check_status (message : Message) : M () :=
  (if is_admin (from_user_id message) then answer Admin_cannot_use else mret ()) ;;
  orders ← get_all_orders_by_user (from_user_id message);
  if decide (orders = []) then answer No_orders_yet
  else
    CombinedBot.send_pages CombinedBot.user_block
      (CombinedBot.sort_orders strptime orders) 5.

Definition user_choosing_cake (message : Message) : M () :=
  if decide (text message = lit "Отмена") then handle_cancel message
  else
    (if is_admin (from_user_id message) then answer Admin_cannot_use else mret ()) ;;
    let chosen_cake_name := strip (text message) in
    catalog ← get_catalog_of_cakes;
    chosen_cake ← lift (CombinedBot.find_cake catalog chosen_cake_name);
    match chosen_cake with
    | None => answer No_such_cake
    | Some cake =>
        if decide (cake = ∅) then answer No_such_cake
        else
          update_data (λ d, mkData (Some cake) (taste d) (size d) (decor d)) ;;
          answer Ask_taste ;;
          set_state ChoosingTaste
    end.

Definition user_choosing_taste (message : Message) : M () :=
  if decide (text message = lit "Отмена") then handle_cancel message
  else
    update_data (λ d, mkData (chosen_cake d) (Some (strip (text message))) (size d) (decor d)) ;;
    answer Ask_size ;;
    set_state ChoosingSize.

Definition user_choosing_size (message : Message) : M () :=
  if decide (text message = lit "Отмена") then handle_cancel message
  else
    let size' := strip (text message) in
    if negb (isdigit size') then answer Not_a_number
    else
      update_data (λ d, mkData (chosen_cake d) (taste d) (Some size') (decor d)) ;;
      answer Ask_decor ;;
      set_state ChoosingDecor.

Definition user_choosing_decor (message : Message) : M () :=
  if decide (text message = lit "Отмена") then handle_cancel message
  else
    update_data (λ d, mkData (chosen_cake d) (taste d) (size d) (Some (strip (text message)))) ;;
    d ← get_data;
    cake ← data_item (chosen_cake d);
    taste' ← data_item (taste d);
    size' ← data_item (size d);
    decor' ← data_item (decor d);
    name ← lift (getitem cake (lit "name"));
    answer (Confirm_prompt name taste' size' decor') ;;
    set_state Confirming.

Definition user_confirming_order (message : Message) : M () :=
  let response := lower (text message) in
  if decide (response = lit "отмена") then handle_cancel message
  else
    d ← get_data;
    let user_id := from_user_id message in
    let user_name := username_or_full_name message in
    if decide (response = lit "да") then
      cake ← data_item (chosen_cake d);
      taste' ← data_item (taste d);
      size' ← data_item (size d);
      decor' ← data_item (decor d);
      order_id ← create_new_order user_id user_name cake taste' size' decor';
      match order_id with
      | Some order_id =>
          answer (Order_accepted order_id) ;;
          current_date ← now_strftime;
          CombinedBot.notify_admins ADMIN_IDS order_id user_name user_id d current_date
      | None => answer Order_failed
      end ;;
      state_clear
    else if decide (response = lit "нет") then
      answer Order_cancelled ;;
      state_clear
    else answer Yes_or_no.

Definition admin_view_orders_menu (message : Message) : M () :=
  if negb (is_admin (from_user_id message)) then answer No_access
  else
    all_orders ← get_all_orders;
    if decide (all_orders = []) then answer No_orders_available
    else
      let filtered_orders :=
        filter (λ o, get o (lit "status") ≠ VStr (lit "Доставлен")) all_orders in
      if decide (filtered_orders = []) then answer No_pending_orders
      else
        CombinedBot.send_pages CombinedBot.admin_block
          (CombinedBot.sort_orders strptime filtered_orders) 10.

Definition admin_update_status_menu (message : Message) : M () :=
  if negb (is_admin (from_user_id message)) then answer No_access
  else answer Ask_status_input ;; set_state UpdatingOrderStatus.

Definition admin_process_update_status (message : Message) : M () :=
  if decide (text message = lit "Отмена") then handle_cancel message
  else if negb (is_admin (from_user_id message)) then answer No_access
  else
    match split_maxsplit1 (strip (text message)) with
    | [order_id; new_status] =>
        if negb (isdigit order_id) then answer Id_must_be_number
        else
          success ← update_order_status (VStr order_id) new_status;
          (if (success : bool) then
             all_orders ← get_all_orders;
             order ← lift (CombinedBot.find_order all_orders order_id);
             match order with
             | Some o =>
                 if decide (o = ∅)
                 then answer (Status_updated_order_missing order_id new_status)
                 else
                   uid ← lift (getitem o (lit "user_id"));
                   user_id_to_notify ← lift (int uid);
                   send_status_update user_id_to_notify order_id new_status ;;
                   answer (Status_updated_notified order_id new_status)
             | None => answer (Status_updated_order_missing order_id new_status)
             end
           else answer (Status_update_failed order_id)) ;;
          state_clear
    | _ => answer Bad_format
    end.

(** The handlers, in the order the decorators register them. *)
Definition router : list (filter_of * (Message → M ())) :=
  [ (command "start", handle_start);
    (text_is (lit "Отмена"), handle_cancel);
    (text_is (lit "Сделать заказ"), user_make_order);
    (text_is (lit "Статус заказов"), user_check_status);
    (in_state ChoosingCake, user_choosing_cake);
    (in_state ChoosingTaste, user_choosing_taste);
    (in_state ChoosingSize, user_choosing_size);
    (in_state ChoosingDecor, user_choosing_decor);
    (in_state Confirming, user_confirming_order);
    (text_is (lit "Просмотреть заказы"), admin_view_orders_menu);
    (text_is (lit "Обновить статус заказа"), admin_update_status_menu);
    (in_state UpdatingOrderStatus, admin_process_update_status) ].

Definition dispatch : Message → M () := dispatch_with router.

End Bot.
End UserBot.

(** ** o3.py *)

(** [s.split(":")] *)
Fixpoint split_colon (s : pystr) : list pystr :=
  match s with
  | [] => [[]]
  | c :: s' =>
      if (c =? 58)%N then [] :: split_colon s'
      else match split_colon s' with
           | piece :: pieces => (c :: piece) :: pieces
           | [] => [[c]]
           end
  end.

(** [l[1]] *)
Definition second_item {A} (l : list A) : res A :=
  match l with
  | _ :: x :: _ => Ok x
  | _ => Raise IndexError
  end.

Module O3.
Section Bot.

Variable ADMIN_IDS : list Z.
Variable strptime : pystr → option Z.

Definition is_admin (user_id : Z) : bool := bool_decide (user_id ∈ ADMIN_IDS).

Definition handle_cancel (message : Message) : M () :=
  state_clear ;;
  if is_admin (from_user_id message) then answer Back_to_admin_menu
  else answer Back_to_user_menu.

Definition get_catalog_of_cakes : M (list dict) :=
  try_except (get_all_records CAKES_SHEET_NAME) (mret []).

Definition get_all_orders : M (list dict) :=
  try_except (get_all_records ORDERS_SHEET_NAME) (mret []).

Definition get_all_orders_by_user (user_id : Z) : M (list dict) :=
  try_except
    (all_orders ← get_all_records ORDERS_SHEET_NAME;
     mret (filter (λ o, strip (str (get_or o (lit "user_id") (VStr [])))
                        = str (VInt user_id)) all_orders))
    (mret []).

Definition create_new_order (user_id : Z) (user_name : pystr) (cake : dict)
    (taste size decor : pystr) : M (option Z) :=
  try_except
    (all_values ← get_all_values ORDERS_SHEET_NAME;
     order_id ← lift (if decide (length all_values < 2)%nat then Ok 1
                      else last_row ← last_item all_values;
                           cell ← first_item last_row;
                           n ← int_of_str cell;
                           mret (n + 1));
     let status := initial_status in
     current_date ← now_strftime;
     row ← lift (name ← strip_value (get_or cake (lit "name") (VStr []));
                 mret [VInt order_id;
                       VStr (str (VInt user_id));
                       VStr (strip user_name);
                       VStr name;
                       VStr (strip (str (get_or cake (lit "price") (VStr []))));
                       VStr (strip taste);
                       VStr (strip size);
                       VStr (strip decor);
                       VStr status;
                       VStr current_date]);
     append_row row;;
     mret (Some order_id))
    (mret None).

Definition update_order_status (order_id : pystr) (new_status : pystr) : M bool :=
  try_except
    (all_orders ← get_all_records ORDERS_SHEET_NAME;
     headers ← row_values_1 ORDERS_SHEET_NAME;
     if negb (bool_decide (lit "status" ∈ headers)) then mret false
     else
       let status_col := (index (lit "status") headers + 1)%nat in
       CombinedBot.find_and_update (VStr order_id) status_col new_status 2 all_orders)
    (mret false).

Definition send_status_update (user_id : Z) (order_id new_status : pystr) : M () :=
  try_except (send_message user_id (Status_notice order_id new_status)) (mret ()).

(** The fields of an order on a page, each read with [o.get]. *)
Definition page_block (o : dict) : list value :=
  get o <$> [lit "OrderID"; lit "cake_name"; lit "price"; lit "taste"; lit "size";
             lit "decor"; lit "status"; lit "date"].

(** The page of a list of orders and its buttons. The keyboard is built
    with [InlineKeyboardButton(label, callback_data=...)],
    [InlineKeyboardMarkup(row_width=2)] and [markup.add], the calls of the
    library's earlier interface; they are taken to build the row of buttons
    they name. *)
Definition get_orders_page_text_and_markup (orders : list dict) (page page_size : Z)
    : res (text_out * list button) :=
  let total := Z.of_nat (length orders) in
  if decide (page_size = 0) then Raise ZeroDivisionError
  else
    let pages := page_count total page_size in
    let start := page * page_size in
    let end_ := start + page_size in
    let chunk := slice orders start end_ in
    let text := Orders_page (page_block <$> chunk) in
    let buttons :=
      (if decide (page > 0)
       then [Button (lit "Назад") (lit "orders_page:" ++ str_of_int (page - 1))] else [])
      ++ (if decide (page < pages - 1)
          then [Button (lit "Вперёд") (lit "orders_page:" ++ str_of_int (page + 1))] else []) in
    Ok (text, buttons).

Definition handle_start (message : Message) : M () :=
  state_clear ;;
  if is_admin (from_user_id message) then answer Hello_admin else answer Hello_user.

Definition handle_cancel_command (message : Message) : M () := handle_cancel message.

(** The text and photo of one catalog entry, each field read with [get]. *)
Definition show_cake (cake : dict) : M () :=
  let card := Cake_card (get_or cake (lit "name") (VStr []))
                (get_or cake (lit "price") (VStr []))
                (get_or cake (lit "description") (VStr [])) in
  let photo := get cake (lit "photo") in
  if truthy photo then answer_photo photo card else answer card.

Definition user_make_order (message : Message) : M () :=
  if is_admin (from_user_id message) then answer Admin_cannot_use
  else
    catalog ← get_catalog_of_cakes;
    if decide (catalog = []) then answer Catalog_empty
    else
      for_each catalog show_cake ;;
      answer Ask_cake ;;
      set_state ChoosingCake.

(** The sort key of an order: [strptime(x.get('date', ''), ...)]. *)
Definition date_key (x : dict) : res Z :=
  match get_or x (lit "date") (VStr []) with
  | VStr s => match strptime s with Some t => Ok t | None => Raise ValueError end
  | _ => Raise TypeError
  end.

(** [try: sorted(...) except Exception: the list as it is] *)
Definition sort_orders (orders : list dict) : list dict :=
  match sorted_reverse date_key orders with
  | Ok sorted_orders => sorted_orders
  | Raise _ => orders
  end.

Definition user_check_status (message : Message) : M () :=
  if is_admin (from_user_id message) then answer Admin_cannot_use
  else
    orders ← get_all_orders_by_user (from_user_id message);
    if decide (orders = []) then answer No_orders_yet
    else
      let sorted_orders := sort_orders orders in
      let page := 0 in
      let page_size := 1 in
      '(text, markup) ← lift (get_orders_page_text_and_markup sorted_orders page page_size);
      answer_with text markup.

Definition orders_pagination_callback (callback_query : CallbackQuery) : M () :=
  match (piece ← second_item (split_colon (callback_data callback_query)); int_of_str piece) with
  | Raise ValueError => callback_answer (Some Bad_page_number)
  | Raise e => lift (Raise e)
  | Ok page =>
      orders ← get_all_orders_by_user (from_user_id (callback_from_user callback_query));
      if decide (orders = []) then edit_text No_orders_yet [] ;; callback_answer None
      else
        let sorted_orders := sort_orders orders in
        let page_size := 1 in
        '(text, markup) ← lift (get_orders_page_text_and_markup sorted_orders page page_size);
        edit_text text markup ;;
        callback_answer None
  end.

(** [next((c for c in catalog if c.get('name', '').lower() == name.lower()), None)] *)
Fixpoint find_cake (catalog : list dict) (name : pystr) : res (option dict) :=
  match catalog with
  | [] => Ok None
  | c :: rest =>
      n ← lower_value (get_or c (lit "name") (VStr []));
      if decide (n = lower name) then Ok (Some c) else find_cake rest name
  end.

Definition user_choosing_cake (message : Message) : M () :=
  if decide (lower (strip (text message)) = lower CANCEL_TEXT) then handle_cancel message
  else if is_admin (from_user_id message) then answer Admin_cannot_use
  else
    let chosen_cake_name := strip (text message) in
    catalog ← get_catalog_of_cakes;
    chosen_cake ← lift (find_cake catalog chosen_cake_name);
    match chosen_cake with
    | None => answer No_such_cake
    | Some cake =>
        if decide (cake = ∅) then answer No_such_cake
        else
          update_data (λ d, mkData (Some cake) (taste d) (size d) (decor d)) ;;
          answer Ask_taste ;;
          set_state ChoosingTaste
    end.

Definition user_choosing_taste (message : Message) : M () :=
  if decide (lower (strip (text message)) = lower CANCEL_TEXT) then handle_cancel message
  else
    update_data (λ d, mkData (chosen_cake d) (Some (strip (text message))) (size d) (decor d)) ;;
    answer Ask_size ;;
    set_state ChoosingSize.

Definition user_choosing_size (message : Message) : M () :=
  if decide (lower (strip (text message)) = lower CANCEL_TEXT) then handle_cancel message
  else
    let size' := strip (text message) in
    if negb (isdigit size') then answer Not_a_number
    else
      update_data (λ d, mkData (chosen_cake d) (taste d) (Some size') (decor d)) ;;
      answer Ask_decor ;;
      set_state ChoosingDecor.

Definition user_choosing_decor (message : Message) : M () :=
  if decide (lower (strip (text message)) = lower CANCEL_TEXT) then handle_cancel message
  else
    update_data (λ d, mkData (chosen_cake d) (taste d) (size d) (Some (strip (text message)))) ;;
    d ← get_data;
    let cake := default ∅ (chosen_cake d) in
    let taste' := default [] (taste d) in
    let size' := default [] (size d) in
    let decor' := default [] (decor d) in
    answer_with (Confirm_prompt (get_or cake (lit "name") (VStr [])) taste' size' decor')
      [Button (lit "Да") (lit "confirm_order:yes"); Button (lit "Нет") (lit "confirm_order:no")] ;;
    set_state Confirming.

Definition notify_admins (order_id : Z) (user_name : pystr) (user_id : Z)
    (d : Data) (current_date : pystr) : M () :=
  for_each ADMIN_IDS (λ admin_id,
    try_except
      (send_message admin_id
         (New_order_notice order_id user_name user_id
            (get_or (default ∅ (chosen_cake d)) (lit "name") (VStr []))
            (default [] (taste d)) (default [] (size d)) (default [] (decor d))
            current_date))
      (mret ())).

Definition order_confirmation_callback (callback_query : CallbackQuery) : M () :=
  piece ← lift (second_item (split_colon (callback_data callback_query)));
  let response := lower piece in
  if decide (response = lit "no") then
    edit_text Order_cancelled [] ;;
    state_clear ;;
    callback_answer None
  else
    d ← get_data;
    let user_id := from_user_id (callback_from_user callback_query) in
    let user_name := username_or_full_name (callback_from_user callback_query) in
    order_id ← create_new_order user_id user_name
                 (default ∅ (chosen_cake d)) (default [] (taste d))
                 (default [] (size d)) (default [] (decor d));
    match order_id with
    | Some order_id =>
        edit_text (Order_accepted order_id) [] ;;
        current_date ← now_strftime;
        notify_admins order_id user_name user_id d current_date
    | None => edit_text Order_failed []
    end ;;
    state_clear ;;
    callback_answer None.

(** The fields of an order the operator's list shows, each read with [o.get]. *)
Definition admin_block (o : dict) : res (list value) :=
  Ok (get o <$> [lit "OrderID"; lit "user_name"; lit "user_id"; lit "cake_name";
                 lit "price"; lit "taste"; lit "size"; lit "decor"; lit "status";
                 lit "date"]).

Definition admin_view_orders_menu (message : Message) : M () :=
  if negb (is_admin (from_user_id message)) then answer No_access
  else
    all_orders ← get_all_orders;
    if decide (all_orders = []) then answer No_orders_available
    else
      let filtered_orders :=
        filter (λ o, get o (lit "status") ≠ VStr (lit "Доставлен")) all_orders in
      if decide (filtered_orders = []) then answer No_pending_orders
      else CombinedBot.send_pages admin_block (sort_orders filtered_orders) 10.

Definition admin_update_status_menu (message : Message) : M () :=
  if negb (is_admin (from_user_id message)) then answer No_access
  else answer Ask_status_input ;; set_state UpdatingOrderStatus.

(** [next((o for o in all_orders if str(o.get('OrderID')) == order_id), None)] *)
Definition find_order (all_orders : list dict) (order_id : pystr) : option dict :=
  head (filter (λ o, str (get o (lit "OrderID")) = order_id) all_orders).

Definition admin_process_update_status (message : Message) : M () :=
  if decide (lower (strip (text message)) = lower CANCEL_TEXT) then handle_cancel message
  else if negb (is_admin (from_user_id message)) then answer No_access
  else
    match split_maxsplit1 (strip (text message)) with
    | [order_id; new_status] =>
        if negb (isdigit order_id) then answer Id_must_be_number
        else
          success ← update_order_status order_id new_status;
          (if (success : bool) then
             all_orders ← get_all_orders;
             match find_order all_orders order_id with
             | Some o =>
                 if decide (o = ∅)
                 then answer (Status_updated_order_missing order_id new_status)
                 else
                   user_id_to_notify ← lift (int (get_or o (lit "user_id") (VInt 0)));
                   send_status_update user_id_to_notify order_id new_status ;;
                   answer (Status_updated_notified order_id new_status)
             | None => answer (Status_updated_order_missing order_id new_status)
             end
           else answer (Status_update_failed order_id)) ;;
          state_clear
    | _ => answer Bad_format
    end.

(** The message handlers, in the order the decorators register them. The
    state [Confirming] has no message handler: its answer arrives as a button
    press, at [order_confirmation_callback]. *)
Definition router : list (filter_of * (Message → M ())) :=
  [ (command "start", handle_start);
    (text_is CANCEL_TEXT, handle_cancel_command);
    (text_is (lit "Сделать заказ"), user_make_order);
    (text_is (lit "Статус заказов"), user_check_status);
    (in_state ChoosingCake, user_choosing_cake);
    (in_state ChoosingTaste, user_choosing_taste);
    (in_state ChoosingSize, user_choosing_size);
    (in_state ChoosingDecor, user_choosing_decor);
    (text_is (lit "Просмотреть заказы"), admin_view_orders_menu);
    (text_is (lit "Обновить статус заказа"), admin_update_status_menu);
    (in_state UpdatingOrderStatus, admin_process_update_status) ].

Definition dispatch : Message → M () := dispatch_with router.

End Bot.
End O3.

(** ** combined_bot.py: the router *)

Module CombinedRouter.
Section Bot.

Variable ADMIN_IDS : list Z.
Variable strptime : pystr → option Z.

(** The handlers of combined_bot.py, in the order the decorators register
    them: the state handlers stand before the commands [/status], [/help],
    [/view_orders] and [/update_status]. *)
Definition router : list (filter_of * (Message → M ())) :=
  [ (command "start", CombinedBot.cmd_start ADMIN_IDS);
    (command "menu", CombinedBot.cmd_menu ADMIN_IDS);
    (in_state ChoosingCake, CombinedBot.process_choosing_cake ADMIN_IDS);
    (in_state ChoosingTaste, CombinedBot.process_choosing_taste ADMIN_IDS);
    (in_state ChoosingSize, CombinedBot.process_choosing_size ADMIN_IDS);
    (in_state ChoosingDecor, CombinedBot.process_choosing_decor ADMIN_IDS);
    (in_state Confirming, CombinedBot.process_confirming ADMIN_IDS);
    (command "status", CombinedBot.cmd_status ADMIN_IDS strptime);
    (command "help", CombinedBot.admin_cmd_help ADMIN_IDS);
    (command "view_orders", CombinedBot.admin_cmd_view_orders ADMIN_IDS strptime);
    (command "update_status", CombinedBot.admin_cmd_update_status ADMIN_IDS);
    (in_state UpdatingOrderStatus, CombinedBot.process_update_status ADMIN_IDS) ].

Definition dispatch : Message → M () := dispatch_with router.

End Bot.
End CombinedRouter.

(** ** admin_bot.py

    [get_all_orders], [update_order_status] and [is_admin] have the text of
    those of combined_bot.py; the list of orders differs: it leaves no order
    out. *)

Module AdminBot.
Section Bot.

Variable ADMIN_IDS : list Z.
Variable strptime : pystr → option Z.

Definition is_admin (user_id : Z) : bool := bool_decide (user_id ∈ ADMIN_IDS).

Definition get_all_orders : M (list dict) := CombinedBot.get_all_orders.

Definition admin_cmd_view_orders (message : Message) : M () :=
  if negb (is_admin (from_user_id message)) then answer No_access
  else
    all_orders ← get_all_orders;
    if decide (all_orders = []) then answer No_orders_available
    else
      CombinedBot.send_pages CombinedBot.admin_block
        (CombinedBot.sort_orders strptime all_orders) 10.

End Bot.
End AdminBot.

(** ** The operator allow-list

    Every variant reads the allow-list at start-up, from the environment
    variable [ADMIN_IDS]:
    [[int(id_.strip()) for id_ in ADMIN_IDS.split(",") if id_.strip().isdigit()]]
    inside [try: ... except ValueError: ADMIN_IDS = []]. *)

(** [s.split(",")] *)
Fixpoint split_comma (s : pystr) : list pystr :=
  match s with
  | [] => [[]]
  | c :: s' =>
      if (c =? 44)%N then [] :: split_comma s'
      else match split_comma s' with
           | piece :: pieces => (c :: piece) :: pieces
           | [] => [[c]]
           end
  end.

Definition parse_ADMIN_IDS (env : pystr) : res (list Z) :=
  match map_res (λ id_, int_of_str (strip id_))
          (filter (λ id_, isdigit (strip id_) = true) (split_comma env)) with
  | Ok ids => Ok ids
  | Raise ValueError => Ok []
  | Raise e => Raise e
  end.

(** ** o3.py: the button presses *)

(** [s.startswith(prefix)] *)
Definition startswith (prefix s : pystr) : bool :=
  bool_decide (take (length prefix) s = prefix).

Module O3Callbacks.
Section Bot.

Variable ADMIN_IDS : list Z.
Variable strptime : pystr → option Z.

(** [lambda c: c.data and c.data.startswith(prefix)] *)
Definition data_startswith (prefix : pystr) (c : CallbackQuery) : bool :=
  match callback_data c with
  | [] => false
  | _ => startswith prefix (callback_data c)
  end.

(** The callback handlers, in the order the decorators register them. *)
Definition callback_router : list ((CallbackQuery → bool) * (CallbackQuery → M ())) :=
  [ (data_startswith (lit "orders_page:"), O3.orders_pagination_callback strptime);
    (data_startswith (lit "confirm_order:"), O3.order_confirmation_callback ADMIN_IDS) ].

Fixpoint route_callback (handlers : list ((CallbackQuery → bool) * (CallbackQuery → M ())))
    (c : CallbackQuery) : option (CallbackQuery → M ()) :=
  match handlers with
  | [] => None
  | (accepts, handler) :: rest =>
      if accepts c then Some handler else route_callback rest c
  end.

Definition dispatch_callback (c : CallbackQuery) : M () :=
  match route_callback callback_router c with
  | Some handler => handler c
  | None => mret ()
  end.

End Bot.
End O3Callbacks.

(** ** Sequences of ledger calls *)

(** The arguments of one call of [create_new_order], and the clock reading
    at the time of the call. *)
Record order_call := mkCall {
  call_user_id : Z;
  call_user_name : pystr;
  call_cake : dict;
  call_taste : pystr;
  call_size : pystr;
  call_decor : pystr;
  call_time : pystr
}.

Definition set_clock (t : pystr) (w : World) : World :=
  mkWorld (orders w) (cakes w) (state w) (data w) t (trace w).

(** Calls made one after the other, each finished before the next starts;
    the values they return, in order. *)
Fixpoint create_orders (create : Z → pystr → dict → pystr → pystr → pystr → M (option Z))
    (calls : list order_call) (w : World) : list (res (option Z)) * World :=
  match calls with
  | [] => ([], w)
  | c :: rest =>
      let '(r, w1) := create (call_user_id c) (call_user_name c) (call_cake c)
                        (call_taste c) (call_size c) (call_decor c)
                        (set_clock (call_time c) w) in
      let '(rs, w2) := create_orders create rest w1 in
      (r :: rs, w2)
  end.

(** The order ids among the returned values ([None] reports a failure). *)
Definition returned_ids (rs : list (res (option Z))) : list Z :=
  omap (λ r, match r with Ok (Some i) => Some i | _ => None end) rs.

(** The first cells of the rows below the header. *)
Definition stored_ids (sh : Sheet) : list pystr := (λ row, default [] (head row)) <$> tail sh.

(** ** The vocabulary of the properties *)

(** The id [create_new_order] computes from the sheet it reads. *)
Definition next_order_id (sh : Sheet) : res Z :=
  if decide (length sh < 2)%nat then Ok 1
  else last_order ← last_item sh;
       cell ← first_item last_order;
       n ← int_of_str cell;
       mret (n + 1).

(** A catalog entry with which combined_bot.py's [create_new_order] goes
    through: a name that is a [str], and a price. *)
Definition cake_ok (cake : dict) : bool :=
  match cake !! lit "name", cake !! lit "price" with
  | Some (VStr _), Some _ => true
  | _, _ => false
  end.

(** The same for o3.py, which reads both fields with a default. *)
Definition cake_ok_o3 (cake : dict) : bool :=
  match cake !! lit "name" with
  | Some (VStr _) | None => true
  | _ => false
  end.

(** The sheet after [k] orders: the header alone, or a last row whose first
    cell is the text of [k]. *)
Definition ledger_at (k : Z) (sh : Sheet) : Prop :=
  (k = 0 ∧ length sh = 1%nat)
  ∨ (0 < k ∧ (2 ≤ length sh)%nat ∧ ∃ rest, last sh = Some (str_of_int k :: rest)).

(** The world after the two reads [update_order_status] starts with. *)
Definition after_two_reads (w : World) : World :=
  mkWorld (orders w) (cakes w) (state w) (data w) (clock w)
    (trace w ++ [Fetched ORDERS_SHEET_NAME; Fetched ORDERS_SHEET_NAME]).

(** A small ledger: the header and one order, number 1, of customer 5. *)
Definition example_header : list pystr :=
  [lit "OrderID"; lit "user_id"; lit "user_name"; lit "cake_name"; lit "price";
   lit "taste"; lit "size"; lit "decor"; lit "status"; lit "date"].

Definition example_order_row : list pystr :=
  [lit "1"; lit "5"; lit "bob"; lit "Chocolate"; lit "500"; lit "dark"; lit "8";
   lit "none"; initial_status; lit "2024-01-01 10:00:00"].

Definition example_catalog : Sheet :=
  [[lit "name"; lit "price"; lit "description"; lit "photo"];
   [lit "Chocolate"; lit "500"; lit "Rich and dark"; lit ""]].

Definition example_world : World :=
  mkWorld [example_header; example_order_row] example_catalog None no_data
    (lit "2024-01-02 09:30:00") [].

(** Descending order of the keys of keyed entries. *)
Definition key_ge {A} (a b : Z * A) : Prop := b.1 ≤ a.1.

(** [b] is not newer than [a]: both keys exist and that of [b] is not
    larger. *)
Definition not_newer {A} (key : A → res Z) (a b : A) : Prop :=
  match key a, key b with
  | Ok ka, Ok kb => kb ≤ ka
  | _, _ => False
  end.

(** A parser for the examples: the zero-padded form
    [YYYY-MM-DD HH:MM:SS] that [strftime] writes, read as a count of seconds
    in a calendar of 12 months of 31 days. *)
Definition two_digits (a b : N) : option Z :=
  if is_digit a && is_digit b then Some (Z.of_N ((a - 48) * 10 + (b - 48))) else None.

Definition strptime_padded (s : pystr) : option Z :=
  match s with
  | [y1; y2; y3; y4; dash1; m1; m2; dash2; d1; d2; space; h1; h2; colon1; mi1; mi2;
     colon2; s1; s2] =>
      if ((dash1 =? 45) && (dash2 =? 45) && (space =? 32) && (colon1 =? 58)
          && (colon2 =? 58))%N
      then
        yh ← two_digits y1 y2; yl ← two_digits y3 y4;
        mo ← two_digits m1 m2; d ← two_digits d1 d2;
        h ← two_digits h1 h2; mi ← two_digits mi1 mi2; sec ← two_digits s1 s2;
        if (1 <=? mo) && (mo <=? 12) && (1 <=? d) && (d <=? 31) && (h <? 24)
           && (mi <? 60) && (sec <? 60)
        then Some ((((((yh * 100 + yl) * 12 + (mo - 1)) * 31 + (d - 1)) * 24 + h) * 60
                    + mi) * 60 + sec)
        else None
      else None
  | _ => None
  end.

(** Three orders as [get_all_records] yields them, and one whose date cell
    does not parse. *)
Definition example_order (id : Z) (date : pystr) : dict :=
  list_to_map [(lit "OrderID", VInt id); (lit "user_id", VInt 5);
               (lit "cake_name", VStr (lit "Chocolate")); (lit "price", VInt 500);
               (lit "taste", VStr (lit "dark")); (lit "size", VInt 8);
               (lit "decor", VStr (lit "none")); (lit "status", VStr initial_status);
               (lit "date", VStr date)].

Definition example_orders : list dict :=
  [example_order 1 (lit "2024-01-01 10:00:00");
   example_order 2 (lit "2024-03-05 08:15:00");
   example_order 3 (lit "2024-02-11 23:59:59")].

Definition example_orders_bad_date : list dict :=
  [example_order 1 (lit "2024-01-01 10:00:00");
   example_order 2 (lit "05.03.2024");
   example_order 3 (lit "2024-02-11 23:59:59")].

Definition button_label (b : button) : pystr := match b with Button l _ => l end.
Definition button_data (b : button) : pystr := match b with Button _ c => c end.

(** The page a press of the button asks for, as
    [orders_pagination_callback] reads it from the callback data. *)
Definition requested_page (b : button) : res Z :=
  piece ← second_item (split_colon (button_data b)); int_of_str piece.

(** The page the user gets by pressing the button labelled [label] on the
    given page, if the page has such a button. *)
Definition press (label : pystr) (shown : list dict) (page_size page : Z) : option Z :=
  match O3.get_orders_page_text_and_markup shown page page_size with
  | Ok (_, markup) =>
      match filter (λ b, button_label b = label) markup with
      | b :: _ => match requested_page b with Ok p => Some p | Raise _ => None end
      | [] => None
      end
  | Raise _ => None
  end.

(** The pages seen when the button is pressed again and again, at most
    [presses] times, starting on [page]. *)
Fixpoint pages_visited (label : pystr) (shown : list dict) (page_size : Z)
    (presses : nat) (page : Z) : list Z :=
  page :: match presses with
          | O => []
          | S n =>
              match press label shown page_size page with
              | Some p => pages_visited label shown page_size n p
              | None => []
              end
          end.

Definition BACK : pystr := Eval cbv in lit "Назад".
Definition FORWARD : pystr := Eval cbv in lit "Вперёд".

(** The world after some more events, everything else as before. *)
Definition add_events (evs : list event) (w : World) : World :=
  mkWorld (orders w) (cakes w) (state w) (data w) (clock w) (trace w ++ evs).

(** The notice combined_bot.py sends an operator before it goes on with a
    customer handler. *)
Definition admin_notice (is_admin : bool) (t : text_out) : list event :=
  if is_admin then [Answer t []] else [].

(** The spec's reading of the size: the input parses as a positive integer. *)
Definition parses_as_positive_integer (s : pystr) : bool :=
  match int_of_str s with
  | Ok n => 0 <? n
  | Raise _ => false
  end.

(** A message of the customer 5. *)
Definition example_message (t : pystr) : Message := mkMessage 5 None (lit "bob") t.

Definition example_cake : dict :=
  list_to_map [(lit "name", VStr (lit "Chocolate")); (lit "price", VInt 500);
               (lit "description", VStr (lit "Rich and dark")); (lit "photo", VStr [])].

(** The session of customer 5 asked for the size, cake and taste chosen. *)
Definition example_choosing_size : World :=
  mkWorld [example_header] example_catalog (Some ChoosingSize)
    (mkData (Some example_cake) (Some (lit "dark")) None None)
    (lit "2024-01-02 09:30:00") [].

(** The world after a cancel: no state, no draft, the ledger untouched, one
    answer sent. *)
Definition cancelled (is_admin : bool) (w : World) : World :=
  mkWorld (orders w) (cakes w) None no_data (clock w)
    (trace w ++ [Answer (if is_admin then Back_to_admin_menu else Back_to_user_menu) []]).

(** A statement is quiet when, from any world, it leaves both sheets and the
    clock as they are and adds events none of which writes to the ledger (it
    may change the session). *)
Definition quiet {A} (m : M A) : Prop :=
  ∀ w, ∃ evs,
    orders (m w).2 = orders w ∧ cakes (m w).2 = cakes w ∧ clock (m w).2 = clock w
    ∧ trace (m w).2 = trace w ++ evs
    ∧ Forall (λ e, is_ledger_write e = false) evs.



(** The session of operator 7 asked for an id and a status, order 1 in the
    ledger. *)
Definition example_updating : World :=
  mkWorld [example_header; example_order_row] example_catalog (Some UpdatingOrderStatus)
    no_data (lit "2024-01-02 09:30:00") [].

Definition example_operator_message (t : pystr) : Message :=
  mkMessage 7 None (lit "operator") t.


(** The session of customer 5 asked to confirm a complete draft, the ledger
    empty. *)
Definition example_confirming : World :=
  mkWorld [example_header] example_catalog (Some Confirming)
    (mkData (Some example_cake) (Some (lit "dark")) (Some (lit "8")) (Some (lit "none")))
    (lit "2024-01-02 09:30:00") [].


(** What C10 says of the affirmative answer: [create_new_order] is called
    on the world [w] with the draft; what the handler does after the call
    writes nothing more to the ledger, and the handler ends with an empty
    session. *)
Definition draft_submitted (create : M (option Z)) (w : World) (r : res () * World) : Prop :=
  ∃ order_id w1 evs,
    create w = (Ok order_id, w1)
    ∧ r.1 = Ok ()
    ∧ orders r.2 = orders w1
    ∧ trace r.2 = trace w1 ++ evs
    ∧ Forall (λ e, is_ledger_write e = false) evs
    ∧ state r.2 = None ∧ data r.2 = no_data.

(** [",".join(l)] *)
Fixpoint join_comma (l : list pystr) : pystr :=
  match l with
  | [] => []
  | [x] => x
  | x :: l' => x ++ 44%N :: join_comma l'
  end.

(** The position, among the records, of the first one whose id reads as the
    given one. *)
Fixpoint first_match (order_id : value) (all_orders : list dict) : option nat :=
  match all_orders with
  | [] => None
  | order :: rest =>
      if decide (str (get order (lit "OrderID")) = str order_id) then Some 0%nat
      else S <$> first_match order_id rest
  end.

(** The pages of a list: the slices the page loops cut. *)
Definition pages_of {A} (l : list A) (page_size : Z) : list (list A) :=
  (λ page, slice l (page * page_size) (page * page_size + page_size))
    <$> seqZ 0 (page_count (Z.of_nat (length l)) page_size).

(** The session: the FSM state and the draft. *)
Definition session (w : World) : option State * Data := (state w, data w).

(** A statement steps by [R] when, from any world and whether it returns
    or raises, the world after is related by [R] to the world before. *)
Definition steps_by {A} (R : relation World) (m : M A) : Prop :=
  ∀ w, R w (m w).2.

(** A relation between sessions, as a relation between worlds. *)
Definition on_session (Rs : relation (option State * Data)) : relation World :=
  λ w w', Rs (session w) (session w').

(** The events added are all of one kind. *)
Definition emitting (P : event → Prop) : relation World :=
  λ w w', ∃ evs, trace w' = trace w ++ evs ∧ Forall P evs.

(** An event that writes a status into the ledger. *)
Definition is_status_write (e : event) : bool :=
  match e with
  | Cell_updated _ _ _ => true
  | _ => false
  end.

(** The session stays, or is emptied. *)
Definition stays_or_clears : relation (option State * Data) :=
  λ s s', s' = s ∨ s' = (None, no_data).

(** The draft stays; the state stays or becomes [st]. *)
Definition stays_or_goes_to (st : State) : relation (option State * Data) :=
  λ s s', s'.2 = s.2 ∧ (s'.1 = s.1 ∨ s'.1 = Some st).

(** What the dialogue has collected when it is in a given state: the cake
    (a catalog entry with a name) from [ChoosingTaste] on, the taste from
    [ChoosingSize] on, the size (a text that passed [str.isdigit]) from
    [ChoosingDecor]
    on, the decor in [Confirming]. *)
Definition has_cake (d : Data) : Prop :=
  ∃ cake, chosen_cake d = Some cake ∧ is_Some (cake !! lit "name").

Definition has_size (d : Data) : Prop :=
  ∃ s, size d = Some s ∧ isdigit s = true.

Definition draft_ready (s : option State * Data) : Prop :=
  match s.1 with
  | Some ChoosingTaste => has_cake s.2
  | Some ChoosingSize => has_cake s.2 ∧ is_Some (taste s.2)
  | Some ChoosingDecor => has_cake s.2 ∧ is_Some (taste s.2) ∧ has_size s.2
  | Some Confirming =>
      has_cake s.2 ∧ is_Some (taste s.2) ∧ has_size s.2 ∧ is_Some (decor s.2)
  | _ => True
  end.

(** The session keeps what it has collected. *)
Definition keeps_draft_ready : relation (option State * Data) :=
  λ s s', draft_ready s → draft_ready s'.

(** Messages handled one after the other in one session. *)
Definition run (handle : Message → M ()) (messages : list Message) (w : World) : World :=
  foldl (λ w m, (handle m w).2) w messages.

(** The row [create_new_order] appends in combined_bot.py and user_bot.py. *)
Definition new_row (order_id user_id : Z) (user_name : pystr) (name : pystr) (price : value)
    (taste size decor date : pystr) : list value :=
  [VInt order_id; VStr (strip (str_of_int user_id)); VStr (strip user_name);
   VStr (strip name); VStr (strip (str price)); VStr (strip taste); VStr (strip size);
   VStr (strip decor); VStr initial_status; VStr date].

(** The row [create_new_order] appends in o3.py. *)
Definition new_row_o3 (order_id user_id : Z) (user_name : pystr) (cake : dict)
    (name taste size decor date : pystr) : list value :=
  [VInt order_id; VStr (str_of_int user_id); VStr (strip user_name); VStr (strip name);
   VStr (strip (str (get_or cake (lit "price") (VStr [])))); VStr (strip taste);
   VStr (strip size); VStr (strip decor); VStr initial_status; VStr date].

(** The ledger has grown at most: the rows it had are as they were, and no
    event has written a status. *)
Definition only_appends : relation World :=
  λ w w', orders w `prefix_of` orders w'
          ∧ emitting (λ e, is_status_write e = false) w w'.

(** The records carry an integer in the column [k], as the rows that
    [create_new_order] writes do in the columns [OrderID] and [user_id]: the
    cell reads as an [int], with every release of the client. *)
Definition integer_column (k : pystr) (records : list dict) : Prop :=
  ∀ order, order ∈ records → ∃ n : Z, order !! k = Some (VInt n).

(** What the list [shown] to a consumer is, given the orders [selected] for
    it: sorted by descending key and with the same orders when the key of
    every order exists, the selected list itself when the key of one order
    does not. *)
Definition shown_sorted (key : dict → res Z) (selected shown : list dict) : Prop :=
  ((∀ x, x ∈ selected → ∃ t, key x = Ok t) →
     StronglySorted (not_newer key) shown ∧ shown ≡ₚ selected)
  ∧ ((∃ x, x ∈ selected ∧ ∀ t, key x ≠ Ok t) → shown = selected).




(** * Properties *)

(** ** Examples of the Python layer *)

Example strip_ex : strip (lit "  12 ") = lit "12".
Proof. reflexivity. Qed.

Example split_ex1 : split_maxsplit1 (lit "1 Out for delivery") = [lit "1"; lit "Out for delivery"].
Proof. reflexivity. Qed.

Example split_ex2 : split_maxsplit1 (lit "17") = [lit "17"].
Proof. reflexivity. Qed.

Example int_ex1 : int_of_str (lit " +1_000 ") = Ok 1000.
Proof. reflexivity. Qed.

Example int_ex2 : int_of_str (lit "1__0") = Raise ValueError.
Proof. reflexivity. Qed.

(** Digits of other scripts are digits, and read as numbers; a superscript
    is a digit and reads as no number; the separators 28 to 31 are whitespace
    for [str.strip] and not for [int]. *)
Example digits_ex :
  isdigit (lit "٣") = true ∧ int_of_str (lit "٣") = Ok 3
  ∧ int_of_str (lit "١٢") = Ok 12
  ∧ isdigit (lit "²") = true ∧ int_of_str (lit "²") = Raise ValueError
  ∧ isdigit (lit "+5") = false ∧ int_of_str (lit "+5") = Ok 5
  ∧ strip [28; 49]%N = [49]%N ∧ int_of_str [28; 49]%N = Raise ValueError.
Proof. vm_compute. repeat split. Qed.

Example numericise_ex :
  Worksheet.numericise (lit "12") = VInt 12
  ∧ Worksheet.numericise (lit "١٢") = VInt 12
  ∧ Worksheet.numericise (lit "1_0") = VStr (lit "1_0")
  ∧ Worksheet.numericise (lit "") = VStr [].
Proof. vm_compute. repeat split. Qed.

Example str_ex : str (VInt 1203) = lit "1203" /\ str (VInt (-7)) = lit "-7".
Proof. split; reflexivity. Qed.

Example lit_ex : lit "Да" = [1044; 1072]%N /\ lower (lit "ДА") = lit "да".
Proof. split; reflexivity. Qed.

(** ** Python strings and numbers *)

Lemma lstrip_id (s : pystr) : (∀ c, c ∈ s → is_space c = false) → lstrip s = s.
Proof.
  destruct s as [|c s]; [done|]. intros H. simpl.
  rewrite (H c) by apply list_elem_of_here. done.
Qed.

Lemma strip_id (s : pystr) : (∀ c, c ∈ s → is_space c = false) → strip s = s.
Proof.
  intros H. unfold strip, rstrip. rewrite (lstrip_id s H).
  rewrite lstrip_id, rev_involutive; [done|].
  intros c Hc. apply H, list_elem_of_In, in_rev. by apply list_elem_of_In.
Qed.

(** Decide every comparison of the goal by linear arithmetic. *)
Ltac decide_comparisons :=
  repeat match goal with
  | |- context [(?a <=? ?b)%N] =>
      first [ replace (a <=? b)%N with false by (symmetry; apply N.leb_gt; lia)
            | replace (a <=? b)%N with true by (symmetry; apply N.leb_le; lia) ]
  | |- context [(?a =? ?b)%N] =>
      first [ replace (a =? b)%N with false by (symmetry; apply N.eqb_neq; lia)
            | replace (a =? b)%N with true by (symmetry; apply N.eqb_eq; lia) ]
  end.

Lemma is_digit_bounds c : is_digit c = true ↔ (48 ≤ c ≤ 57)%N.
Proof.
  unfold is_digit. rewrite andb_true_iff, !N.leb_le. done.
Qed.

Lemma is_digit_not_space c : is_digit c = true → is_space c = false.
Proof.
  intros H%is_digit_bounds. unfold is_space. decide_comparisons. done.
Qed.

Lemma uint_codes_digits d c : c ∈ uint_codes d → is_digit c = true.
Proof.
  induction d; simpl; intros Hc; try (by apply elem_of_nil in Hc);
    apply elem_of_cons in Hc as [->|Hc]; auto.
Qed.

Lemma int_digits_acc d (acc : positive) :
  int_digits (N.pos acc) true (uint_codes d) = Some (N.pos (Pos.of_uint_acc d acc)).
Proof.
  revert acc. induction d; intros acc; simpl; [done|..];
    match goal with
    | |- int_digits ?a true _ = Some (N.pos (Pos.of_uint_acc _ ?b)) =>
        replace a with (N.pos b) by lia; apply IHd
    end.
Qed.

Lemma int_digits_of_uint d prev :
  d ≠ Decimal.Nil ∨ prev = true →
  int_digits 0 prev (uint_codes d) = Some (Pos.of_uint d).
Proof.
  revert prev. induction d; intros prev H; simpl;
    try (apply (int_digits_acc d)).
  - destruct H as [H| ->]; done.
  - apply IHd. by right.
Qed.

Lemma int_digits_to_uint p :
  int_digits 0 false (uint_codes (Pos.to_uint p)) = Some (N.pos p).
Proof.
  rewrite int_digits_of_uint.
  - by rewrite DecimalPos.Unsigned.of_to.
  - left. apply DecimalPos.Unsigned.to_uint_nonnil.
Qed.

Lemma uint_codes_head d :
  d ≠ Decimal.Nil → ∃ c r, uint_codes d = c :: r ∧ is_digit c = true.
Proof. destruct d; [done|..]; intros _; simpl; eauto. Qed.

Lemma is_digit_below c : is_digit c = true → (c < 127)%N.
Proof. intros H%is_digit_bounds. lia. Qed.

Lemma is_digit_not_ascii_space c : is_digit c = true → ascii_isspace c = false.
Proof.
  intros H%is_digit_bounds. unfold ascii_isspace. decide_comparisons. done.
Qed.

(** A text of code points below 127 is its own ASCII form. *)
Lemma mapM_ascii_of_id (s : pystr) : (∀ c, c ∈ s → (c < 127)%N) → mapM ascii_of s = Some s.
Proof.
  intros Hs. apply mapM_Some, Forall2_same_length_lookup. split; [done|].
  intros i c c' Hc Hc'. assert (c' = c) as -> by congruence.
  unfold ascii_of. apply list_elem_of_lookup_2, Hs, N.ltb_lt in Hc. by rewrite Hc.
Qed.

Lemma skip_spaces_id (s : pystr) :
  (∀ c, c ∈ s → ascii_isspace c = false) → skip_spaces s = s.
Proof.
  destruct s as [|c s]; [done|]. intros H. simpl.
  rewrite (H c) by apply list_elem_of_here. done.
Qed.

Lemma trim_id (s : pystr) :
  (∀ c, c ∈ s → ascii_isspace c = false) → rev (skip_spaces (rev (skip_spaces s))) = s.
Proof.
  intros H. rewrite (skip_spaces_id s H).
  rewrite skip_spaces_id, rev_involutive; [done|].
  intros c Hc. apply H, list_elem_of_In, in_rev. by apply list_elem_of_In.
Qed.

(** [int] on a text of ASCII code points without whitespace: a sign, then
    the digits. *)
Lemma int_of_str_ascii (s : pystr) :
  (∀ c, c ∈ s → (c < 127)%N ∧ ascii_isspace c = false) →
  int_of_str s
  = let '(neg, ds) :=
      match s with
      | 45%N :: r => (true, r)
      | 43%N :: r => (false, r)
      | _ => (false, s)
      end in
    match int_digits 0 false ds with
    | Some n => Ok (if neg then - Z.of_N n else Z.of_N n)
    | None => Raise ValueError
    end.
Proof.
  intros Hs. unfold int_of_str.
  rewrite mapM_ascii_of_id by (intros c Hc; by apply Hs).
  by rewrite trim_id by (intros c Hc; by apply Hs).
Qed.

(** Reading back the text of an [int] gives that [int]. *)
Lemma int_of_str_of_int z : int_of_str (str_of_int z) = Ok z.
Proof.
  rewrite int_of_str_ascii.
  - destruct z as [|p|p]; [done|..]; simpl str_of_int.
    + destruct (uint_codes_head (Pos.to_uint p)) as (c & r & Hd & Hc);
        [apply DecimalPos.Unsigned.to_uint_nonnil|].
      pose proof (int_digits_to_uint p) as Hp. rewrite Hd in Hp |- *.
      assert (c ≠ 45%N ∧ c ≠ 43%N) as [? ?] by (apply is_digit_bounds in Hc; lia).
      destruct c as [|c]; [by rewrite Hp|].
      repeat (destruct c as [c|c|]; try done; try by rewrite Hp).
    + cbv beta iota zeta. by rewrite int_digits_to_uint.
  - intros c Hc. assert (c = 45%N ∨ is_digit c = true) as [->|Hd]; [|done|].
    + destruct z as [|p|p]; simpl in Hc.
      * apply list_elem_of_singleton in Hc as ->. by right.
      * right. eapply uint_codes_digits, Hc.
      * apply elem_of_cons in Hc as [->|Hc]; [by left|].
        right. eapply uint_codes_digits, Hc.
    + split; [by apply is_digit_below|by apply is_digit_not_ascii_space].
Qed.

(** [int] raises nothing but [ValueError]. *)
Lemma int_of_str_raises (s : pystr) e : int_of_str s = Raise e → e = ValueError.
Proof.
  unfold int_of_str. destruct (mapM ascii_of s) as [t|]; [|by intros [= <-]].
  destruct (rev (skip_spaces (rev (skip_spaces t)))) as [|a r].
  - simpl. by intros [= <-].
  - destruct (match a :: r with
              | 45%N :: r0 => (true, r0)
              | 43%N :: r0 => (false, r0)
              | _ => (false, a :: r)
              end) as [neg ds].
    destruct (int_digits 0 false ds); [done|by intros [= <-]].
Qed.

(** ** The order ledger *)

(** Unfold the statements of the world monad. *)
Ltac unfold_M :=
  unfold get_all_values, get_all_records, row_values_1, append_row, update_cell,
    now_strftime, set_state, state_clear, get_data, update_data, data_item,
    answer, answer_with, answer_photo, send_message, edit_text, callback_answer,
    set_orders, emit, try_except, lift, mbind, mret, M_bind, M_ret in *.

Lemma create_new_order_combined user_id user_name cake taste size decor w :
  let r := CombinedBot.create_new_order user_id user_name cake taste size decor w in
  match next_order_id (orders w), cake_ok cake with
  | Ok i, true =>
      r.1 = Ok (Some i) ∧ ∃ rest, orders r.2 = orders w ++ [str_of_int i :: rest]
  | _, _ => r.1 = Ok None ∧ orders r.2 = orders w
  end.
Proof.
  unfold CombinedBot.create_new_order, cake_ok, getitem, next_order_id.
  unfold_M. unfold Worksheet.get_all_values, Worksheet.append_row, sheet_of. simpl.
  destruct (decide (length (orders w) < 2)%nat) as [Hlen|Hlen];
    [|destruct (last_item (orders w)) as [last_order|]; simpl; [|done];
      destruct (first_item last_order) as [cell|]; simpl; [|done];
      destruct (int_of_str cell) as [m|]; simpl; [|done]];
    (destruct (cake !! lit "name") as [[| |name]|]; simpl; try done;
     destruct (cake !! lit "price") as [price|]; simpl; try done;
     by eauto).
Qed.

Lemma create_new_order_o3 user_id user_name cake taste size decor w :
  let r := O3.create_new_order user_id user_name cake taste size decor w in
  match next_order_id (orders w), cake_ok_o3 cake with
  | Ok i, true =>
      r.1 = Ok (Some i) ∧ ∃ rest, orders r.2 = orders w ++ [str_of_int i :: rest]
  | _, _ => r.1 = Ok None ∧ orders r.2 = orders w
  end.
Proof.
  unfold O3.create_new_order, cake_ok_o3, get_or, next_order_id.
  unfold_M. unfold Worksheet.get_all_values, Worksheet.append_row, sheet_of. simpl.
  destruct (decide (length (orders w) < 2)%nat) as [Hlen|Hlen];
    [|destruct (last_item (orders w)) as [last_row|]; simpl; [|done];
      destruct (first_item last_row) as [cell|]; simpl; [|done];
      destruct (int_of_str cell) as [m|]; simpl; [|done]];
    (destruct (cake !! lit "name") as [[| |name]|]; simpl; try done;
     by eauto).
Qed.

Section Sequential_calls.

Variable create : Z → pystr → dict → pystr → pystr → pystr → M (option Z).
Variable ok : dict → bool.
Hypothesis create_step : ∀ user_id user_name cake taste size decor w,
  let r := create user_id user_name cake taste size decor w in
  match next_order_id (orders w), ok cake with
  | Ok i, true =>
      r.1 = Ok (Some i) ∧ ∃ rest, orders r.2 = orders w ++ [str_of_int i :: rest]
  | _, _ => r.1 = Ok None ∧ orders r.2 = orders w
  end.

Lemma next_order_id_at k sh : ledger_at k sh → next_order_id sh = Ok (k + 1).
Proof.
  unfold next_order_id. intros [[-> Hlen]|(Hk & Hlen & rest & Hlast)].
  - rewrite decide_True by lia. done.
  - rewrite decide_False by lia. unfold last_item. rewrite Hlast. simpl.
    by rewrite int_of_str_of_int.
Qed.

Lemma ledger_at_snoc k sh rest :
  0 ≤ k → (1 ≤ length sh)%nat → ledger_at (k + 1) (sh ++ [str_of_int (k + 1) :: rest]).
Proof.
  intros Hk Hlen. right. split; [lia|]. split.
  - rewrite length_app. simpl. lia.
  - exists rest. by rewrite last_snoc.
Qed.

Lemma ledger_at_bounds k sh : ledger_at k sh → 0 ≤ k ∧ (1 ≤ length sh)%nat.
Proof. intros [[-> ->]|(? & ? & _)]; lia. Qed.

Lemma stored_ids_snoc sh row :
  (1 ≤ length sh)%nat → stored_ids (sh ++ [row]) = stored_ids sh ++ [default [] (head row)].
Proof.
  destruct sh as [|hdr rows]; simpl; [lia|]. intros _.
  unfold stored_ids. simpl. by rewrite fmap_app.
Qed.

Lemma create_orders_from k calls w :
  ledger_at k (orders w) →
  let r := create_orders create calls w in
  returned_ids r.1 = seqZ (k + 1) (Z.of_nat (length (returned_ids r.1)))
  ∧ stored_ids (orders r.2) = stored_ids (orders w) ++ (str_of_int <$> returned_ids r.1)
  ∧ length (returned_ids r.1) = length (filter (λ c, ok (call_cake c) = true) calls).
Proof.
  revert k w. induction calls as [|c calls IH]; intros k w Hat; simpl.
  - rewrite app_nil_r. done.
  - pose proof (create_step (call_user_id c) (call_user_name c) (call_cake c)
                  (call_taste c) (call_size c) (call_decor c)
                  (set_clock (call_time c) w)) as Hstep.
    simpl in Hstep. rewrite (next_order_id_at k _ Hat) in Hstep.
    destruct (create _ _ _ _ _ _ _) as [r w1]. simpl in Hstep.
    destruct (ledger_at_bounds _ _ Hat) as [Hk Hlen].
    destruct (ok (call_cake c)) eqn:Hok.
    + destruct Hstep as [-> (rest & Hw1)].
      assert (ledger_at (k + 1) (orders w1)) as Hat1
        by (rewrite Hw1; by apply ledger_at_snoc).
      specialize (IH (k + 1) w1 Hat1).
      destruct (create_orders create calls w1) as [rs w2]. simpl in IH |- *.
      destruct IH as (Hids & Hstored & Hcount).
      rewrite filter_cons_True by done. unfold returned_ids in *. simpl.
      split; [|split].
      * rewrite Nat2Z.inj_succ, seqZ_cons by lia.
        rewrite Z.pred_succ. f_equal. rewrite Hids at 1. f_equal.
      * rewrite Hstored, Hw1, stored_ids_snoc by done. simpl.
        by rewrite <- app_assoc.
      * by rewrite Hcount.
    + destruct Hstep as [-> Hw1].
      assert (ledger_at k (orders w1)) as Hat1 by (by rewrite Hw1).
      specialize (IH k w1 Hat1).
      destruct (create_orders create calls w1) as [rs w2]. simpl in IH |- *.
      destruct IH as (Hids & Hstored & Hcount).
      rewrite filter_cons_False by (by rewrite Hok). unfold returned_ids in *. simpl.
      by rewrite Hstored, Hw1.
Qed.

End Sequential_calls.

(** C1. Calls of [create_new_order] made one after the other on a ledger
    that holds the header row alone return the ids 1, 2, 3, ... in this
    order: a call that fails (it returns [None], which happens exactly for a
    catalog entry the function cannot read) returns no id and leaves the
    sheet alone, every other call returns the next number and the rows below
    the header carry exactly the returned ids. Each call, on any sheet,
    computes its id from the first cell of the last row, plus one, or takes 1
    when the sheet has no row below the header, and appends a row that starts
    with the id. This holds for combined_bot.py (and user_bot.py, which has
    the same text) and for o3.py. *)
Theorem C1_sequential_order_ids hdr cakes0 st d clk tr calls :
  let w0 := mkWorld [hdr] cakes0 st d clk tr in
  let sequence create ok :=
    let r := create_orders create calls w0 in
    returned_ids r.1 = seqZ 1 (Z.of_nat (length (returned_ids r.1)))
    ∧ stored_ids (orders r.2) = str_of_int <$> returned_ids r.1
    ∧ length (returned_ids r.1)
      = length (filter (λ c : order_call, ok (call_cake c) = true) calls) in
  let step (create : Z → pystr → dict → pystr → pystr → pystr → M (option Z)) ok :=
    ∀ user_id user_name cake taste size decor w,
      let r := create user_id user_name cake taste size decor w in
      match next_order_id (orders w), ok cake with
      | Ok i, true =>
          r.1 = Ok (Some i) ∧ ∃ rest, orders r.2 = orders w ++ [str_of_int i :: rest]
      | _, _ => r.1 = Ok None ∧ orders r.2 = orders w
      end in
  sequence CombinedBot.create_new_order cake_ok
  ∧ sequence O3.create_new_order cake_ok_o3
  ∧ step CombinedBot.create_new_order cake_ok
  ∧ step O3.create_new_order cake_ok_o3.
Proof.
  intros w0 sequence step.
  split; [|split; [|split]].
  - apply (create_orders_from _ _ create_new_order_combined 0 calls w0).
    left. done.
  - apply (create_orders_from _ _ create_new_order_o3 0 calls w0).
    left. done.
  - exact create_new_order_combined.
  - exact create_new_order_o3.
Qed.

Lemma find_and_update_no_match order_id status_col new_status idx all_orders w :
  (∀ order, order ∈ all_orders → str (get order (lit "OrderID")) ≠ str order_id) →
  CombinedBot.find_and_update order_id status_col new_status idx all_orders w = (Ok false, w).
Proof.
  revert idx. induction all_orders as [|order rest IH]; intros idx Hno; simpl; [done|].
  rewrite decide_False by (apply Hno, list_elem_of_here).
  apply IH. intros o Ho. apply Hno. by apply list_elem_of_further.
Qed.

Lemma update_order_status_no_match order_id new_status w :
  (∀ order, order ∈ Worksheet.get_all_records (orders w) →
            str (get order (lit "OrderID")) ≠ str order_id) →
  CombinedBot.update_order_status order_id new_status w = (Ok false, after_two_reads w).
Proof.
  intros Hno. unfold CombinedBot.update_order_status. unfold_M. simpl.
  destruct (bool_decide _); simpl.
  - rewrite find_and_update_no_match by done. unfold after_two_reads.
    by rewrite <- app_assoc.
  - unfold after_two_reads. by rewrite <- app_assoc.
Qed.

Lemma update_order_status_o3 order_id new_status w :
  O3.update_order_status order_id new_status w
  = CombinedBot.update_order_status (VStr order_id) new_status w.
Proof. done. Qed.

(** C2. On a ledger whose orders carry integer ids, as [create_new_order]
    writes them: when no stored order has the given OrderID,
    [update_order_status] returns failure ([False]) and writes no cell: the
    orders sheet, and the rest of the world, are as before, and the only
    events of the call are its two reads of the sheet. And whatever records
    the client hands out, the loop of the function, run on them, answers
    [False] and leaves the world as it is when none of them carries the
    id. *)
Theorem C2_update_of_unknown_id_fails (w : World) (order_id : value) (new_status : pystr) :
  integer_column (lit "OrderID") (Worksheet.get_all_records (orders w)) →
  (∀ order, order ∈ Worksheet.get_all_records (orders w) →
            str (get order (lit "OrderID")) ≠ str order_id) →
  let r := CombinedBot.update_order_status order_id new_status w in
  r.1 = Ok false
  ∧ orders r.2 = orders w
  ∧ r.2 = after_two_reads w
  ∧ filter (λ e, is_ledger_write e = true) (trace r.2)
    = filter (λ e, is_ledger_write e = true) (trace w)
  ∧ ∀ (all_orders : list dict) (status_col idx : nat) (w' : World),
      (∀ order, order ∈ all_orders → str (get order (lit "OrderID")) ≠ str order_id) →
      CombinedBot.find_and_update order_id status_col new_status idx all_orders w'
      = (Ok false, w').
Proof.
  intros _ Hno r. subst r. rewrite update_order_status_no_match by done. simpl.
  split; [done|]. split; [done|]. split; [done|]. split.
  - rewrite filter_app. simpl. rewrite !filter_cons_False by done.
    by rewrite filter_nil, app_nil_r.
  - intros all_orders status_col idx w' Hno'. by apply find_and_update_no_match.
Qed.

(** C9. [update_order_status] finds the order by comparing texts: an input
    id that names the number of a stored order, but whose text differs from
    the text of every stored id (["01"] against a stored 1), is reported as
    not found, and nothing is written. *)
Theorem C9_matching_is_textual (w : World) (order_id new_status : pystr) (n : Z) :
  int_of_str order_id = Ok n →
  (∃ order, order ∈ Worksheet.get_all_records (orders w)
            ∧ get order (lit "OrderID") = VInt n) →
  (∀ order, order ∈ Worksheet.get_all_records (orders w) →
            str (get order (lit "OrderID")) ≠ order_id) →
  let r := O3.update_order_status order_id new_status w in
  let r' := CombinedBot.update_order_status (VStr order_id) new_status w in
  r.1 = Ok false ∧ r.2 = after_two_reads w ∧ orders r.2 = orders w
  ∧ r'.1 = Ok false ∧ r'.2 = after_two_reads w.
Proof.
  intros _ _ Hno r r'. subst r r'. rewrite update_order_status_o3.
  rewrite update_order_status_no_match by done. done.
Qed.

Lemma example_records order :
  order ∈ Worksheet.get_all_records (orders example_world) →
  str (get order (lit "OrderID")) = lit "1".
Proof.
  intros Ho. apply list_elem_of_In in Ho. simpl in Ho.
  destruct Ho as [<-|[]]. vm_compute. done.
Qed.

Lemma example_records_id order :
  order ∈ Worksheet.get_all_records (orders example_world) →
  order !! lit "OrderID" = Some (VInt 1).
Proof.
  intros Ho. apply list_elem_of_In in Ho. simpl in Ho.
  destruct Ho as [<-|[]]. vm_compute. done.
Qed.

Lemma C2_witness :
  let r := CombinedBot.update_order_status (VStr (lit "7")) (lit "Delivered") example_world in
  r.1 = Ok false
  ∧ orders r.2 = orders example_world
  ∧ r.2 = after_two_reads example_world
  ∧ filter (λ e, is_ledger_write e = true) (trace r.2)
    = filter (λ e, is_ledger_write e = true) (trace example_world)
  ∧ ∀ (all_orders : list dict) (status_col idx : nat) (w' : World),
      (∀ order, order ∈ all_orders →
                str (get order (lit "OrderID")) ≠ str (VStr (lit "7"))) →
      CombinedBot.find_and_update (VStr (lit "7")) status_col (lit "Delivered") idx
        all_orders w'
      = (Ok false, w').
Proof.
  apply (C2_update_of_unknown_id_fails example_world (VStr (lit "7")) (lit "Delivered")).
  - intros order Ho. exists 1. by apply example_records_id.
  - intros order Ho. rewrite (example_records order Ho). vm_compute. discriminate.
Defined.

Lemma C9_witness :
  let r := O3.update_order_status (lit "01") (lit "Delivered") example_world in
  let r' := CombinedBot.update_order_status (VStr (lit "01")) (lit "Delivered") example_world in
  r.1 = Ok false ∧ r.2 = after_two_reads example_world ∧ orders r.2 = orders example_world
  ∧ r'.1 = Ok false ∧ r'.2 = after_two_reads example_world.
Proof.
  apply (C9_matching_is_textual example_world (lit "01") (lit "Delivered") 1).
  - vm_compute. reflexivity.
  - eexists. split; [apply list_elem_of_here|]. vm_compute. reflexivity.
  - intros order Ho. rewrite (example_records order Ho). vm_compute. discriminate.
Defined.

(** ** Sorting for display *)

Lemma insert_desc_perm {A} k (x : A) l : insert_desc k x l ≡ₚ (k, x) :: l.
Proof.
  induction l as [|[k' y] l IH]; simpl; [done|].
  destruct (k' <=? k); [done|]. rewrite IH. apply Permutation_swap.
Qed.

Lemma insert_desc_sorted {A} k (x : A) l :
  StronglySorted key_ge l → StronglySorted key_ge (insert_desc k x l).
Proof.
  induction l as [|[k' y] l IH]; simpl; intros Hs.
  - repeat constructor.
  - apply StronglySorted_inv in Hs as [Hs Hall].
    destruct (k' <=? k) eqn:Hle.
    + apply Z.leb_le in Hle. constructor; [by constructor|].
      constructor; [done|]. eapply Forall_impl; [exact Hall|].
      intros [k2 z]. unfold key_ge. simpl. lia.
    + apply Z.leb_gt in Hle. constructor; [by apply IH|].
      rewrite insert_desc_perm. constructor; [|done].
      unfold key_ge. simpl. lia.
Qed.

Lemma sort_desc_perm {A} (l : list (Z * A)) : sort_desc l ≡ₚ l.
Proof.
  induction l as [|[k x] l IH]; simpl; [done|].
  by rewrite insert_desc_perm, IH.
Qed.

Lemma sort_desc_sorted {A} (l : list (Z * A)) : StronglySorted key_ge (sort_desc l).
Proof.
  induction l as [|[k x] l IH]; simpl; [constructor|]. by apply insert_desc_sorted.
Qed.

Lemma map_res_Ok {A B} (f : A → res B) l ys :
  map_res f l = Ok ys ↔ Forall2 (λ x y, f x = Ok y) l ys.
Proof.
  revert ys. induction l as [|x l IH]; intros ys; simpl.
  - split; [intros [= <-]; constructor|]. by intros ->%Forall2_nil_inv_l.
  - unfold mbind, res_bind, mret, res_ret. split.
    + destruct (f x) as [y|] eqn:Hx; [|done].
      destruct (map_res f l) as [ys'|]; [|done].
      intros [= <-]. constructor; [done|]. by apply IH.
    + intros (y & ys' & Hy & Hys & ->)%Forall2_cons_inv_l.
      rewrite Hy. apply IH in Hys. by rewrite Hys.
Qed.

Lemma map_res_Raise {A B} (f : A → res B) l x e :
  x ∈ l → f x = Raise e → ∃ e', map_res f l = Raise e'.
Proof.
  intros Hx Hf. induction l as [|y l IH]; [by apply elem_of_nil in Hx|].
  simpl. unfold mbind, res_bind.
  apply elem_of_cons in Hx as [->|Hx].
  - rewrite Hf. eauto.
  - destruct (f y); [|eauto]. destruct (IH Hx) as [e' ->]. eauto.
Qed.

Lemma map_res_total {A B} (f : A → res B) l :
  (∀ x, x ∈ l → ∃ y, f x = Ok y) → ∃ ys, map_res f l = Ok ys.
Proof.
  induction l as [|x l IH]; intros Hall; simpl; [eauto|].
  unfold mbind, res_bind, mret, res_ret.
  destruct (Hall x) as [y ->]; [apply list_elem_of_here|].
  destruct IH as [ys ->]; [|eauto].
  intros z Hz. apply Hall. by apply list_elem_of_further.
Qed.

Section Sorted_by_key.

Context {A : Type} (key : A → res Z).

Lemma sorted_by_keys (l : list (Z * A)) :
  Forall (λ kx : Z * A, key kx.2 = Ok kx.1) l →
  StronglySorted key_ge l → StronglySorted (not_newer key) l.*2.
Proof.
  induction l as [|kx l IH]; simpl; intros Hkeys Hsorted; [constructor|].
  apply Forall_cons in Hkeys as [Hkx Hkeys].
  apply StronglySorted_inv in Hsorted as [Hsorted Hge].
  constructor; [by apply IH|].
  apply Forall_fmap, Forall_forall. intros ky Hky. simpl.
  unfold not_newer. rewrite Hkx.
  rewrite (proj1 (Forall_forall _ _) Hkeys ky Hky).
  by apply (proj1 (Forall_forall _ _) Hge ky Hky).
Qed.

Lemma sorted_reverse_sorted l :
  (∀ x, x ∈ l → ∃ t, key x = Ok t) →
  ∃ sorted, sorted_reverse key l = Ok sorted
            ∧ StronglySorted (not_newer key) sorted ∧ sorted ≡ₚ l.
Proof.
  intros Hall. unfold sorted_reverse.
  destruct (map_res_total (λ x, k ← key x; mret (k, x)) l) as [keyed Hkeyed].
  { intros x Hx. destruct (Hall x Hx) as [t Ht]. exists (t, x).
    unfold mbind, res_bind. by rewrite Ht. }
  rewrite Hkeyed. unfold mbind at 1, res_bind, mret, res_ret.
  eexists. split; [done|].
  apply map_res_Ok in Hkeyed.
  assert (Forall (λ kx : Z * A, key kx.2 = Ok kx.1) keyed) as Hkeys.
  { clear Hall. induction Hkeyed as [|x kx l keyed Hx _ IH]; constructor; [|done].
    unfold mbind, res_bind, mret, res_ret in Hx.
    destruct (key x) eqn:Hk; by simplify_eq. }
  assert (keyed.*2 = l) as Hsnd.
  { clear Hall Hkeys. induction Hkeyed as [|x kx l keyed Hx _ IH]; [done|].
    unfold mbind, res_bind, mret, res_ret in Hx. simpl.
    destruct (key x); simplify_eq. done. }
  split.
  - apply sorted_by_keys; [by rewrite sort_desc_perm|apply sort_desc_sorted].
  - by rewrite sort_desc_perm, Hsnd.
Qed.

Lemma sorted_reverse_raises l x e :
  x ∈ l → key x = Raise e → ∃ e', sorted_reverse key l = Raise e'.
Proof.
  intros Hx Hkey. unfold sorted_reverse.
  destruct (map_res_Raise (λ x, k ← key x; mret (k, x)) l x e Hx) as [e' ->].
  - unfold mbind, res_bind. by rewrite Hkey.
  - unfold mbind, res_bind. eauto.
Qed.

End Sorted_by_key.

Lemma date_key_combined strptime x t :
  CombinedBot.date_key strptime x = Ok t
  ↔ ∃ s, x !! lit "date" = Some (VStr s) ∧ strptime s = Some t.
Proof.
  unfold CombinedBot.date_key, getitem, mbind, res_bind. split.
  - destruct (x !! lit "date") as [[| |s]|]; try done.
    destruct (strptime s) eqn:Hs; [|done]. intros [= <-]. eauto.
  - intros (s & -> & ->). done.
Qed.

Lemma date_key_o3 strptime x t :
  O3.date_key strptime x = Ok t
  ↔ ∃ s, get_or x (lit "date") (VStr []) = VStr s ∧ strptime s = Some t.
Proof.
  unfold O3.date_key. split.
  - destruct (get_or x (lit "date") (VStr [])) as [| |s]; try done.
    destruct (strptime s) eqn:Hs; [|done]. intros [= <-]. eauto.
  - intros (s & -> & ->). done.
Qed.

Example sort_orders_example :
  (λ x, get x (lit "OrderID")) <$> CombinedBot.sort_orders strptime_padded example_orders
  = [VInt 2; VInt 3; VInt 1].
Proof. vm_compute. reflexivity. Qed.

(** ** Paging through the list of orders (o3.py) *)

Lemma page_count_is_ceiling total page_size :
  0 < page_size →
  let pages := page_count total page_size in
  (pages - 1) * page_size < total ≤ pages * page_size.
Proof.
  intros Hsize pages. subst pages. unfold page_count.
  pose proof (Z.div_mod (total + page_size - 1) page_size ltac:(lia)) as Hdm.
  pose proof (Z.mod_pos_bound (total + page_size - 1) page_size Hsize) as Hmod.
  nia.
Qed.

Lemma split_colon_no_colon s : 58%N ∉ s → split_colon s = [s].
Proof.
  induction s as [|c s IH]; simpl; [done|]. intros Hnot.
  apply not_elem_of_cons in Hnot as [Hc Hs].
  destruct (N.eqb_spec c 58) as [->|_]; [done|]. by rewrite IH.
Qed.

Lemma str_of_int_no_colon z : 58%N ∉ str_of_int z.
Proof.
  assert (∀ d, 58%N ∉ uint_codes d) as Hd.
  { intros d Hin. apply uint_codes_digits, is_digit_bounds in Hin. lia. }
  destruct z; simpl; [|done|].
  - intros [[=]|[]%elem_of_nil]%elem_of_cons.
  - intros [[=]|Hin]%elem_of_cons. by apply Hd in Hin.
Qed.

Lemma requested_page_of_button label p :
  requested_page (Button label (lit "orders_page:" ++ str_of_int p)) = Ok p.
Proof.
  unfold requested_page, button_data.
  assert (∀ s, split_colon (lit "orders_page:" ++ s)
               = lit "orders_page" :: split_colon s) as Hsplit.
  { intros s. vm_compute (lit "orders_page:"). vm_compute (lit "orders_page").
    reflexivity. }
  rewrite Hsplit, split_colon_no_colon by apply str_of_int_no_colon.
  simpl. unfold mbind, res_bind. apply int_of_str_of_int.
Qed.

Lemma markup_of_page shown page page_size :
  page_size ≠ 0 →
  ∃ text,
    O3.get_orders_page_text_and_markup shown page page_size
    = Ok (text,
          (if decide (page > 0)
           then [Button BACK (lit "orders_page:" ++ str_of_int (page - 1))] else [])
          ++ (if decide (page < page_count (Z.of_nat (length shown)) page_size - 1)
              then [Button FORWARD (lit "orders_page:" ++ str_of_int (page + 1))] else [])).
Proof.
  intros Hsize. unfold O3.get_orders_page_text_and_markup.
  rewrite decide_False by done. eauto.
Qed.

Lemma filter_one_label label data :
  filter (λ b, button_label b = label) [Button label data] = [Button label data].
Proof. by rewrite filter_cons_True. Qed.

Lemma filter_other_label label label' data :
  label' ≠ label → filter (λ b, button_label b = label) [Button label' data] = [].
Proof. intros Hne. by rewrite filter_cons_False. Qed.

Lemma press_forward shown page page_size :
  page_size ≠ 0 →
  press FORWARD shown page_size page
  = if decide (page < page_count (Z.of_nat (length shown)) page_size - 1)
    then Some (page + 1) else None.
Proof.
  intros Hsize. unfold press.
  destruct (markup_of_page shown page page_size Hsize) as [text ->].
  rewrite filter_app.
  destruct (decide (page > 0)); destruct (decide (page < _));
    rewrite ?filter_one_label, ?filter_other_label, ?filter_nil
      by (unfold BACK, FORWARD; congruence);
    rewrite ?app_nil_l, ?app_nil_r; cbv iota; by rewrite ?requested_page_of_button.
Qed.

Lemma press_back shown page page_size :
  page_size ≠ 0 →
  press BACK shown page_size page = if decide (page > 0) then Some (page - 1) else None.
Proof.
  intros Hsize. unfold press.
  destruct (markup_of_page shown page page_size Hsize) as [text ->].
  rewrite filter_app.
  destruct (decide (page > 0)); destruct (decide (page < _));
    rewrite ?filter_one_label, ?filter_other_label, ?filter_nil
      by (unfold BACK, FORWARD; congruence);
    rewrite ?app_nil_l, ?app_nil_r; cbv iota; by rewrite ?requested_page_of_button.
Qed.

Lemma pages_visited_forward shown page_size presses page :
  page_size ≠ 0 →
  let pages := page_count (Z.of_nat (length shown)) page_size in
  0 ≤ page < pages → pages - 1 - page ≤ Z.of_nat presses →
  pages_visited FORWARD shown page_size presses page = seqZ page (pages - page).
Proof.
  intros Hsize pages. revert page.
  induction presses as [|n IH]; intros page Hpage Hn; simpl.
  - replace (pages - page) with 1 by lia. done.
  - rewrite press_forward by done. fold pages.
    rewrite (seqZ_cons page) by lia. f_equal.
    destruct (decide (page < pages - 1)).
    + rewrite IH by lia. f_equal. lia.
    + replace (Z.pred (pages - page)) with 0 by lia. done.
Qed.

Lemma pages_visited_back shown page_size presses page :
  page_size ≠ 0 → 0 ≤ page ≤ Z.of_nat presses →
  pages_visited BACK shown page_size presses page = reverse (seqZ 0 (page + 1)).
Proof.
  intros Hsize. revert page.
  induction presses as [|n IH]; intros page Hpage; simpl.
  - replace page with 0 by lia. done.
  - rewrite press_back by done.
    replace (page + 1) with (page + 1 * 1) by lia.
    rewrite seqZ_app, reverse_app by lia. simpl. f_equal.
    destruct (decide (page > 0)).
    + rewrite IH by lia. do 2 f_equal. lia.
    + replace page with 0 by lia. done.
Qed.

(** C5. For a list of [total] records, a page size
    above 0 and any page index, [get_orders_page_text_and_markup] works with
    the page count [ceil(total / page_size)], shows the records of the page,
    offers the button back exactly when the index is above 0 and the button
    forward exactly when the index is below the page count minus 1; the
    buttons lead to the previous and the next page. So, on a list that is not
    empty, pressing forward again and again from page 0 shows the pages
    0, 1, ..., page count - 1 and no other, and pressing back again and again
    from any page leads down to page 0. (The handlers answer an empty list
    with a notice and do not render it; the renderer does not clamp the
    page, which is the caller's to keep in range.) *)
Theorem C5_pagination (shown : list dict) (page_size page : Z) :
  0 < page_size →
  let total := Z.of_nat (length shown) in
  let pages := page_count total page_size in
  (pages - 1) * page_size < total ≤ pages * page_size
  ∧ (∃ markup,
       O3.get_orders_page_text_and_markup shown page page_size
       = Ok (Orders_page (O3.page_block <$> slice shown (page * page_size)
                                              (page * page_size + page_size)),
             markup)
       ∧ ((∃ b, b ∈ markup ∧ button_label b = BACK) ↔ page > 0)
       ∧ ((∃ b, b ∈ markup ∧ button_label b = FORWARD) ↔ page < pages - 1))
  ∧ press BACK shown page_size page = (if decide (page > 0) then Some (page - 1) else None)
  ∧ press FORWARD shown page_size page
    = (if decide (page < pages - 1) then Some (page + 1) else None)
  ∧ (shown ≠ [] → ∀ presses, pages - 1 ≤ Z.of_nat presses →
       pages_visited FORWARD shown page_size presses 0 = seqZ 0 pages)
  ∧ (0 ≤ page → ∀ presses, page ≤ Z.of_nat presses →
       pages_visited BACK shown page_size presses page = reverse (seqZ 0 (page + 1))).
Proof.
  intros Hsize total pages.
  pose proof (page_count_is_ceiling total page_size Hsize) as Hceil.
  cbv zeta in Hceil. fold pages in Hceil.
  split; [done|]. split; [|split; [|split; [|split]]].
  - unfold O3.get_orders_page_text_and_markup. rewrite decide_False by lia.
    fold total pages. eexists. split; [done|]. split.
    + split.
      * intros (b & [Hb|Hb]%elem_of_app & Hl).
        -- by destruct (decide (page > 0)); [|apply elem_of_nil in Hb].
        -- destruct (decide (page < pages - 1)); [|by apply elem_of_nil in Hb].
           apply list_elem_of_singleton in Hb as ->. by vm_compute in Hl.
      * intros Hpage. rewrite decide_True by done. eexists. split.
        -- apply elem_of_app. left. apply list_elem_of_here.
        -- done.
    + split.
      * intros (b & [Hb|Hb]%elem_of_app & Hl).
        -- destruct (decide (page > 0)); [|by apply elem_of_nil in Hb].
           apply list_elem_of_singleton in Hb as ->. by vm_compute in Hl.
        -- by destruct (decide (page < pages - 1)); [|apply elem_of_nil in Hb].
      * intros Hpage. rewrite (decide_True (P := page < pages - 1)) by done.
        eexists. split.
        -- apply elem_of_app. right. apply list_elem_of_here.
        -- done.
  - apply press_back. lia.
  - apply press_forward. lia.
  - intros Hne presses Hpresses.
    assert (0 < total) by (subst total; destruct shown; simpl; [done|lia]).
    assert (0 < pages) by (clearbody pages total; nia).
    rewrite (pages_visited_forward shown page_size presses 0); fold total pages.
    + f_equal. lia.
    + lia.
    + lia.
    + lia.
  - intros Hpage presses Hpresses. apply pages_visited_back; lia.
Qed.

Lemma C5_witness :
  pages_visited FORWARD example_orders 1 7 0 = [0; 1; 2]
  ∧ pages_visited BACK example_orders 1 7 2 = [2; 1; 0]
  ∧ page_count 3 1 = 3.
Proof.
  destruct (C5_pagination example_orders 1 2 ltac:(lia))
    as (_ & _ & _ & _ & Hforward & Hback).
  split; [|split].
  - rewrite Hforward; [done|done|]. vm_compute. discriminate.
  - rewrite Hback; [done|lia|lia].
  - done.
Defined.

(** The renderer on the empty list, which no handler passes to it: the page
    count is 0, and page 0 is rendered with no order and no button. *)
Lemma empty_list_is_rendered :
  page_count (Z.of_nat (length (@nil dict))) 5 = 0
  ∧ O3.get_orders_page_text_and_markup [] 0 5 = Ok (Orders_page [], [])
  ∧ pages_visited FORWARD [] 5 10 0 = [0]
  ∧ length (pages_visited FORWARD [] 5 10 0)
    ≠ Z.to_nat (page_count (Z.of_nat (length (@nil dict))) 5).
Proof. vm_compute. repeat split; discriminate. Qed.

(** ** The dialogue *)


(** The ASCII digits are digits of [str.isdigit]. *)
Lemma is_digit_unicode c : is_digit c = true → unicode_isdigit c = true.
Proof.
  unfold is_digit, unicode_isdigit, in_runs, decimal_runs. cbn [existsb fst snd].
  by intros ->.
Qed.

Lemma ascii_digits_isdigit (s : pystr) :
  s ≠ [] → forallb is_digit s = true → isdigit s = true.
Proof.
  intros Hne Hall. destruct s as [|c s]; [done|]. unfold isdigit.
  apply forallb_forall. intros x Hx. apply is_digit_unicode.
  by apply (proj1 (forallb_forall _ _) Hall).
Qed.


Lemma skip_spaces_elem c (s : pystr) : c ∈ skip_spaces s → c ∈ s.
Proof.
  induction s as [|x s IH]; simpl; [done|].
  destruct (ascii_isspace x); [|done]. intros Hc. by apply list_elem_of_further, IH.
Qed.

(** The ASCII form of a digit of [str.isdigit] is no sign. *)
Lemma ascii_of_digit_no_sign c a :
  unicode_isdigit c = true → ascii_of c = Some a → a ≠ 45%N ∧ a ≠ 43%N.
Proof.
  intros Hc. unfold ascii_of. destruct (c <? 127)%N.
  - intros [= <-]. split; intros ->; by vm_compute in Hc.
  - destruct (is_space c); [intros [= <-]; lia|].
    destruct (unicode_todecimal c) as [d|]; [|done]. intros [= <-]. lia.
Qed.

(** A string of digits has no sign: when it reads as an [int], the [int] is
    not negative. (It need not read as one: a superscript is a digit for
    [str.isdigit] and no number for [int].) *)
Lemma isdigit_int_nonneg (s : pystr) n : isdigit s = true → int_of_str s = Ok n → 0 ≤ n.
Proof.
  intros Hs. assert (forallb unicode_isdigit s = true) as Hall by (by destruct s).
  unfold int_of_str. destruct (mapM ascii_of s) as [t|] eqn:Ht; [|done].
  apply mapM_Some in Ht.
  assert (∀ a, a ∈ t → a ≠ 45%N ∧ a ≠ 43%N) as Hsign.
  { intros a Ha. apply list_elem_of_lookup in Ha as [i Ha].
    destruct (Forall2_lookup_r _ _ _ _ _ Ht Ha) as (c & Hc & Hca).
    apply (ascii_of_digit_no_sign c); [|done].
    apply (proj1 (forallb_forall _ _) Hall), list_elem_of_In.
    by eapply list_elem_of_lookup_2. }
  set (t' := rev (skip_spaces (rev (skip_spaces t)))).
  assert (∀ a, a ∈ t' → a ≠ 45%N ∧ a ≠ 43%N) as Hsign'.
  { intros a Ha. apply Hsign. subst t'.
    apply list_elem_of_In, in_rev, list_elem_of_In, skip_spaces_elem in Ha.
    apply list_elem_of_In, in_rev, list_elem_of_In in Ha. by apply skip_spaces_elem. }
  clearbody t'. destruct t' as [|a r].
  - simpl. done.
  - destruct (Hsign' a (list_elem_of_here _ _)) as [? ?].
    assert (match a :: r with
            | 45%N :: r0 => (true, r0)
            | 43%N :: r0 => (false, r0)
            | _ => (false, a :: r)
            end = (false, a :: r)) as ->.
    { destruct a as [|a]; [done|].
      repeat (destruct a as [a|a|]; try done). }
    destruct (int_digits 0 false (a :: r)) as [m|]; [|done]. intros [= <-]. lia.
Qed.



(** A size in the digits of another script is taken, and so is a
    superscript, which reads as no integer at all. *)
Example size_in_other_digits :
  size (data (CombinedBot.process_choosing_size [] (example_message (lit " ٣ "))
                example_choosing_size).2) = Some (lit "٣")
  ∧ state (CombinedBot.process_choosing_size [] (example_message (lit "²"))
             example_choosing_size).2 = Some ChoosingDecor
  ∧ parses_as_positive_integer (lit "²") = false.
Proof. vm_compute. done. Qed.

Lemma handle_cancel_user_bot ADMIN_IDS m w :
  UserBot.handle_cancel ADMIN_IDS m w
  = (Ok (), cancelled (UserBot.is_admin ADMIN_IDS (from_user_id m)) w).
Proof.
  unfold UserBot.handle_cancel, cancelled. unfold_M.
  by destruct (UserBot.is_admin _ _).
Qed.

Lemma handle_cancel_o3 ADMIN_IDS m w :
  O3.handle_cancel ADMIN_IDS m w
  = (Ok (), cancelled (O3.is_admin ADMIN_IDS (from_user_id m)) w).
Proof.
  unfold O3.handle_cancel, cancelled. unfold_M.
  by destruct (O3.is_admin _ _).
Qed.

(** In o3.py every state handler takes the cancel text in any letter case
    and with blanks around it. *)
Lemma cancel_variants_o3 ADMIN_IDS m w :
  lower (strip (text m)) = lower CANCEL_TEXT →
  let done_ := (Ok (), cancelled (O3.is_admin ADMIN_IDS (from_user_id m)) w) in
  O3.user_choosing_cake ADMIN_IDS m w = done_
  ∧ O3.user_choosing_taste ADMIN_IDS m w = done_
  ∧ O3.user_choosing_size ADMIN_IDS m w = done_
  ∧ O3.user_choosing_decor ADMIN_IDS m w = done_
  ∧ O3.admin_process_update_status ADMIN_IDS m w = done_.
Proof.
  intros Hcancel done_.
  unfold O3.user_choosing_cake, O3.user_choosing_taste, O3.user_choosing_size,
    O3.user_choosing_decor, O3.admin_process_update_status.
  rewrite !decide_True by done. by rewrite handle_cancel_o3.
Qed.

(** C3. The cancel text (the text of the cancel button), sent in any state
    of the session and with any draft, ends the dialogue: the session has no
    state and an empty draft afterwards, the ledger is as before, and the
    only event is the answer that leads back to the menu. The router hands
    the message to the cancel handler before any state handler is
    considered, and every state handler that has a cancel check makes it
    first, with the same outcome. This holds for user_bot.py and o3.py, the
    variants that have a cancel button. *)
Theorem C3_cancel_from_any_state (ADMIN_IDS : list Z) (strptime : pystr → option Z)
    (user_id : Z) (username : option pystr) (full_name : pystr) (w : World) :
  let m := mkMessage user_id username full_name CANCEL_TEXT in
  let done_ := (Ok (), cancelled (bool_decide (user_id ∈ ADMIN_IDS)) w) in
  (state done_.2 = None ∧ data done_.2 = no_data ∧ orders done_.2 = orders w
   ∧ filter (λ e, is_ledger_write e = true) (trace done_.2)
     = filter (λ e, is_ledger_write e = true) (trace w))
  ∧ (UserBot.dispatch ADMIN_IDS strptime m w = done_
     ∧ UserBot.user_choosing_cake ADMIN_IDS m w = done_
     ∧ UserBot.user_choosing_taste ADMIN_IDS m w = done_
     ∧ UserBot.user_choosing_size ADMIN_IDS m w = done_
     ∧ UserBot.user_choosing_decor ADMIN_IDS m w = done_
     ∧ UserBot.user_confirming_order ADMIN_IDS m w = done_
     ∧ UserBot.admin_process_update_status ADMIN_IDS m w = done_)
  ∧ (O3.dispatch ADMIN_IDS strptime m w = done_
     ∧ O3.user_choosing_cake ADMIN_IDS m w = done_
     ∧ O3.user_choosing_taste ADMIN_IDS m w = done_
     ∧ O3.user_choosing_size ADMIN_IDS m w = done_
     ∧ O3.user_choosing_decor ADMIN_IDS m w = done_
     ∧ O3.admin_process_update_status ADMIN_IDS m w = done_).
Proof.
  intros m done_.
  assert (is_command "start" CANCEL_TEXT = false) as Hstart by (by vm_compute).
  assert (lower CANCEL_TEXT = lit "отмена") as Hlower by (by vm_compute).
  assert (CANCEL_TEXT = lit "Отмена") as Htext by (by vm_compute).
  split; [|split].
  - simpl. split; [done|]. split; [done|]. split; [done|].
    rewrite filter_app, filter_cons_False, filter_nil, app_nil_r; [done|].
    by destruct (bool_decide _).
  - split.
    { unfold UserBot.dispatch, dispatch_with, UserBot.router, route, command, text_is.
      change (text m) with CANCEL_TEXT. rewrite Hstart, <- Htext, bool_decide_eq_true_2 by done.
      apply handle_cancel_user_bot. }
    unfold UserBot.user_choosing_cake, UserBot.user_choosing_taste,
      UserBot.user_choosing_size, UserBot.user_choosing_decor,
      UserBot.user_confirming_order, UserBot.admin_process_update_status.
    change (text m) with CANCEL_TEXT. rewrite Hlower, <- Htext, !decide_True by done.
    by rewrite handle_cancel_user_bot.
  - split.
    { unfold O3.dispatch, dispatch_with, O3.router, route, command, text_is.
      change (text m) with CANCEL_TEXT. rewrite Hstart, bool_decide_eq_true_2 by done.
      apply handle_cancel_o3. }
    apply (cancel_variants_o3 ADMIN_IDS m w). done.
Qed.

(** ** Statements that leave the ledger alone *)

Lemma quiet_ret {A} (a : A) : quiet (mret a).
Proof. intros w. exists []. simpl. by rewrite app_nil_r. Qed.

Lemma quiet_lift {A} (r : res A) : quiet (lift r).
Proof. intros w. exists []. simpl. by rewrite app_nil_r. Qed.

Lemma quiet_bind {A B} (m : M A) (f : A → M B) :
  quiet m → (∀ a, quiet (f a)) → quiet (m ≫= f).
Proof.
  intros Hm Hf w. unfold mbind, M_bind.
  destruct (Hm w) as (evs & Ho & Hc & Hk & Ht & Hq).
  destruct (m w) as [[a|e] w1]; simpl in *; [|by exists evs].
  destruct (Hf a w1) as (evs' & Ho' & Hc' & Hk' & Ht' & Hq').
  exists (evs ++ evs'). rewrite Ho', Hc', Hk', Ht', Ho, Hc, Hk, Ht, app_assoc.
  repeat split; try done. by apply Forall_app.
Qed.

Lemma quiet_try_except {A} (body handler : M A) :
  quiet body → quiet handler → quiet (try_except body handler).
Proof.
  intros Hb Hh w. unfold try_except.
  destruct (Hb w) as (evs & Ho & Hc & Hk & Ht & Hq).
  destruct (body w) as [[a|e] w1]; simpl in *; [by exists evs|].
  destruct (Hh w1) as (evs' & Ho' & Hc' & Hk' & Ht' & Hq').
  exists (evs ++ evs'). rewrite Ho', Hc', Hk', Ht', Ho, Hc, Hk, Ht, app_assoc.
  repeat split; try done. by apply Forall_app.
Qed.

Lemma quiet_emit e : is_ledger_write e = false → quiet (emit e).
Proof. intros He w. exists [e]. simpl. repeat split; try done. by constructor. Qed.

Lemma quiet_session (f : World → option State * Data) :
  quiet (λ w, (Ok (), mkWorld (orders w) (cakes w) (f w).1 (f w).2 (clock w) (trace w))).
Proof. intros w. exists []. simpl. by rewrite app_nil_r. Qed.

Lemma quiet_for_each {A} (l : list A) (body : A → M ()) :
  (∀ x, quiet (body x)) → quiet (for_each l body).
Proof.
  intros Hbody. induction l as [|x l IH]; simpl; [apply quiet_ret|].
  apply quiet_bind; [apply Hbody|]. intros _. apply IH.
Qed.

Lemma quiet_fetch_records n : quiet (get_all_records n).
Proof.
  intros w. exists [Fetched n]. unfold get_all_records. unfold_M. simpl.
  repeat split; try done. by constructor.
Qed.

Lemma quiet_answer t markup : quiet (answer_with t markup).
Proof. by apply quiet_emit. Qed.

Lemma quiet_set_state s : quiet (set_state s).
Proof. apply (quiet_session (λ w, (Some s, data w))). Qed.

Lemma quiet_state_clear : quiet state_clear.
Proof. apply (quiet_session (λ w, (None, no_data))). Qed.

Lemma quiet_update_data f : quiet (update_data f).
Proof. apply (quiet_session (λ w, (state w, f (data w)))). Qed.

Lemma quiet_get_data : quiet get_data.
Proof. intros w. exists []. simpl. by rewrite app_nil_r. Qed.

Lemma quiet_now : quiet now_strftime.
Proof. intros w. exists []. simpl. by rewrite app_nil_r. Qed.

Create HintDb quiet.
#[export] Hint Resolve quiet_ret quiet_lift quiet_fetch_records quiet_answer quiet_set_state
  quiet_state_clear quiet_update_data quiet_get_data quiet_now : quiet.

(** Take a statement apart and show each part quiet. *)
Ltac solve_quiet :=
  repeat first
    [ progress intros
    | apply quiet_bind
    | apply quiet_try_except
    | apply quiet_for_each
    | apply quiet_emit; reflexivity
    | match goal with
      | |- quiet (if ?c then _ else _) => destruct c
      | |- quiet (match ?x with _ => _ end) => destruct x
      | |- quiet (let '(_, _) := ?x in _) => destruct x
      end
    | solve [eauto with quiet]
    | progress unfold answer, answer_photo, send_message, edit_text, callback_answer,
        data_item, CombinedBot.get_all_orders, CombinedBot.get_catalog_of_cakes,
        CombinedBot.send_status_update ].

Lemma quiet_show_cake cake : quiet (CombinedBot.show_cake cake).
Proof. unfold CombinedBot.show_cake. solve_quiet. Qed.

Lemma quiet_notify_admins ADMIN_IDS order_id user_name user_id d current_date :
  quiet (CombinedBot.notify_admins ADMIN_IDS order_id user_name user_id d current_date).
Proof. unfold CombinedBot.notify_admins. solve_quiet. Qed.

(** ** Roles *)

(** Where the role check returns: o3.py turns an operator away from the
    customer's actions, and every variant turns a customer away from the
    operator's actions; the one event is the denial, and the session and
    both sheets stay as they are. *)
Lemma wrong_role_is_turned_away ADMIN_IDS strptime m w :
  (O3.is_admin ADMIN_IDS (from_user_id m) = true →
     O3.user_make_order ADMIN_IDS m w = (Ok (), add_events [Answer Admin_cannot_use []] w)
     ∧ O3.user_check_status ADMIN_IDS strptime m w
       = (Ok (), add_events [Answer Admin_cannot_use []] w))
  ∧ (O3.is_admin ADMIN_IDS (from_user_id m) = false →
       let denied := (Ok (), add_events [Answer No_access []] w) in
       CombinedBot.admin_cmd_help ADMIN_IDS m w = denied
       ∧ CombinedBot.admin_cmd_view_orders ADMIN_IDS strptime m w = denied
       ∧ CombinedBot.admin_cmd_update_status ADMIN_IDS m w = denied
       ∧ CombinedBot.process_update_status ADMIN_IDS m w = denied
       ∧ UserBot.admin_view_orders_menu ADMIN_IDS strptime m w = denied
       ∧ UserBot.admin_update_status_menu ADMIN_IDS m w = denied
       ∧ O3.admin_view_orders_menu ADMIN_IDS strptime m w = denied
       ∧ O3.admin_update_status_menu ADMIN_IDS m w = denied).
Proof.
  split; intros Hrole.
  - unfold O3.user_make_order, O3.user_check_status. rewrite Hrole. split; reflexivity.
  - unfold CombinedBot.admin_cmd_help, CombinedBot.admin_cmd_view_orders,
      CombinedBot.admin_cmd_update_status, CombinedBot.process_update_status,
      UserBot.admin_view_orders_menu, UserBot.admin_update_status_menu,
      O3.admin_view_orders_menu, O3.admin_update_status_menu.
    unfold O3.is_admin in Hrole. unfold CombinedBot.is_admin, UserBot.is_admin, O3.is_admin.
    rewrite Hrole. simpl. repeat split; reflexivity.
Qed.

(** In combined_bot.py the return after the notice is commented out:
    [cmd_menu] tells an operator that the command is not for operators and
    then reads the catalog all the same. *)
Lemma cmd_menu_goes_on ADMIN_IDS m w :
  CombinedBot.is_admin ADMIN_IDS (from_user_id m) = true →
  ∃ evs, trace (CombinedBot.cmd_menu ADMIN_IDS m w).2
         = trace w ++ [Answer Admin_cannot_use_command []; Fetched CAKES_SHEET_NAME] ++ evs.
Proof.
  intros Hrole. unfold CombinedBot.cmd_menu. rewrite Hrole.
  unfold CombinedBot.get_catalog_of_cakes, get_all_records.
  unfold mbind at 1 2 3, M_bind, try_except, answer, emit, mret, M_ret. simpl.
  set (w2 := mkWorld _ _ _ _ _ _).
  set (rest := if decide _ then _ else _).
  assert (quiet rest) as Hquiet.
  { subst rest. destruct (decide _); [solve_quiet|].
    apply quiet_bind; [apply quiet_for_each, quiet_show_cake|]. solve_quiet. }
  destruct (Hquiet w2) as (evs & _ & _ & _ & Ht & _).
  exists evs. rewrite Ht. subst w2. simpl. by rewrite <- !app_assoc.
Qed.

(** C8 fails on the code: an operator (id 7) sends [/menu] to
    combined_bot.py while idle. The handler answers that an operator cannot
    use the command and, its [return] being commented out, goes on: it reads
    the catalog, shows the cake, asks for a cake and puts the session into
    [ChoosingCake]. The specification wants the denial alone. *)
Theorem C8_operator_is_not_stopped :
  let m := mkMessage 7 None (lit "operator") (lit "/menu") in
  let r := CombinedBot.cmd_menu [7] m example_world in
  CombinedBot.is_admin [7] (from_user_id m) = true
  ∧ state example_world = None
  ∧ r.1 = Ok ()
  ∧ trace r.2
    = [Answer Admin_cannot_use_command [];
       Fetched CAKES_SHEET_NAME;
       Answer (Cake_card (VStr (lit "Chocolate")) (VInt 500) (VStr (lit "Rich and dark"))) [];
       Answer Ask_cake []]
  ∧ state r.2 = Some ChoosingCake
  ∧ filter (λ e, is_catalog_fetch e = true) (trace r.2) = [Fetched CAKES_SHEET_NAME].
Proof. vm_compute. done. Qed.





(** ** The operator's status update *)



(** A handler that ends with [state.clear()] leaves no state and no draft,
    unless an exception stops it before. *)
Lemma ends_with_state_clear {A} (body : M A) w :
  ((body ;; state_clear) w).1 = Ok () →
  state ((body ;; state_clear) w).2 = None ∧ data ((body ;; state_clear) w).2 = no_data.
Proof. unfold mbind, M_bind. by destruct (body w) as [[a|e] w']. Qed.







(** An id written in the digits of another script passes the check of the
    handler and is looked up: it matches no stored id, whose text is in ASCII
    digits, so the update fails and the dialogue ends. *)
Example status_id_in_other_digits :
  let r := CombinedBot.process_update_status [7]
             (example_operator_message (lit "١ Delivered")) example_updating in
  r.1 = Ok ()
  ∧ filter (λ e, match e with Answer _ _ => true | _ => false end = true) (trace r.2)
    = [Answer (Status_update_failed (lit "١")) []]
  ∧ orders r.2 = orders example_updating
  ∧ state r.2 = None.
Proof. vm_compute. done. Qed.

Example status_scenarios :
  let r1 := CombinedBot.process_update_status [7] (example_operator_message (lit "1 Delivered"))
              example_updating in
  let r2 := CombinedBot.process_update_status [7]
              (example_operator_message (lit "abc Delivered")) example_updating in
  (orders r1.2 !! 1%nat) ≫= (λ row, row !! 8%nat) = Some (lit "Delivered")
  ∧ filter (λ e, match e with Send_message _ _ => true | _ => false end = true) (trace r1.2)
    = [Send_message 5 (Status_notice (lit "1") (lit "Delivered"))]
  ∧ orders r2.2 = orders example_updating
  ∧ state r2.2 = Some UpdatingOrderStatus.
Proof. vm_compute. done. Qed.

(** ** Confirming the order *)

Lemma create_new_order_returns user_id user_name cake taste size decor w :
  ∃ order_id w1,
    CombinedBot.create_new_order user_id user_name cake taste size decor w
    = (Ok order_id, w1).
Proof.
  pose proof (create_new_order_combined user_id user_name cake taste size decor w) as H.
  simpl in H. destruct (CombinedBot.create_new_order _ _ _ _ _ _ _) as [r w1].
  destruct (next_order_id (orders w)) as [i|]; [destruct (cake_ok cake)|];
    simpl in H; destruct H as [-> _]; by eexists _, _.
Qed.

Lemma for_each_returns {A} (l : list A) (body : A → M ()) w :
  (∀ x w, (body x w).1 = Ok ()) → (for_each l body w).1 = Ok ().
Proof.
  intros Hbody. revert w. induction l as [|x l IH]; intros w; simpl; [done|].
  unfold mbind, M_bind. specialize (Hbody x w).
  destruct (body x w) as [[[]|e] w1]; [apply IH|done].
Qed.

Lemma try_except_returns (body : M ()) w : (try_except body (mret ()) w).1 = Ok ().
Proof. unfold try_except. by destruct (body w) as [[[]|e] w1]. Qed.

Lemma notify_admins_returns ADMIN_IDS order_id user_name user_id d current_date w :
  (CombinedBot.notify_admins ADMIN_IDS order_id user_name user_id d current_date w).1
  = Ok ().
Proof.
  apply for_each_returns. intros admin_id w'. apply try_except_returns.
Qed.

(** What follows the call of [create_new_order] in combined_bot.py and
    user_bot.py. *)
Lemma submitted_then_quiet ADMIN_IDS (create : M (option Z)) user_name user_id d w :
  (∃ order_id w1, create w = (Ok order_id, w1)) →
  draft_submitted create w
    ((order_id ← create;
      match order_id with
      | Some order_id =>
          answer (Order_accepted order_id) ;;
          current_date ← now_strftime;
          CombinedBot.notify_admins ADMIN_IDS order_id user_name user_id d current_date
      | None => answer Order_failed
      end ;;
      state_clear) w).
Proof.
  intros (order_id & w1 & Hcreate).
  pose (rest := λ order_id : option Z,
         match order_id with
         | Some order_id =>
             answer (Order_accepted order_id) ;;
             current_date ← now_strftime;
             CombinedBot.notify_admins ADMIN_IDS order_id user_name user_id d current_date
         | None => answer Order_failed
         end).
  change (draft_submitted create w ((order_id ← create; rest order_id ;; state_clear) w)).
  unfold draft_submitted.
  assert ((order_id ← create; rest order_id ;; state_clear) w
          = (rest order_id ;; state_clear) w1) as ->
    by (unfold mbind, M_bind; by rewrite Hcreate).
  assert (quiet (rest order_id ;; state_clear)) as Hquiet.
  { subst rest. apply quiet_bind; [|intros; apply quiet_state_clear].
    destruct order_id; [|solve_quiet].
    apply quiet_bind; [solve_quiet|]. intros _.
    apply quiet_bind; [solve_quiet|]. intros current_date. apply quiet_notify_admins. }
  assert (((rest order_id ;; state_clear) w1).1 = Ok ()) as Hok.
  { subst rest. destruct order_id as [i|]; [|done].
    unfold_M. simpl.
    pose proof (notify_admins_returns ADMIN_IDS i user_name user_id d (clock w1)) as Hn.
    match goal with
    | |- context [CombinedBot.notify_admins _ _ _ _ _ _ ?w'] => specialize (Hn w')
    end.
    by destruct (CombinedBot.notify_admins _ _ _ _ _ _ _) as [[[]|e] w2]. }
  destruct (Hquiet w1) as (evs & Ho & _ & _ & Ht & Hq).
  exists order_id, w1, evs. repeat split; try done; by apply ends_with_state_clear.
Qed.

(** The handlers, once the answer is the affirmative word and the draft is
    complete. *)
Lemma process_confirming_yes ADMIN_IDS m w cake taste' size' decor' :
  lower (strip (text m)) = lit "да" →
  data w = mkData (Some cake) (Some taste') (Some size') (Some decor') →
  CombinedBot.process_confirming ADMIN_IDS m w
  = (order_id ← CombinedBot.create_new_order (from_user_id m) (username_or_full_name m)
                  cake taste' size' decor';
     match order_id with
     | Some order_id =>
         answer (Order_accepted order_id) ;;
         current_date ← now_strftime;
         CombinedBot.notify_admins ADMIN_IDS order_id (username_or_full_name m)
           (from_user_id m) (data w) current_date
     | None => answer Order_failed
     end ;;
     state_clear)
      (add_events (admin_notice (CombinedBot.is_admin ADMIN_IDS (from_user_id m))
                     Admin_cannot_use) w).
Proof.
  intros Hyes Hdata. unfold CombinedBot.process_confirming. cbv zeta.
  rewrite decide_True by done. unfold admin_notice, add_events.
  destruct (CombinedBot.is_admin ADMIN_IDS (from_user_id m)).
  - unfold mbind at 1, M_bind at 1, answer at 1, emit at 1.
    unfold mbind at 1, M_bind at 1, get_data at 1. cbn [data].
    rewrite Hdata. reflexivity.
  - unfold mbind at 1, M_bind at 1, mret at 1, M_ret at 1.
    unfold mbind at 1, M_bind at 1, get_data at 1.
    rewrite app_nil_r. destruct w. simpl in Hdata. subst. reflexivity.
Qed.

Lemma user_confirming_order_yes ADMIN_IDS m w cake taste' size' decor' :
  lower (text m) ≠ lit "отмена" →
  lower (text m) = lit "да" →
  data w = mkData (Some cake) (Some taste') (Some size') (Some decor') →
  UserBot.user_confirming_order ADMIN_IDS m w
  = (order_id ← CombinedBot.create_new_order (from_user_id m) (username_or_full_name m)
                  cake taste' size' decor';
     match order_id with
     | Some order_id =>
         answer (Order_accepted order_id) ;;
         current_date ← now_strftime;
         CombinedBot.notify_admins ADMIN_IDS order_id (username_or_full_name m)
           (from_user_id m) (data w) current_date
     | None => answer Order_failed
     end ;;
     state_clear) w.
Proof.
  intros Hno Hyes Hdata. unfold UserBot.user_confirming_order. cbv zeta.
  rewrite (decide_False (P := lower (text m) = lit "отмена")) by done.
  unfold mbind at 1, M_bind at 1, get_data at 1. cbv beta iota.
  rewrite (decide_True (P := lower (text m) = lit "да")) by done.
  destruct w. simpl in Hdata. subst. reflexivity.
Qed.




Example confirming_scenario :
  let r := CombinedBot.process_confirming [7] (example_message (lit "Да")) example_confirming in
  r.1 = Ok ()
  ∧ stored_ids (orders r.2) = [lit "1"]
  ∧ (orders r.2 !! 1%nat) ≫= (λ row, row !! 4%nat) = Some (lit "500")
  ∧ (orders r.2 !! 1%nat) ≫= (λ row, row !! 8%nat) = Some initial_status
  ∧ filter (λ e, match e with Send_message _ _ | Answer _ _ => true | _ => false end = true)
      (trace r.2)
    = [Answer (Order_accepted 1) [];
       Send_message 7 (New_order_notice 1 (lit "bob") 5 (VStr (lit "Chocolate")) (lit "dark")
                         (lit "8") (lit "none") (lit "2024-01-02 09:30:00"))]
  ∧ state r.2 = None.
Proof. vm_compute. done. Qed.

(** ** Routing by state *)

(** In user_bot.py a message that is no [/start] command and none of the
    three menu texts reaches the handler of the session's state. *)
Lemma user_bot_routes_by_state ADMIN_IDS strptime m w :
  is_command "start" (text m) = false →
  text m ≠ lit "Отмена" → text m ≠ lit "Сделать заказ" → text m ≠ lit "Статус заказов" →
  match state w with
  | Some ChoosingCake =>
      UserBot.dispatch ADMIN_IDS strptime m w = UserBot.user_choosing_cake ADMIN_IDS m w
  | Some ChoosingTaste =>
      UserBot.dispatch ADMIN_IDS strptime m w = UserBot.user_choosing_taste ADMIN_IDS m w
  | Some ChoosingSize =>
      UserBot.dispatch ADMIN_IDS strptime m w = UserBot.user_choosing_size ADMIN_IDS m w
  | Some ChoosingDecor =>
      UserBot.dispatch ADMIN_IDS strptime m w = UserBot.user_choosing_decor ADMIN_IDS m w
  | Some Confirming =>
      UserBot.dispatch ADMIN_IDS strptime m w = UserBot.user_confirming_order ADMIN_IDS m w
  | _ => True
  end.
Proof.
  intros Hstart H1 H2 H3.
  unfold UserBot.dispatch, dispatch_with, UserBot.router, route, command, text_is, in_state.
  rewrite Hstart, (bool_decide_eq_false_2 _ H1), (bool_decide_eq_false_2 _ H2),
    (bool_decide_eq_false_2 _ H3).
  destruct (state w) as [[]|]; reflexivity || exact I.
Qed.


(** ** Further properties of the ledger functions *)

Lemma str_of_int_no_space z c : c ∈ str_of_int z → is_space c = false.
Proof.
  destruct z as [|p|p]; simpl; intros Hc.
  - apply list_elem_of_singleton in Hc as ->. done.
  - apply is_digit_not_space. eapply uint_codes_digits, Hc.
  - apply elem_of_cons in Hc as [->|Hc]; [done|].
    apply is_digit_not_space. eapply uint_codes_digits, Hc.
Qed.

Lemma strip_str_of_int z : strip (str_of_int z) = str_of_int z.
Proof. apply strip_id, str_of_int_no_space. Qed.

Lemma str_of_int_no_underscore z : 95%N ∉ str_of_int z.
Proof.
  assert (∀ d, 95%N ∉ uint_codes d) as Hd.
  { intros d Hin. apply uint_codes_digits, is_digit_bounds in Hin. lia. }
  destruct z; simpl; [|done|].
  - intros [[=]|[]%elem_of_nil]%elem_of_cons.
  - intros [[=]|Hin]%elem_of_cons. by apply Hd in Hin.
Qed.

Lemma numericise_str_of_int z : Worksheet.numericise (str_of_int z) = VInt z.
Proof.
  unfold Worksheet.numericise.
  rewrite bool_decide_eq_false_2 by apply str_of_int_no_underscore.
  by rewrite int_of_str_of_int.
Qed.

Lemma str_of_int_inj z1 z2 : str_of_int z1 = str_of_int z2 → z1 = z2.
Proof.
  intros H. pose proof (int_of_str_of_int z1) as H1. rewrite H, int_of_str_of_int in H1.
  congruence.
Qed.

Lemma create_new_order_row user_id user_name cake taste size decor w :
  CombinedBot.create_new_order user_id user_name cake taste size decor w
  = match next_order_id (orders w), cake !! lit "name", cake !! lit "price" with
    | Ok i, Some (VStr name), Some price =>
        let row := new_row i user_id user_name name price taste size decor (clock w) in
        (Ok (Some i),
         mkWorld (orders w ++ [str <$> row]) (cakes w) (state w) (data w) (clock w)
           (trace w ++ [Fetched ORDERS_SHEET_NAME; Appended row]))
    | _, _, _ => (Ok None, add_events [Fetched ORDERS_SHEET_NAME] w)
    end.
Proof.
  unfold CombinedBot.create_new_order, getitem, next_order_id, new_row, add_events.
  unfold_M. unfold Worksheet.get_all_values, Worksheet.append_row, sheet_of. simpl.
  destruct (decide (length (orders w) < 2)%nat) as [Hlen|Hlen];
    [|destruct (last_item (orders w)) as [last_order|]; simpl; [|done];
      destruct (first_item last_order) as [cell|]; simpl; [|done];
      destruct (int_of_str cell) as [m|]; simpl; [|done]];
    (destruct (cake !! lit "name") as [[| |name]|]; simpl; try done;
     destruct (cake !! lit "price") as [price|]; simpl; try done;
     by rewrite <- app_assoc).
Qed.

(** The record of a row: a column name that occurs once, in first or second
    place, leads to the cell below it. *)
Lemma record_lookup_absent (k : pystr) hdr (vals : list value) :
  k ∉ hdr → (list_to_map (reverse (zip hdr vals)) : dict) !! k = None.
Proof.
  intros Hk. apply not_elem_of_list_to_map_1. intros Hin.
  apply list_elem_of_fmap in Hin as ([k' v] & -> & Hin).
  rewrite elem_of_reverse in Hin. apply Hk. simpl. eapply elem_of_zip_l, Hin.
Qed.

Lemma record_lookup_first (k : pystr) hdr (v : value) vals :
  k ∉ hdr → (list_to_map (reverse (zip (k :: hdr) (v :: vals))) : dict) !! k = Some v.
Proof.
  intros Hk. simpl. rewrite reverse_cons, list_to_map_app.
  rewrite lookup_union_r by (by apply record_lookup_absent).
  simpl. by rewrite lookup_insert_eq.
Qed.

Lemma record_lookup_second (k0 k : pystr) hdr (v0 v : value) vals :
  k ≠ k0 → k ∉ hdr →
  (list_to_map (reverse (zip (k0 :: k :: hdr) (v0 :: v :: vals))) : dict) !! k = Some v.
Proof.
  intros Hne Hk. simpl. rewrite !reverse_cons, !list_to_map_app.
  rewrite <- (assoc_L (∪)).
  rewrite lookup_union_r by (by apply record_lookup_absent).
  simpl. rewrite lookup_union_l.
  - by rewrite lookup_insert_eq.
  - rewrite lookup_insert_ne by done. done.
Qed.

Lemma records_snoc hdr rows row :
  Worksheet.get_all_records ((hdr :: rows) ++ [row])
  = Worksheet.get_all_records (hdr :: rows)
    ++ [list_to_map (reverse (zip hdr (Worksheet.numericise <$> row)))].
Proof. simpl. by rewrite fmap_app. Qed.

(** The loop of [update_order_status] stops at the first record that
    matches. *)
Lemma find_and_update_first_match order_id status_col new_status idx all_orders w :
  CombinedBot.find_and_update order_id status_col new_status idx all_orders w
  = match first_match order_id all_orders with
    | Some i =>
        (Ok true,
         mkWorld (Worksheet.update_cell (orders w) (idx + i) status_col new_status)
           (cakes w) (state w) (data w) (clock w)
           (trace w ++ [Cell_updated (idx + i) status_col new_status]))
    | None => (Ok false, w)
    end.
Proof.
  revert idx. induction all_orders as [|order rest IH]; intros idx; simpl; [done|].
  destruct (decide _) as [Heq|Hne].
  - unfold_M. simpl. by rewrite Nat.add_0_r.
  - rewrite IH. destruct (first_match order_id rest) as [i|]; simpl; [|done].
    by rewrite Nat.add_succ_r.
Qed.

Lemma update_order_status_eq order_id new_status w :
  CombinedBot.update_order_status order_id new_status w
  = let headers := Worksheet.header_row (orders w) in
    let status_col := (index (lit "status") headers + 1)%nat in
    if bool_decide (lit "status" ∈ headers) then
      match first_match order_id (Worksheet.get_all_records (orders w)) with
      | Some i =>
          (Ok true,
           mkWorld (Worksheet.update_cell (orders w) (2 + i) status_col new_status)
             (cakes w) (state w) (data w) (clock w)
             (trace w ++ [Fetched ORDERS_SHEET_NAME; Fetched ORDERS_SHEET_NAME;
                          Cell_updated (2 + i) status_col new_status]))
      | None => (Ok false, after_two_reads w)
      end
    else (Ok false, after_two_reads w).
Proof.
  unfold CombinedBot.update_order_status, after_two_reads.
  unfold get_all_records, row_values_1, try_except, emit, mbind, mret, M_bind, M_ret.
  simpl. rewrite <- app_assoc. simpl.
  destruct (bool_decide _); simpl; [|done].
  rewrite find_and_update_first_match.
  destruct (first_match _ _) as [i|]; simpl; [|done].
  by rewrite <- app_assoc.
Qed.

Lemma first_match_Some order_id all_orders i :
  first_match order_id all_orders = Some i ↔
  (∃ order, all_orders !! i = Some order
            ∧ str (get order (lit "OrderID")) = str order_id)
  ∧ ∀ j order, (j < i)%nat → all_orders !! j = Some order →
               str (get order (lit "OrderID")) ≠ str order_id.
Proof.
  revert i. induction all_orders as [|o rest IH]; intros i; simpl.
  - split; [done|]. by intros [(order & ? & _) _].
  - destruct (decide _) as [Heq|Hne].
    + split.
      * intros [= <-]. split; [by eauto|]. intros; lia.
      * intros [_ Hfirst]. destruct i as [|i]; [done|].
        exfalso. eapply (Hfirst 0%nat); [lia|done|done].
    + rewrite fmap_Some. split.
      * intros (k & Hk & ->). apply IH in Hk as [Hat Hfirst]. split; [done|].
        intros [|j] order Hj Hlook; simpl in Hlook; [by simplify_eq|].
        eapply Hfirst; [|done]. lia.
      * intros [(order & Hat & Heq) Hfirst]. destruct i as [|i]; [by simplify_eq/=|].
        exists i. split; [|done]. apply IH. split; [by eauto|].
        intros j order' Hj Hlook. apply (Hfirst (S j)); [lia|done].
Qed.

Lemma first_match_None order_id all_orders :
  first_match order_id all_orders = None ↔
  ∀ order, order ∈ all_orders → str (get order (lit "OrderID")) ≠ str order_id.
Proof.
  induction all_orders as [|o rest IH]; simpl.
  - split; [|done]. intros _ order Hin. by apply elem_of_nil in Hin.
  - destruct (decide _) as [Heq|Hne].
    + split; [done|]. intros H. exfalso. eapply H; [left|done].
    + rewrite fmap_None, IH. split.
      * intros H order Hin. apply elem_of_cons in Hin as [->|Hin]; [done|]. by apply H.
      * intros H order Hin. apply H. by right.
Qed.


Lemma update_cell_other_rows sh row col v j :
  j ≠ pred row → Worksheet.update_cell sh row col v !! j = sh !! j.
Proof. intros Hj. unfold Worksheet.update_cell. by apply list_lookup_alter_ne. Qed.

Lemma update_cell_length sh row col v :
  length (Worksheet.update_cell sh row col v) = length sh.
Proof. apply length_alter. Qed.

Lemma update_cell_head sh row col v :
  (2 ≤ row)%nat → head (Worksheet.update_cell sh row col v) = head sh.
Proof.
  intros Hrow. pose proof (update_cell_other_rows sh row col v 0 ltac:(lia)) as H.
  destruct sh, (Worksheet.update_cell _ _ _ _); simpl in *; congruence.
Qed.

Lemma update_cell_row sh row col v cells :
  (1 ≤ col)%nat →
  sh !! pred row = Some cells →
  ∃ cells', Worksheet.update_cell sh row col v !! pred row = Some cells'
            ∧ cells' !! pred col = Some v
            ∧ ∀ k, k ≠ pred col → (k < length cells)%nat → cells' !! k = cells !! k.
Proof.
  intros Hcol Hrow. unfold Worksheet.update_cell, Sheet in *.
  rewrite list_lookup_alter_eq, Hrow. simpl.
  eexists. split; [done|]. split.
  - apply list_lookup_insert_eq. rewrite length_app, length_replicate. lia.
  - intros k Hk Hlen. rewrite list_lookup_insert_ne by done. by rewrite lookup_app_l.
Qed.


(** X1. On a ledger whose column names are distinct and whose orders carry
    integer ids, [update_order_status] answers [True] exactly when the header
    row has a column [status] and some record's id reads as the given one;
    when it answers [False] it has done nothing but its two reads. Whatever
    it answers (it never raises), the sheet keeps its number of rows and its
    header row, and the catalog sheet and the session are as before. The
    function of o3.py is the same function on an id that is a string. *)
Theorem update_order_status_outcome (w : World) (order_id : value) (new_status : pystr) :
  NoDup (Worksheet.header_row (orders w)) →
  integer_column (lit "OrderID") (Worksheet.get_all_records (orders w)) →
  let r := CombinedBot.update_order_status order_id new_status w in
  let found :=
    lit "status" ∈ Worksheet.header_row (orders w)
    ∧ ∃ order, order ∈ Worksheet.get_all_records (orders w)
               ∧ str (get order (lit "OrderID")) = str order_id in
  (r.1 = Ok true ∨ r.1 = Ok false)
  ∧ (r.1 = Ok true ↔ found)
  ∧ (r.1 = Ok false → r.2 = after_two_reads w)
  ∧ length (orders r.2) = length (orders w)
  ∧ head (orders r.2) = head (orders w)
  ∧ cakes r.2 = cakes w ∧ state r.2 = state w ∧ data r.2 = data w
  ∧ ∀ order_id', O3.update_order_status order_id' new_status w
                 = CombinedBot.update_order_status (VStr order_id') new_status w.
Proof.
  intros _ _ r found. subst r found. rewrite update_order_status_eq. cbv zeta.
  destruct (bool_decide_reflect (lit "status" ∈ Worksheet.header_row (orders w)))
    as [Hstatus|Hstatus].
  - destruct (first_match order_id (Worksheet.get_all_records (orders w))) as [i|] eqn:Hi;
      simpl.
    + apply first_match_Some in Hi as [(order & Hat & Heq) _].
      split; [by left|]. split.
      { split; [|done]. intros _. split; [done|]. exists order. split; [|done].
        by eapply list_elem_of_lookup_2. }
      split; [done|]. split; [apply update_cell_length|].
      split; [apply update_cell_head; lia|].
      done.
    + split; [by right|]. split.
      { split; [done|]. intros [_ (order & Hin & Heq)].
        rewrite first_match_None in Hi. by destruct (Hi order Hin). }
      done.
  - simpl. split; [by right|]. split; [split; [done|by intros [? _]]|].
    done.
Qed.

Lemma example_header_NoDup : NoDup example_header.
Proof. apply (bool_decide_unpack _). by vm_compute. Qed.

Lemma update_order_status_outcome_witness :
  let w := example_world in
  let order_id := VStr (lit "1") in
  let r := CombinedBot.update_order_status order_id (lit "Delivered") w in
  let found :=
    lit "status" ∈ Worksheet.header_row (orders w)
    ∧ ∃ order, order ∈ Worksheet.get_all_records (orders w)
               ∧ str (get order (lit "OrderID")) = str order_id in
  (r.1 = Ok true ∨ r.1 = Ok false)
  ∧ (r.1 = Ok true ↔ found)
  ∧ (r.1 = Ok false → r.2 = after_two_reads w)
  ∧ length (orders r.2) = length (orders w)
  ∧ head (orders r.2) = head (orders w)
  ∧ cakes r.2 = cakes w ∧ state r.2 = state w ∧ data r.2 = data w
  ∧ ∀ order_id', O3.update_order_status order_id' (lit "Delivered") w
                 = CombinedBot.update_order_status (VStr order_id') (lit "Delivered") w.
Proof.
  apply (update_order_status_outcome example_world (VStr (lit "1")) (lit "Delivered")).
  - exact example_header_NoDup.
  - intros order Ho. exists 1. by apply example_records_id.
Defined.



Lemma first_match_app order_id l1 l2 :
  first_match order_id (l1 ++ l2)
  = match first_match order_id l1 with
    | Some i => Some i
    | None => (λ i, (length l1 + i)%nat) <$> first_match order_id l2
    end.
Proof.
  induction l1 as [|o l1 IH]; simpl.
  - by destruct (first_match order_id l2).
  - destruct (decide _); [done|]. rewrite IH.
    destruct (first_match order_id l1); simpl; [done|].
    by destruct (first_match order_id l2).
Qed.

Lemma get_all_orders_by_user_eq user_id w :
  CombinedBot.get_all_orders_by_user user_id w
  = (Ok (filter (λ order, strip (str (get_or order (lit "user_id") (VStr [])))
                          = strip (str (VInt user_id)))
           (Worksheet.get_all_records (orders w))),
     add_events [Fetched ORDERS_SHEET_NAME] w).
Proof. reflexivity. Qed.

(** The record [get_all_records] makes of a row [create_new_order] wrote. *)
Lemma new_record hdr i user_id user_name name price taste size decor date :
  lit "OrderID" ∉ hdr → lit "user_id" ∉ hdr →
  let order : dict :=
    list_to_map (reverse (zip (lit "OrderID" :: lit "user_id" :: hdr)
      (Worksheet.numericise
         <$> (str <$> new_row i user_id user_name name price taste size decor date)))) in
  get order (lit "OrderID") = VInt i
  ∧ get_or order (lit "user_id") (VStr []) = VInt user_id.
Proof.
  intros Hid Huser order. subst order. unfold get, get_or, new_row.
  rewrite !fmap_cons. split.
  - rewrite record_lookup_first; [simpl; by rewrite numericise_str_of_int|].
    intros Hin. apply elem_of_cons in Hin as [Heq|Hin]; [|done].
    by vm_compute in Heq.
  - rewrite record_lookup_second; [|by vm_compute|done].
    simpl. by rewrite strip_str_of_int, numericise_str_of_int.
Qed.

(** X3. An order that has just been created is listed for its customer.
    On a ledger whose header row starts with the columns [OrderID] and
    [user_id] (each name occurring once), after [create_new_order] has
    returned the id [i] for the customer [user_id], [get_all_orders_by_user]
    gives what it gave before the call and, after it, one more record: the
    new order, with the id [i]. The lists of the other customers are as
    before. *)
Theorem created_order_is_listed (w : World) (hdr : list pystr) (rows : list (list pystr))
    (user_id : Z) (user_name : pystr) (cake : dict) (taste size decor : pystr) (i : Z) :
  orders w = (lit "OrderID" :: lit "user_id" :: hdr) :: rows →
  lit "OrderID" ∉ hdr → lit "user_id" ∉ hdr →
  let r := CombinedBot.create_new_order user_id user_name cake taste size decor w in
  r.1 = Ok (Some i) →
  (∃ before order,
     (CombinedBot.get_all_orders_by_user user_id w).1 = Ok before
     ∧ (CombinedBot.get_all_orders_by_user user_id r.2).1 = Ok (before ++ [order])
     ∧ get order (lit "OrderID") = VInt i
     ∧ get_or order (lit "user_id") (VStr []) = VInt user_id)
  ∧ ∀ other, other ≠ user_id →
      (CombinedBot.get_all_orders_by_user other r.2).1
      = (CombinedBot.get_all_orders_by_user other w).1.
Proof.
  intros Hsheet Hid Huser r Hr. subst r. rewrite create_new_order_row in Hr |- *.
  destruct (next_order_id (orders w)) as [i'|]; [|done].
  destruct (cake !! lit "name") as [[| |name]|]; try done.
  destruct (cake !! lit "price") as [price|]; [|done].
  cbv zeta in Hr |- *. cbn [fst] in Hr. injection Hr as ->.
  rewrite !get_all_orders_by_user_eq. cbn [fst snd orders]. rewrite Hsheet, records_snoc, filter_app.
  destruct (new_record hdr i user_id user_name name price taste size decor (clock w)
              Hid Huser) as [Hi Hu].
  split.
  - eexists _, _. split; [done|]. split; [|done].
    f_equal. f_equal. rewrite filter_cons_True; [done|]. by rewrite Hu.
  - intros other Hother. rewrite !get_all_orders_by_user_eq. cbn [fst snd orders].
    rewrite Hsheet, records_snoc, filter_app.
    f_equal. rewrite filter_cons_False; [by rewrite app_nil_r|].
    rewrite Hu. simpl. rewrite !strip_str_of_int. intros Heq.
    by apply str_of_int_inj in Heq.
Qed.

Lemma created_order_is_listed_witness :
  let r := CombinedBot.create_new_order 5 (lit "bob") example_cake (lit "dark") (lit "8")
             (lit "none") example_world in
  (∃ before order,
     (CombinedBot.get_all_orders_by_user 5 example_world).1 = Ok before
     ∧ (CombinedBot.get_all_orders_by_user 5 r.2).1 = Ok (before ++ [order])
     ∧ get order (lit "OrderID") = VInt 2
     ∧ get_or order (lit "user_id") (VStr []) = VInt 5)
  ∧ ∀ other, other ≠ 5 →
      (CombinedBot.get_all_orders_by_user other r.2).1
      = (CombinedBot.get_all_orders_by_user other example_world).1.
Proof.
  apply (created_order_is_listed example_world (drop 2 example_header) [example_order_row]).
  - reflexivity.
  - apply (bool_decide_unpack _). vm_compute. exact I.
  - apply (bool_decide_unpack _). vm_compute. exact I.
  - vm_compute. reflexivity.
Defined.

Lemma lit_OrderID_status : lit "OrderID" ≠ lit "status".
Proof. by vm_compute. Qed.

(** X4. An order that has just been created can be updated by the id the
    call returned. On a ledger whose header row has distinct names, starts
    with the column [OrderID] and has a column [status], after
    [create_new_order] has returned the id [i], [update_order_status] called
    with the text of [i] answers [True]. If the orders the ledger held before
    carry integer ids and none of them is [i], its one write goes to the new
    row, the last of the sheet: that row then starts with the text of [i] and
    holds the new status, and the rows above it are untouched. *)
Theorem created_order_can_be_updated (w : World) (hdr : list pystr)
    (rows : list (list pystr)) (user_id : Z) (user_name : pystr) (cake : dict)
    (taste size decor : pystr) (i : Z) (new_status : pystr) :
  orders w = (lit "OrderID" :: hdr) :: rows →
  NoDup (lit "OrderID" :: hdr) → lit "status" ∈ hdr →
  let r := CombinedBot.create_new_order user_id user_name cake taste size decor w in
  r.1 = Ok (Some i) →
  let r' := CombinedBot.update_order_status (VStr (str_of_int i)) new_status r.2 in
  let status_col := index (lit "status") (lit "OrderID" :: hdr) in
  r'.1 = Ok true
  ∧ (integer_column (lit "OrderID") (Worksheet.get_all_records (orders w)) →
     (∀ order, order ∈ Worksheet.get_all_records (orders w) →
               str (get order (lit "OrderID")) ≠ str_of_int i) →
     trace r'.2 = trace r.2 ++ [Fetched ORDERS_SHEET_NAME; Fetched ORDERS_SHEET_NAME;
                                Cell_updated (length (orders w) + 1) (status_col + 1)
                                  new_status]
     ∧ (∀ j, (j < length (orders w))%nat → orders r'.2 !! j = orders w !! j)
     ∧ ∃ cells, last (orders r'.2) = Some cells
                ∧ cells !! 0%nat = Some (str_of_int i)
                ∧ cells !! status_col = Some new_status).
Proof.
  intros Hsheet [Hid _]%NoDup_cons Hstatus r Hr r' status_col. subst r' status_col r.
  rewrite create_new_order_row in Hr |- *.
  destruct (next_order_id (orders w)) as [i'|]; [|done].
  destruct (cake !! lit "name") as [[| |name]|]; try done.
  destruct (cake !! lit "price") as [price|]; [|done].
  cbv zeta in Hr |- *. cbn [fst] in Hr. injection Hr as ->.
  rewrite update_order_status_eq. cbv zeta. cbn [fst snd orders cakes state data clock trace].
  rewrite Hsheet. change (((lit "OrderID" :: hdr) :: rows) ++ ?l) with
    ((lit "OrderID" :: hdr) :: (rows ++ l)).
  cbn [Worksheet.header_row hd].
  rewrite bool_decide_eq_true_2 by (by right).
  change ((lit "OrderID" :: hdr) :: (rows ++ ?l)) with
    (((lit "OrderID" :: hdr) :: rows) ++ l).
  rewrite records_snoc, first_match_app.
  set (order := list_to_map _ : dict).
  assert (get order (lit "OrderID") = VInt i) as Hi.
  { unfold get, order, new_row. rewrite !fmap_cons.
    rewrite record_lookup_first by done. simpl. by rewrite numericise_str_of_int. }
  assert (first_match (VStr (str_of_int i)) [order] = Some 0%nat) as Hlast.
  { simpl. rewrite Hi. by rewrite decide_True. }
  rewrite Hlast.
  destruct (first_match (VStr (str_of_int i)) (Worksheet.get_all_records _)) as [k|] eqn:Hk.
  - split; [done|]. intros _ Hnone. apply first_match_Some in Hk as [(o & Hat & Ho) _].
    destruct (Hnone o); [|done]. by eapply list_elem_of_lookup_2.
  - cbn [fmap option_fmap option_map fst snd orders trace]. split; [done|]. intros _ _.
    rewrite Nat.add_0_r. cbn [Worksheet.get_all_records]. rewrite length_fmap.
    assert (index (lit "status") (lit "OrderID" :: hdr) = S (index (lit "status") hdr))
      as Hcol.
    { cbn [index].
      destruct (decide (lit "OrderID" = lit "status")) as [Heq|]; [|done].
      by destruct lit_OrderID_status. }
    rewrite Hcol. cbn [length].
    replace (S (length rows) + 1)%nat with (2 + length rows)%nat by lia.
    split; [by rewrite <- app_assoc|]. split.
    + intros j Hj. rewrite update_cell_other_rows by (simpl; lia).
      apply (lookup_app_l ((lit "OrderID" :: hdr) :: rows)). simpl. lia.
    + destruct (update_cell_row
                  (((lit "OrderID" :: hdr) :: rows)
                   ++ [str <$> new_row i user_id user_name name price taste size decor
                                 (clock w)])
                  (2 + length rows) (S (index (lit "status") hdr) + 1) new_status
                  (str <$> new_row i user_id user_name name price taste size decor
                             (clock w)))
        as (cells & Hrow & Hcell & Hothers); [lia| |].
      { apply list_lookup_middle. simpl. lia. }
      exists cells. split; [|split].
      * rewrite last_lookup, update_cell_length, length_app. simpl.
        rewrite <- Hrow. f_equal. simpl. lia.
      * rewrite (Hothers 0%nat); [done| lia | simpl; lia].
      * rewrite <- Hcell. f_equal. lia.
Qed.

Lemma created_order_can_be_updated_witness :
  let r := CombinedBot.create_new_order 5 (lit "bob") example_cake (lit "dark") (lit "8")
             (lit "none") example_world in
  let r' := CombinedBot.update_order_status (VStr (str_of_int 2)) (lit "Delivered") r.2 in
  let status_col := index (lit "status") (lit "OrderID" :: drop 1 example_header) in
  r'.1 = Ok true
  ∧ (integer_column (lit "OrderID") (Worksheet.get_all_records (orders example_world)) →
     (∀ order, order ∈ Worksheet.get_all_records (orders example_world) →
               str (get order (lit "OrderID")) ≠ str_of_int 2) →
     trace r'.2 = trace r.2 ++ [Fetched ORDERS_SHEET_NAME; Fetched ORDERS_SHEET_NAME;
                                Cell_updated (length (orders example_world) + 1)
                                  (status_col + 1) (lit "Delivered")]
     ∧ (∀ j, (j < length (orders example_world))%nat →
             orders r'.2 !! j = orders example_world !! j)
     ∧ ∃ cells, last (orders r'.2) = Some cells
                ∧ cells !! 0%nat = Some (str_of_int 2)
                ∧ cells !! status_col = Some (lit "Delivered")).
Proof.
  apply (created_order_can_be_updated example_world (drop 1 example_header)
           [example_order_row] 5 (lit "bob") example_cake (lit "dark") (lit "8")
           (lit "none") 2 (lit "Delivered")).
  - reflexivity.
  - exact example_header_NoDup.
  - apply (bool_decide_unpack _). vm_compute. exact I.
  - vm_compute. reflexivity.
Defined.

Lemma next_order_id_unreadable sh row :
  (2 ≤ length sh)%nat → last sh = Some row →
  (∀ cell rest n, row = cell :: rest → int_of_str cell ≠ Ok n) →
  ∃ e, next_order_id sh = Raise e.
Proof.
  intros Hlen Hlast Hcell. unfold next_order_id, last_item.
  rewrite decide_False by lia. rewrite Hlast. simpl.
  destruct row as [|cell rest]; simpl; [by eauto|].
  destruct (int_of_str cell) as [n|e] eqn:Hn; simpl; [|by eauto].
  by destruct (Hcell cell rest n).
Qed.

Section Blocked_calls.

Variable create : Z → pystr → dict → pystr → pystr → pystr → M (option Z).
Variable ok : dict → bool.
Hypothesis create_step : ∀ user_id user_name cake taste size decor w,
  let r := create user_id user_name cake taste size decor w in
  match next_order_id (orders w), ok cake with
  | Ok i, true =>
      r.1 = Ok (Some i) ∧ ∃ rest, orders r.2 = orders w ++ [str_of_int i :: rest]
  | _, _ => r.1 = Ok None ∧ orders r.2 = orders w
  end.

Lemma create_orders_blocked calls w e :
  next_order_id (orders w) = Raise e →
  let r := create_orders create calls w in
  r.1 = replicate (length calls) (Ok None) ∧ orders r.2 = orders w.
Proof.
  revert w. induction calls as [|c calls IH]; intros w Hnext; simpl; [done|].
  pose proof (create_step (call_user_id c) (call_user_name c) (call_cake c)
                (call_taste c) (call_size c) (call_decor c)
                (set_clock (call_time c) w)) as Hstep.
  simpl in Hstep. rewrite Hnext in Hstep.
  destruct (create _ _ _ _ _ _ _) as [r w1]. simpl in Hstep. destruct Hstep as [-> Hw1].
  specialize (IH w1). rewrite Hw1 in IH. specialize (IH Hnext).
  destruct (create_orders create calls w1) as [rs w2]. simpl in IH |- *.
  destruct IH as [-> ->]. done.
Qed.

End Blocked_calls.

(** An id cell in the digits of another script is read by [int] like any
    other. *)
Example last_row_in_other_digits : next_order_id [example_header; [lit "٢"]] = Ok 3.
Proof. by vm_compute. Qed.

(** X5. A last row that cannot be read blocks the ledger. When the sheet
    has at least two rows and the last one is empty or starts with a cell
    that does not read as an [int], every call of [create_new_order] returns
    [None] and appends nothing, whatever the order, so the sheet stays as it
    is and the calls after it fail in the same way. *)
Theorem unreadable_last_row_blocks_orders (w : World) (calls : list order_call)
    (row : list pystr) :
  (2 ≤ length (orders w))%nat →
  last (orders w) = Some row →
  (∀ cell rest n, row = cell :: rest → int_of_str cell ≠ Ok n) →
  let r := create_orders CombinedBot.create_new_order calls w in
  let r' := create_orders O3.create_new_order calls w in
  r.1 = replicate (length calls) (Ok None) ∧ orders r.2 = orders w
  ∧ r'.1 = replicate (length calls) (Ok None) ∧ orders r'.2 = orders w.
Proof.
  intros Hlen Hlast Hcell.
  destruct (next_order_id_unreadable _ _ Hlen Hlast Hcell) as [e He].
  pose proof (create_orders_blocked _ _ create_new_order_combined calls w e He) as [? ?].
  pose proof (create_orders_blocked _ _ create_new_order_o3 calls w e He) as [? ?].
  done.
Qed.

Lemma unreadable_last_row_blocks_orders_witness :
  let w := mkWorld [example_header; [lit "n/a"]] example_catalog None no_data [] [] in
  let calls := [mkCall 5 (lit "bob") example_cake (lit "dark") (lit "8") (lit "none")
                  (lit "2024-01-02 09:30:00");
                mkCall 6 (lit "eve") example_cake (lit "milk") (lit "4") (lit "none")
                  (lit "2024-01-02 09:31:00")] in
  let r := create_orders CombinedBot.create_new_order calls w in
  let r' := create_orders O3.create_new_order calls w in
  r.1 = replicate (length calls) (Ok None) ∧ orders r.2 = orders w
  ∧ r'.1 = replicate (length calls) (Ok None) ∧ orders r'.2 = orders w.
Proof.
  apply (unreadable_last_row_blocks_orders
           (mkWorld [example_header; [lit "n/a"]] example_catalog None no_data [] [])
           _ [lit "n/a"]).
  - simpl. lia.
  - reflexivity.
  - intros cell rest n [= <- <-]. by vm_compute.
Defined.

(** X6. Without a header row the first two orders get the same id. On a
    sheet with no row at all, two calls of [create_new_order] one after the
    other both return 1, and the sheet then holds two rows that both start
    with [1]: the count [len(all_values) < 2] takes the first order's row for
    the header. *)
Theorem sheet_without_header_repeats_id (w : World) (c1 c2 : order_call) :
  orders w = [] →
  cake_ok (call_cake c1) = true → cake_ok (call_cake c2) = true →
  let r := create_orders CombinedBot.create_new_order [c1; c2] w in
  let r' := create_orders O3.create_new_order [c1; c2] w in
  r.1 = [Ok (Some 1); Ok (Some 1)] ∧ head <$> orders r.2 = [Some (lit "1"); Some (lit "1")]
  ∧ r'.1 = [Ok (Some 1); Ok (Some 1)]
  ∧ head <$> orders r'.2 = [Some (lit "1"); Some (lit "1")].
Proof.
  intros Hempty Hok1 Hok2.
  assert (∀ c, cake_ok c = true → cake_ok_o3 c = true) as Ho3.
  { intros c. unfold cake_ok, cake_ok_o3.
    by destruct (c !! lit "name") as [[| |?]|]. }
  assert (∀ create ok,
    (∀ user_id user_name cake taste size decor w,
       let r := create user_id user_name cake taste size decor w in
       match next_order_id (orders w), ok cake with
       | Ok i, true =>
           r.1 = Ok (Some i) ∧ ∃ rest, orders r.2 = orders w ++ [str_of_int i :: rest]
       | _, _ => r.1 = Ok None ∧ orders r.2 = orders w
       end) →
    ok (call_cake c1) = true → ok (call_cake c2) = true →
    let r := create_orders create [c1; c2] w in
    r.1 = [Ok (Some 1); Ok (Some 1)]
    ∧ head <$> orders r.2 = [Some (lit "1"); Some (lit "1")]) as Hboth.
  { intros create ok Hstep H1 H2. simpl.
    pose proof (Hstep (call_user_id c1) (call_user_name c1) (call_cake c1)
                  (call_taste c1) (call_size c1) (call_decor c1)
                  (set_clock (call_time c1) w)) as Hs1.
    simpl in Hs1. rewrite Hempty, H1 in Hs1.
    destruct (create _ _ _ _ _ _ _) as [r1 w1]. simpl in Hs1.
    destruct Hs1 as [-> (rest1 & Hw1)].
    pose proof (Hstep (call_user_id c2) (call_user_name c2) (call_cake c2)
                  (call_taste c2) (call_size c2) (call_decor c2)
                  (set_clock (call_time c2) w1)) as Hs2.
    simpl in Hs2. rewrite Hw1, H2 in Hs2.
    destruct (create _ _ _ _ _ _ _) as [r2 w2]. simpl in Hs2.
    destruct Hs2 as [-> (rest2 & Hw2)]. simpl. by rewrite Hw2. }
  destruct (Hboth _ _ create_new_order_combined Hok1 Hok2) as [? ?].
  destruct (Hboth _ _ create_new_order_o3 (Ho3 _ Hok1) (Ho3 _ Hok2)) as [? ?].
  done.
Qed.

Lemma sheet_without_header_repeats_id_witness :
  let w := mkWorld [] example_catalog None no_data [] [] in
  let c1 := mkCall 5 (lit "bob") example_cake (lit "dark") (lit "8") (lit "none")
              (lit "2024-01-02 09:30:00") in
  let c2 := mkCall 6 (lit "eve") example_cake (lit "milk") (lit "4") (lit "none")
              (lit "2024-01-02 09:31:00") in
  let r := create_orders CombinedBot.create_new_order [c1; c2] w in
  let r' := create_orders O3.create_new_order [c1; c2] w in
  r.1 = [Ok (Some 1); Ok (Some 1)] ∧ head <$> orders r.2 = [Some (lit "1"); Some (lit "1")]
  ∧ r'.1 = [Ok (Some 1); Ok (Some 1)]
  ∧ head <$> orders r'.2 = [Some (lit "1"); Some (lit "1")].
Proof.
  apply (sheet_without_header_repeats_id (mkWorld [] example_catalog None no_data [] [])).
  - reflexivity.
  - vm_compute. reflexivity.
  - vm_compute. reflexivity.
Defined.

(** ** Pages *)

Lemma slice_page {A} (l : list A) (page page_size : Z) :
  0 ≤ page → 0 < page_size →
  slice l (page * page_size) (page * page_size + page_size)
  = take (Z.to_nat page_size) (drop (Z.to_nat (page * page_size)) l).
Proof.
  intros Hpage Hsize. unfold slice, slice_bound.
  assert (0 ≤ page * page_size) as Hstart by nia.
  destruct (Z.ltb_spec (page * page_size) 0) as [?|_]; [lia|].
  destruct (Z.ltb_spec (page * page_size + page_size) 0) as [?|_]; [lia|].
  destruct (Z.le_gt_cases (Z.of_nat (length l)) (page * page_size)) as [Hout|Hin].
  - rewrite !Z.min_r by lia. rewrite Z.sub_diag. simpl.
    rewrite (drop_ge l (Z.to_nat (page * page_size))) by lia. by rewrite take_nil.
  - rewrite (Z.min_l (page * page_size)) by lia.
    destruct (Z.le_gt_cases (page * page_size + page_size) (Z.of_nat (length l)))
      as [Hfull|Hlast].
    + rewrite Z.min_l by lia. f_equal. lia.
    + rewrite Z.min_r by lia. rewrite !take_ge; [done|..]; rewrite length_drop; lia.
Qed.

Lemma pages_of_take {A} (l : list A) (page_size : Z) (k : nat) :
  0 < page_size →
  concat ((λ page, slice l (page * page_size) (page * page_size + page_size))
            <$> seqZ 0 (Z.of_nat k))
  = take (k * Z.to_nat page_size) l.
Proof.
  intros Hsize. induction k as [|k IH].
  - done.
  - rewrite seqZ_S, fmap_app, concat_app, IH. simpl. rewrite app_nil_r.
    rewrite slice_page by lia.
    replace (Z.to_nat ((0 + Z.of_nat k) * page_size))
      with (k * Z.to_nat page_size)%nat by nia.
    rewrite take_take_drop. f_equal. lia.
Qed.

Lemma page_count_nonneg total page_size : 0 ≤ total → 0 < page_size → 0 ≤ page_count total page_size.
Proof. intros. unfold page_count. apply Z.div_pos; lia. Qed.

(** The pages are cut from the list one after the other and leave nothing
    out; each holds at least one entry and at most [page_size]. *)
Lemma pages_of_cover {A} (l : list A) (page_size : Z) :
  0 < page_size →
  concat (pages_of l page_size) = l
  ∧ Z.of_nat (length (pages_of l page_size)) = page_count (Z.of_nat (length l)) page_size
  ∧ Forall (λ pg, (0 < length pg)%nat ∧ Z.of_nat (length pg) ≤ page_size)
      (pages_of l page_size).
Proof.
  intros Hsize. unfold pages_of.
  pose proof (page_count_is_ceiling (Z.of_nat (length l)) page_size Hsize) as Hceil.
  cbv zeta in Hceil.
  pose proof (page_count_nonneg (Z.of_nat (length l)) page_size ltac:(lia) Hsize) as Hpos.
  set (pages := page_count (Z.of_nat (length l)) page_size) in *.
  split; [|split].
  - rewrite <- (Z2Nat.id pages) by done. rewrite pages_of_take by done.
    apply take_ge. nia.
  - rewrite length_fmap, length_seqZ. lia.
  - apply Forall_fmap, Forall_forall. intros page Hin.
    apply elem_of_seqZ in Hin. simpl. rewrite slice_page by lia.
    rewrite length_take, length_drop. split; [|lia].
    assert (page * page_size < Z.of_nat (length l)) by nia. lia.
Qed.

Lemma map_res_slice {A B} (f : A → res B) l ys start stop :
  map_res f l = Ok ys → map_res f (slice l start stop) = Ok (slice ys start stop).
Proof.
  rewrite !map_res_Ok. intros Hall. unfold slice.
  rewrite (Forall2_length _ _ _ Hall). by apply Forall2_take, Forall2_drop.
Qed.

Lemma for_each_emits {A} (xs : list A) (body : A → M ()) (ev : A → event) w :
  (∀ x w, x ∈ xs → body x w = (Ok (), add_events [ev x] w)) →
  for_each xs body w = (Ok (), add_events (ev <$> xs) w).
Proof.
  revert w. induction xs as [|x xs IH]; intros w Hbody; simpl.
  - unfold add_events. rewrite app_nil_r. by destruct w.
  - unfold mbind, M_bind. rewrite Hbody by left. rewrite IH.
    + unfold add_events. simpl. by rewrite <- app_assoc.
    + intros y w' Hy. apply Hbody. by right.
Qed.

Lemma for_each_answers {A} (xs : list A) (body : A → M ()) (t : A → text_out) w :
  (∀ x w, x ∈ xs → body x w = (Ok (), add_events [Answer (t x) []] w)) →
  for_each xs body w = (Ok (), add_events ((λ x, Answer (t x) []) <$> xs) w).
Proof. apply for_each_emits. Qed.

Lemma send_pages_eq (block : dict → res (list value)) (shown : list dict) (page_size : Z)
    (blocks : list (list value)) (w : World) :
  map_res block shown = Ok blocks →
  CombinedBot.send_pages block shown page_size w
  = (Ok (), add_events ((λ pg, Answer (Orders_page pg) []) <$> pages_of blocks page_size) w).
Proof.
  intros Hblocks. unfold CombinedBot.send_pages, pages_of.
  rewrite (for_each_answers _ _
             (λ page, Orders_page (slice blocks (page * page_size)
                                     (page * page_size + page_size)))).
  - rewrite <- list_fmap_compose.
    apply map_res_Ok, Forall2_length in Hblocks. by rewrite Hblocks.
  - intros page w' _. unfold mbind, M_bind, lift, answer, emit, add_events.
    by rewrite (map_res_slice _ _ _ _ _ Hblocks).
Qed.

Lemma sorted_reverse_perm {A} (key : A → res Z) l sorted :
  sorted_reverse key l = Ok sorted → sorted ≡ₚ l.
Proof.
  unfold sorted_reverse.
  destruct (map_res _ l) as [keyed|] eqn:Hkeyed; simpl; [|done].
  intros [= <-]. rewrite sort_desc_perm.
  apply map_res_Ok in Hkeyed.
  induction Hkeyed as [|x kx l keyed Hx _ IH]; simpl; [done|].
  destruct (key x); simpl in Hx; [|done]. injection Hx as <-. simpl. by f_equiv.
Qed.

Lemma sort_orders_perm strptime l : CombinedBot.sort_orders strptime l ≡ₚ l.
Proof.
  unfold CombinedBot.sort_orders.
  destruct (sorted_reverse _ l) as [sorted|] eqn:Hsorted; [|done].
  by eapply sorted_reverse_perm.
Qed.

(** X7. The page loop leaves nothing out and repeats nothing. When every
    order of the list has the fields its block reads, [send_pages] (the loop
    [for page in range(pages)] of [cmd_status], [admin_cmd_view_orders] and
    their counterparts in user_bot.py, admin_bot.py and o3.py) sends one
    message per page and nothing else: the blocks of the messages, put one
    after the other, are the blocks of the whole list in its order; there are
    [(total + page_size - 1) // page_size] messages, none empty and none with
    more than [page_size] orders. *)
Theorem send_pages_shows_every_order_once (block : dict → res (list value))
    (shown : list dict) (page_size : Z) (blocks : list (list value)) (w : World) :
  0 < page_size →
  map_res block shown = Ok blocks →
  ∃ pages,
    CombinedBot.send_pages block shown page_size w
    = (Ok (), add_events ((λ pg, Answer (Orders_page pg) []) <$> pages) w)
    ∧ concat pages = blocks
    ∧ Z.of_nat (length pages) = page_count (Z.of_nat (length shown)) page_size
    ∧ Forall (λ pg, (0 < length pg)%nat ∧ Z.of_nat (length pg) ≤ page_size) pages.
Proof.
  intros Hsize Hblocks. exists (pages_of blocks page_size).
  destruct (pages_of_cover blocks page_size Hsize) as (Hconcat & Hcount & Hsizes).
  split; [by apply send_pages_eq|]. split; [done|]. split; [|done].
  rewrite Hcount. apply map_res_Ok, Forall2_length in Hblocks. by rewrite Hblocks.
Qed.

Lemma send_pages_shows_every_order_once_witness :
  ∃ pages,
    CombinedBot.send_pages CombinedBot.user_block example_orders 2 example_world
    = (Ok (), add_events ((λ pg, Answer (Orders_page pg) []) <$> pages) example_world)
    ∧ concat pages
      = [[VInt 1; VStr (lit "Chocolate"); VInt 500; VStr (lit "dark"); VInt 8;
          VStr (lit "none"); VStr initial_status; VStr (lit "2024-01-01 10:00:00")];
         [VInt 2; VStr (lit "Chocolate"); VInt 500; VStr (lit "dark"); VInt 8;
          VStr (lit "none"); VStr initial_status; VStr (lit "2024-03-05 08:15:00")];
         [VInt 3; VStr (lit "Chocolate"); VInt 500; VStr (lit "dark"); VInt 8;
          VStr (lit "none"); VStr initial_status; VStr (lit "2024-02-11 23:59:59")]]
    ∧ Z.of_nat (length pages) = page_count (Z.of_nat (length example_orders)) 2
    ∧ Forall (λ pg, (0 < length pg)%nat ∧ Z.of_nat (length pg) ≤ 2) pages.
Proof.
  apply (send_pages_shows_every_order_once CombinedBot.user_block example_orders 2).
  - lia.
  - vm_compute. reflexivity.
Defined.

(** ** Statements that step by a relation *)

#[export] Instance on_session_reflexive Rs : Reflexive Rs → Reflexive (on_session Rs).
Proof. intros ? w. unfold on_session. done. Qed.

#[export] Instance on_session_transitive Rs : Transitive Rs → Transitive (on_session Rs).
Proof. intros ? w1 w2 w3. unfold on_session. by etrans. Qed.

#[export] Instance emitting_reflexive P : Reflexive (emitting P).
Proof. intros w. exists []. by rewrite app_nil_r. Qed.

#[export] Instance emitting_transitive P : Transitive (emitting P).
Proof.
  intros w1 w2 w3 (evs1 & H1 & Hall1) (evs2 & H2 & Hall2).
  exists (evs1 ++ evs2). rewrite H2, H1, app_assoc. split; [done|].
  by apply Forall_app.
Qed.

#[export] Instance stays_or_clears_reflexive : Reflexive stays_or_clears.
Proof. intros s. by left. Qed.

#[export] Instance stays_or_clears_transitive : Transitive stays_or_clears.
Proof. intros s1 s2 s3 [->| ->] [->| ->]; unfold stays_or_clears; auto. Qed.

#[export] Instance stays_or_goes_to_reflexive st : Reflexive (stays_or_goes_to st).
Proof. intros s. split; [done|by left]. Qed.

#[export] Instance stays_or_goes_to_transitive st : Transitive (stays_or_goes_to st).
Proof.
  intros s1 s2 s3 [Hd1 Hs1] [Hd2 Hs2]. split; [congruence|].
  destruct Hs2 as [Hs2|Hs2]; [rewrite Hs2; done|by right].
Qed.

Lemma steps_ret {A} R `{!Reflexive R} (a : A) : steps_by R (mret a).
Proof. intros w. simpl. done. Qed.

Lemma steps_lift {A} R `{!Reflexive R} (r : res A) : steps_by R (lift r).
Proof. intros w. simpl. done. Qed.

Lemma steps_bind {A B} R `{!Transitive R} (m : M A) (f : A → M B) :
  steps_by R m → (∀ a, steps_by R (f a)) → steps_by R (m ≫= f).
Proof.
  intros Hm Hf w. unfold mbind, M_bind. specialize (Hm w).
  destruct (m w) as [[a|e] w1]; simpl in *; [|done].
  etrans; [done|]. apply Hf.
Qed.

Lemma steps_try_except {A} R `{!Transitive R} (body handler : M A) :
  steps_by R body → steps_by R handler → steps_by R (try_except body handler).
Proof.
  intros Hb Hh w. unfold try_except. specialize (Hb w).
  destruct (body w) as [[a|e] w1]; simpl in *; [done|].
  etrans; [done|]. apply Hh.
Qed.

Lemma steps_for_each {A} R `{!Reflexive R} `{!Transitive R} (l : list A) (body : A → M ()) :
  (∀ x, steps_by R (body x)) → steps_by R (for_each l body).
Proof.
  intros Hbody. induction l as [|x l IH]; simpl.
  - by apply steps_ret.
  - apply steps_bind; [done|done|]. intros _. exact IH.
Qed.

(** The statements that leave the session alone. *)
Lemma kept_emit e : steps_by (on_session eq) (emit e).
Proof. by intros w. Qed.

Lemma kept_fetch_values n : steps_by (on_session eq) (get_all_values n).
Proof. by intros w. Qed.

Lemma kept_fetch_records n : steps_by (on_session eq) (get_all_records n).
Proof. by intros w. Qed.

Lemma kept_row_values_1 n : steps_by (on_session eq) (row_values_1 n).
Proof. by intros w. Qed.

Lemma kept_append_row values : steps_by (on_session eq) (append_row values).
Proof. by intros w. Qed.

Lemma kept_update_cell row col v : steps_by (on_session eq) (update_cell row col v).
Proof. by intros w. Qed.

Lemma kept_now : steps_by (on_session eq) now_strftime.
Proof. by intros w. Qed.

Lemma kept_get_data : steps_by (on_session eq) get_data.
Proof. by intros w. Qed.

Lemma steps_kept {A} Rs `{!Reflexive Rs} (m : M A) :
  steps_by (on_session eq) m → steps_by (on_session Rs) m.
Proof. intros Hm w. specialize (Hm w). unfold on_session in *. by rewrite <- Hm. Qed.

Lemma clears_state_clear : steps_by (on_session stays_or_clears) state_clear.
Proof. intros w. by right. Qed.

Lemma goes_to_set_state st : steps_by (on_session (stays_or_goes_to st)) (set_state st).
Proof. intros w. split; [done|by right]. Qed.

#[export] Instance only_appends_reflexive : Reflexive only_appends.
Proof. intros w. split; reflexivity. Qed.

#[export] Instance only_appends_transitive : Transitive only_appends.
Proof. intros w1 w2 w3 [Hp1 He1] [Hp2 He2]. split; by etrans. Qed.

Lemma appends_emit e : is_status_write e = false → steps_by only_appends (emit e).
Proof.
  intros He w. split; [done|]. exists [e]. split; [done|]. by apply Forall_singleton.
Qed.

Lemma appends_silent {A} (m : M A) :
  (∀ w, orders (m w).2 = orders w ∧ trace (m w).2 = trace w) → steps_by only_appends m.
Proof.
  intros Hm w. destruct (Hm w) as [Ho Ht]. split; [by rewrite Ho|].
  exists []. by rewrite Ht, app_nil_r.
Qed.

Lemma appends_fetch_values n : steps_by only_appends (get_all_values n).
Proof. intros w. apply (appends_emit (Fetched n) eq_refl w). Qed.

Lemma appends_fetch_records n : steps_by only_appends (get_all_records n).
Proof. intros w. apply (appends_emit (Fetched n) eq_refl w). Qed.

Lemma appends_append_row values : steps_by only_appends (append_row values).
Proof.
  intros w. split.
  - by apply prefix_app_r.
  - exists [Appended values]. split; [done|]. by apply Forall_singleton.
Qed.

Lemma appends_set_state st : steps_by only_appends (set_state st).
Proof. by apply appends_silent. Qed.

Lemma appends_state_clear : steps_by only_appends state_clear.
Proof. by apply appends_silent. Qed.

Lemma appends_update_data f : steps_by only_appends (update_data f).
Proof. by apply appends_silent. Qed.

Lemma appends_get_data : steps_by only_appends get_data.
Proof. by apply appends_silent. Qed.

Lemma appends_now : steps_by only_appends now_strftime.
Proof. by apply appends_silent. Qed.

Create HintDb steps.
#[export] Hint Resolve kept_emit kept_fetch_values kept_fetch_records kept_row_values_1
  kept_append_row kept_update_cell kept_now kept_get_data clears_state_clear
  goes_to_set_state appends_fetch_values appends_fetch_records appends_append_row
  appends_set_state appends_state_clear appends_update_data appends_get_data
  appends_now : steps.

(** Go through a statement along its binds and branches. *)
Ltac solve_steps :=
  repeat first
    [ progress intros
    | solve [eauto with steps]
    | apply steps_kept; [apply _|solve [eauto with steps]]
    | apply steps_bind; [apply _| |]
    | apply steps_try_except; [apply _| |]
    | apply steps_for_each; [apply _|apply _|]
    | apply steps_ret; apply _
    | apply steps_lift; apply _
    | match goal with
      | |- steps_by _ (if ?c then _ else _) => destruct c
      | |- steps_by _ (match ?x with _ => _ end) => destruct x
      | |- steps_by _ (let '(_, _) := ?x in _) => destruct x
      end
    | apply appends_emit; reflexivity
    | progress unfold answer, answer_with, answer_photo, send_message, edit_text,
        callback_answer, data_item, CombinedBot.get_all_orders,
        CombinedBot.get_catalog_of_cakes, CombinedBot.send_status_update,
        CombinedBot.get_all_orders_by_user, O3.get_all_orders, O3.get_catalog_of_cakes,
        O3.send_status_update, O3.get_all_orders_by_user ].

Lemma kept_show_cake cake : steps_by (on_session eq) (CombinedBot.show_cake cake).
Proof. unfold CombinedBot.show_cake. solve_steps. Qed.

Lemma kept_send_pages block shown page_size :
  steps_by (on_session eq) (CombinedBot.send_pages block shown page_size).
Proof. unfold CombinedBot.send_pages. solve_steps. Qed.

Lemma kept_create_new_order user_id user_name cake taste size decor :
  steps_by (on_session eq)
    (CombinedBot.create_new_order user_id user_name cake taste size decor).
Proof. unfold CombinedBot.create_new_order. solve_steps. Qed.

Lemma kept_notify_admins ADMIN_IDS order_id user_name user_id d current_date :
  steps_by (on_session eq)
    (CombinedBot.notify_admins ADMIN_IDS order_id user_name user_id d current_date).
Proof. unfold CombinedBot.notify_admins. solve_steps. Qed.

Lemma kept_find_and_update order_id status_col new_status idx all_orders :
  steps_by (on_session eq)
    (CombinedBot.find_and_update order_id status_col new_status idx all_orders).
Proof.
  revert idx. induction all_orders as [|o rest IH]; intros idx; simpl; solve_steps.
Qed.

#[export] Hint Resolve kept_find_and_update : steps.

Lemma kept_update_order_status order_id new_status :
  steps_by (on_session eq) (CombinedBot.update_order_status order_id new_status).
Proof.
  unfold CombinedBot.update_order_status. solve_steps.
Qed.

#[export] Hint Resolve kept_show_cake kept_send_pages kept_create_new_order
  kept_notify_admins kept_update_order_status : steps.

(** ** The dialogue of user_bot.py *)

Lemma dispatch_with_cases (P : res () * World → Prop) handlers m w :
  P (Ok (), w) →
  (∀ accepts handler, (accepts, handler) ∈ handlers → accepts m (state w) = true →
                      P (handler m w)) →
  P (dispatch_with handlers m w).
Proof.
  intros Hnone Hsome. unfold dispatch_with.
  induction handlers as [|[accepts handler] rest IH]; simpl; [done|].
  destruct (accepts m (state w)) eqn:Haccepts.
  - apply Hsome with accepts; [left|done].
  - apply IH. intros accepts' handler' Hin. apply Hsome. by right.
Qed.

(** What [find_cake] finds: the first entry of the catalog whose name is
    the given one up to letter case. *)
Lemma find_cake_Some catalog name cake :
  CombinedBot.find_cake catalog name = Ok (Some cake) →
  cake ∈ catalog ∧ ∃ n, cake !! lit "name" = Some (VStr n) ∧ lower n = lower name.
Proof.
  induction catalog as [|c rest IH]; simpl; [done|].
  unfold getitem. destruct (c !! lit "name") as [[| |n]|] eqn:Hn; simpl; try done.
  destruct (decide (lower n = lower name)) as [Heq|Hne].
  - intros [= <-]. split; [left|by eauto].
  - intros Hrest. destruct (IH Hrest) as [Hin Hname]. split; [by right|done].
Qed.


Lemma in_state_true s m st : in_state s m st = true → st = Some s.
Proof. unfold in_state. intros H. by apply bool_decide_eq_true in H. Qed.

Lemma stays_or_clears_ready s s' : stays_or_clears s s' → keeps_draft_ready s s'.
Proof. intros [->| ->]; [by intros H|]. by intros _. Qed.

Lemma goes_to_ChoosingCake_ready s s' :
  stays_or_goes_to ChoosingCake s s' → keeps_draft_ready s s'.
Proof.
  destruct s as [st d], s' as [st' d']. intros [Hd [Hs|Hs]]; simpl in *; subst;
    [by intros H|].
  by intros _.
Qed.

Lemma goes_to_UpdatingOrderStatus_ready s s' :
  stays_or_goes_to UpdatingOrderStatus s s' → keeps_draft_ready s s'.
Proof.
  destruct s as [st d], s' as [st' d']. intros [Hd [Hs|Hs]]; simpl in *; subst;
    [by intros H|].
  by intros _.
Qed.

Lemma user_bot_handle_start ADMIN_IDS m :
  steps_by (on_session stays_or_clears) (UserBot.handle_start ADMIN_IDS m).
Proof. unfold UserBot.handle_start. solve_steps. Qed.

Lemma user_bot_handle_cancel ADMIN_IDS m :
  steps_by (on_session stays_or_clears) (UserBot.handle_cancel ADMIN_IDS m).
Proof. unfold UserBot.handle_cancel. solve_steps. Qed.

Lemma user_bot_user_make_order ADMIN_IDS m :
  steps_by (on_session (stays_or_goes_to ChoosingCake)) (UserBot.user_make_order ADMIN_IDS m).
Proof. unfold UserBot.user_make_order, UserBot.get_catalog_of_cakes. solve_steps. Qed.

Lemma user_bot_user_check_status ADMIN_IDS strptime m :
  steps_by (on_session eq) (UserBot.user_check_status ADMIN_IDS strptime m).
Proof. unfold UserBot.user_check_status, UserBot.get_all_orders_by_user. solve_steps. Qed.

Lemma user_bot_admin_view_orders_menu ADMIN_IDS strptime m :
  steps_by (on_session eq) (UserBot.admin_view_orders_menu ADMIN_IDS strptime m).
Proof. unfold UserBot.admin_view_orders_menu, UserBot.get_all_orders. solve_steps. Qed.

Lemma user_bot_admin_update_status_menu ADMIN_IDS m :
  steps_by (on_session (stays_or_goes_to UpdatingOrderStatus))
    (UserBot.admin_update_status_menu ADMIN_IDS m).
Proof. unfold UserBot.admin_update_status_menu. solve_steps. Qed.

Lemma user_bot_admin_process_update_status ADMIN_IDS m :
  steps_by (on_session stays_or_clears) (UserBot.admin_process_update_status ADMIN_IDS m).
Proof.
  unfold UserBot.admin_process_update_status, UserBot.update_order_status,
    UserBot.get_all_orders, UserBot.send_status_update.
  solve_steps; apply user_bot_handle_cancel.
Qed.

Lemma user_bot_user_confirming_order ADMIN_IDS m :
  steps_by (on_session stays_or_clears) (UserBot.user_confirming_order ADMIN_IDS m).
Proof.
  unfold UserBot.user_confirming_order, UserBot.create_new_order.
  solve_steps; apply user_bot_handle_cancel.
Qed.

Ltac world_fields :=
  cbn [fst snd sheet_of orders cakes state data clock trace session chosen_cake taste size
       decor].

Lemma user_bot_user_choosing_cake ADMIN_IDS m w :
  keeps_draft_ready (session w) (session (UserBot.user_choosing_cake ADMIN_IDS m w).2).
Proof.
  unfold UserBot.user_choosing_cake.
  destruct (decide _); [apply stays_or_clears_ready, user_bot_handle_cancel|].
  unfold UserBot.get_catalog_of_cakes, CombinedBot.get_catalog_of_cakes. unfold_M.
  destruct (UserBot.is_admin _ _); world_fields;
    (destruct (CombinedBot.find_cake _ _) as [[cake|]|e] eqn:Hfind; world_fields;
     [destruct (decide (cake = ∅)); world_fields|..]; try (by intros H);
     intros _; apply find_cake_Some in Hfind as [_ (name & Hname & _)];
     exists cake; split; [done|by rewrite Hname]).
Qed.

Lemma user_bot_user_choosing_taste ADMIN_IDS m w :
  state w = Some ChoosingTaste →
  keeps_draft_ready (session w) (session (UserBot.user_choosing_taste ADMIN_IDS m w).2).
Proof.
  intros Hstate. unfold UserBot.user_choosing_taste.
  destruct (decide _); [apply stays_or_clears_ready, user_bot_handle_cancel|].
  unfold_M. unfold keeps_draft_ready, draft_ready. world_fields. rewrite Hstate.
  intros (cake & Hcake & Hname). split; [by exists cake|done].
Qed.

Lemma user_bot_user_choosing_size ADMIN_IDS m w :
  state w = Some ChoosingSize →
  keeps_draft_ready (session w) (session (UserBot.user_choosing_size ADMIN_IDS m w).2).
Proof.
  intros Hstate. unfold UserBot.user_choosing_size.
  destruct (decide _); [apply stays_or_clears_ready, user_bot_handle_cancel|].
  unfold_M. destruct (isdigit (strip (text m))) eqn:Hdigit; cbn [negb]; [|by intros H].
  unfold keeps_draft_ready, draft_ready. world_fields. rewrite Hstate.
  intros [(cake & Hcake & Hname) Htaste].
  split; [by exists cake|]. split; [done|]. by exists (strip (text m)).
Qed.

Lemma user_bot_user_choosing_decor ADMIN_IDS m w :
  state w = Some ChoosingDecor →
  draft_ready (session w) →
  draft_ready (session (UserBot.user_choosing_decor ADMIN_IDS m w).2)
  ∧ (UserBot.user_choosing_decor ADMIN_IDS m w).1 = Ok ().
Proof.
  intros Hstate Hready. unfold UserBot.user_choosing_decor.
  destruct (decide _).
  { split; [|by rewrite handle_cancel_user_bot].
    exact (stays_or_clears_ready _ _ (user_bot_handle_cancel ADMIN_IDS m w) Hready). }
  unfold draft_ready in Hready. cbn [session fst snd] in Hready. rewrite Hstate in Hready.
  destruct Hready as ((cake & Hcake & [name Hname]) & [taste' Htaste] & (size' & Hsize & Hdigit)).
  unfold_M. world_fields.
  rewrite Hcake, Htaste, Hsize. world_fields. unfold getitem. rewrite Hname. world_fields.
  split; [|done].
  unfold draft_ready. world_fields.
  split; [exists cake; by rewrite Hname|]. split; [done|]. split; [by exists size'|done].
Qed.

Lemma user_bot_user_confirming_order_returns ADMIN_IDS m w :
  state w = Some Confirming →
  draft_ready (session w) →
  (UserBot.user_confirming_order ADMIN_IDS m w).1 = Ok ().
Proof.
  intros Hstate Hready.
  unfold draft_ready in Hready. cbn [session fst snd] in Hready. rewrite Hstate in Hready.
  destruct Hready as ((cake & Hcake & _) & [taste' Htaste] & (size' & Hsize & _)
                      & [decor' Hdecor]).
  destruct (decide (lower (text m) = lit "отмена")) as [Hcancel|Hcancel].
  { unfold UserBot.user_confirming_order. rewrite decide_True by done.
    by rewrite handle_cancel_user_bot. }
  destruct (decide (lower (text m) = lit "да")) as [Hyes|Hyes].
  - rewrite (user_confirming_order_yes ADMIN_IDS m w cake taste' size' decor') by
      (try done; destruct (data w); simpl in *; by subst).
    destruct (submitted_then_quiet ADMIN_IDS
                (CombinedBot.create_new_order (from_user_id m) (username_or_full_name m)
                   cake taste' size' decor')
                (username_or_full_name m) (from_user_id m) (data w) w
                (create_new_order_returns _ _ _ _ _ _ _))
      as (? & ? & ? & _ & Hok & _).
    exact Hok.
  - unfold UserBot.user_confirming_order.
    rewrite decide_False by done. unfold_M. world_fields.
    rewrite (decide_False (P := lower (text m) = lit "да")) by done.
    by destruct (decide (lower (text m) = lit "нет")).
Qed.

Lemma user_bot_dispatch_ready ADMIN_IDS strptime m w :
  draft_ready (session w) →
  draft_ready (session (UserBot.dispatch ADMIN_IDS strptime m w).2).
Proof.
  intros Hready. unfold UserBot.dispatch.
  apply (dispatch_with_cases (λ r, draft_ready (session r.2))); [done|].
  intros accepts handler Hin Haccepts. unfold UserBot.router in Hin.
  repeat (apply elem_of_cons in Hin as [[= -> ->]|Hin]);
    try (apply in_state_true in Haccepts).
  - exact (stays_or_clears_ready _ _ (user_bot_handle_start ADMIN_IDS m w) Hready).
  - exact (stays_or_clears_ready _ _ (user_bot_handle_cancel ADMIN_IDS m w) Hready).
  - exact (goes_to_ChoosingCake_ready _ _ (user_bot_user_make_order ADMIN_IDS m w) Hready).
  - pose proof (user_bot_user_check_status ADMIN_IDS strptime m w) as Hs.
    unfold on_session in Hs. by rewrite <- Hs.
  - exact (user_bot_user_choosing_cake ADMIN_IDS m w Hready).
  - exact (user_bot_user_choosing_taste ADMIN_IDS m w Haccepts Hready).
  - exact (user_bot_user_choosing_size ADMIN_IDS m w Haccepts Hready).
  - exact (proj1 (user_bot_user_choosing_decor ADMIN_IDS m w Haccepts Hready)).
  - exact (stays_or_clears_ready _ _ (user_bot_user_confirming_order ADMIN_IDS m w) Hready).
  - pose proof (user_bot_admin_view_orders_menu ADMIN_IDS strptime m w) as Hs.
    unfold on_session in Hs. by rewrite <- Hs.
  - exact (goes_to_UpdatingOrderStatus_ready _ _
             (user_bot_admin_update_status_menu ADMIN_IDS m w) Hready).
  - exact (stays_or_clears_ready _ _
             (user_bot_admin_process_update_status ADMIN_IDS m w) Hready).
  - by apply elem_of_nil in Hin.
Qed.

Lemma run_snoc handle messages m w :
  run handle (messages ++ [m]) w = (handle m (run handle messages w)).2.
Proof. unfold run. by rewrite foldl_app. Qed.

(** X8. In user_bot.py a session never waits for an answer it cannot use.
    Whatever messages arrive, from whomever and in whatever order, starting
    from an idle session: when the session is in [ChoosingTaste] or later the
    draft holds a cake of the catalog (an entry with a name), in
    [ChoosingSize] or later a taste, in [ChoosingDecor] or later a size that
    passed [str.isdigit], and in [Confirming] a decor as well. So the reads
    [data['chosen_cake']], [data['taste']], [data['size']] of
    [user_choosing_decor] and [user_confirming_order] never raise [KeyError]:
    in these two states the handler returns for every message. Each single
    message keeps this property of the session, from whatever world it is
    handled in, so changes of the sheets between two messages do not break
    it. *)
Theorem user_bot_draft_is_complete (ADMIN_IDS : list Z) (strptime : pystr → option Z)
    (messages : list Message) (w : World) :
  state w = None →
  let w' := run (UserBot.dispatch ADMIN_IDS strptime) messages w in
  (∀ m w0, draft_ready (session w0) →
           draft_ready (session (UserBot.dispatch ADMIN_IDS strptime m w0).2))
  ∧ draft_ready (session w')
  ∧ (state w' = Some Confirming →
     ∃ cake taste' size' decor',
       data w' = mkData (Some cake) (Some taste') (Some size') (Some decor')
       ∧ is_Some (cake !! lit "name") ∧ isdigit size' = true)
  ∧ ∀ m, (state w' = Some ChoosingDecor →
            (UserBot.user_choosing_decor ADMIN_IDS m w').1 = Ok ())
         ∧ (state w' = Some Confirming →
            (UserBot.user_confirming_order ADMIN_IDS m w').1 = Ok ()).
Proof.
  intros Hidle w'.
  assert (draft_ready (session w')) as Hready.
  { subst w'. induction messages as [|m messages IH] using rev_ind.
    - unfold draft_ready, session. simpl. by rewrite Hidle.
    - rewrite run_snoc. by apply user_bot_dispatch_ready. }
  split; [intros m w0; apply user_bot_dispatch_ready|].
  split; [done|]. split.
  - intros Hstate. unfold draft_ready in Hready. cbn [session fst snd] in Hready.
    rewrite Hstate in Hready.
    destruct Hready as ((cake & Hcake & Hname) & [taste' Htaste] & (size' & Hsize & Hdigit)
                        & [decor' Hdecor]).
    exists cake, taste', size', decor'. split; [|done].
    destruct (data w'); simpl in *; by subst.
  - intros m. split; intros Hstate.
    + by apply user_bot_user_choosing_decor.
    + by apply user_bot_user_confirming_order_returns.
Qed.

Lemma user_bot_draft_is_complete_witness :
  let w' := run (UserBot.dispatch [7] strptime_padded)
              [example_message (lit "Сделать заказ"); example_message (lit "chocolate");
               example_message (lit "dark"); example_message (lit "8");
               example_message (lit "none")] example_world in
  (∀ m w0, draft_ready (session w0) →
           draft_ready (session (UserBot.dispatch [7] strptime_padded m w0).2))
  ∧ draft_ready (session w')
  ∧ (state w' = Some Confirming →
     ∃ cake taste' size' decor',
       data w' = mkData (Some cake) (Some taste') (Some size') (Some decor')
       ∧ is_Some (cake !! lit "name") ∧ isdigit size' = true)
  ∧ ∀ m, (state w' = Some ChoosingDecor →
            (UserBot.user_choosing_decor [7] m w').1 = Ok ())
         ∧ (state w' = Some Confirming →
            (UserBot.user_confirming_order [7] m w').1 = Ok ()).
Proof.
  apply (user_bot_draft_is_complete [7] strptime_padded _ example_world). reflexivity.
Defined.

Example user_bot_dialogue_reaches_confirming :
  state (run (UserBot.dispatch [7] strptime_padded)
           [example_message (lit "Сделать заказ"); example_message (lit "chocolate");
            example_message (lit "dark"); example_message (lit "8");
            example_message (lit "none")] example_world)
  = Some Confirming.
Proof. by vm_compute. Qed.

(** ** The dialogue of combined_bot.py *)

Lemma combined_cmd_start ADMIN_IDS m :
  steps_by (on_session stays_or_clears) (CombinedBot.cmd_start ADMIN_IDS m).
Proof. unfold CombinedBot.cmd_start. solve_steps. Qed.

Lemma combined_cmd_menu ADMIN_IDS m :
  steps_by (on_session (stays_or_goes_to ChoosingCake)) (CombinedBot.cmd_menu ADMIN_IDS m).
Proof. unfold CombinedBot.cmd_menu. solve_steps. Qed.

Lemma combined_cmd_status ADMIN_IDS strptime m :
  steps_by (on_session eq) (CombinedBot.cmd_status ADMIN_IDS strptime m).
Proof. unfold CombinedBot.cmd_status. solve_steps. Qed.

Lemma combined_admin_cmd_help ADMIN_IDS m :
  steps_by (on_session stays_or_clears) (CombinedBot.admin_cmd_help ADMIN_IDS m).
Proof. unfold CombinedBot.admin_cmd_help. solve_steps. Qed.

Lemma combined_admin_cmd_view_orders ADMIN_IDS strptime m :
  steps_by (on_session eq) (CombinedBot.admin_cmd_view_orders ADMIN_IDS strptime m).
Proof. unfold CombinedBot.admin_cmd_view_orders. solve_steps. Qed.

Lemma combined_admin_cmd_update_status ADMIN_IDS m :
  steps_by (on_session (stays_or_goes_to UpdatingOrderStatus))
    (CombinedBot.admin_cmd_update_status ADMIN_IDS m).
Proof. unfold CombinedBot.admin_cmd_update_status. solve_steps. Qed.

Lemma combined_process_update_status ADMIN_IDS m :
  steps_by (on_session stays_or_clears) (CombinedBot.process_update_status ADMIN_IDS m).
Proof. unfold CombinedBot.process_update_status. solve_steps. Qed.

Lemma combined_process_confirming ADMIN_IDS m :
  steps_by (on_session stays_or_clears) (CombinedBot.process_confirming ADMIN_IDS m).
Proof. unfold CombinedBot.process_confirming. solve_steps. Qed.

Lemma combined_process_choosing_cake ADMIN_IDS m w :
  keeps_draft_ready (session w) (session (CombinedBot.process_choosing_cake ADMIN_IDS m w).2).
Proof.
  unfold CombinedBot.process_choosing_cake, CombinedBot.get_catalog_of_cakes. unfold_M.
  destruct (CombinedBot.is_admin _ _); world_fields;
    (destruct (CombinedBot.find_cake _ _) as [[cake|]|e] eqn:Hfind; world_fields;
     [destruct (decide (cake = ∅)); world_fields|..]; try (by intros H);
     apply find_cake_Some in Hfind as [_ (name & Hname & _)];
     unfold getitem; rewrite Hname; world_fields;
     intros _; exists cake; split; [done|by rewrite Hname]).
Qed.

Lemma combined_process_choosing_taste ADMIN_IDS m w :
  state w = Some ChoosingTaste →
  keeps_draft_ready (session w) (session (CombinedBot.process_choosing_taste ADMIN_IDS m w).2).
Proof.
  intros Hstate. unfold CombinedBot.process_choosing_taste. unfold_M.
  unfold keeps_draft_ready, draft_ready.
  destruct (CombinedBot.is_admin _ _); world_fields; rewrite Hstate;
    (intros (cake & Hcake & Hname); split; [by exists cake|done]).
Qed.

Lemma combined_process_choosing_size ADMIN_IDS m w :
  state w = Some ChoosingSize →
  keeps_draft_ready (session w) (session (CombinedBot.process_choosing_size ADMIN_IDS m w).2).
Proof.
  intros Hstate. unfold CombinedBot.process_choosing_size. unfold_M.
  unfold keeps_draft_ready, draft_ready.
  destruct (CombinedBot.is_admin _ _); world_fields;
    (destruct (isdigit (strip (text m))) eqn:Hdigit; cbn [negb]; world_fields;
     [|by intros H];
     rewrite Hstate; intros [(cake & Hcake & Hname) Htaste];
     split; [by exists cake|]; split; [done|]; by exists (strip (text m))).
Qed.

Lemma combined_process_choosing_decor ADMIN_IDS m w :
  state w = Some ChoosingDecor →
  draft_ready (session w) →
  draft_ready (session (CombinedBot.process_choosing_decor ADMIN_IDS m w).2)
  ∧ (CombinedBot.process_choosing_decor ADMIN_IDS m w).1 = Ok ().
Proof.
  intros Hstate Hready. unfold CombinedBot.process_choosing_decor.
  unfold draft_ready in Hready. cbn [session fst snd] in Hready. rewrite Hstate in Hready.
  destruct Hready as ((cake & Hcake & [name Hname]) & [taste' Htaste] & (size' & Hsize & Hdigit)).
  unfold_M. unfold draft_ready.
  destruct (CombinedBot.is_admin _ _); world_fields;
    rewrite Hcake, Htaste, Hsize; world_fields; unfold getitem; rewrite Hname; world_fields;
    (split; [|done]);
    (split; [exists cake; by rewrite Hname|]; split; [done|]; split; [by exists size'|done]).
Qed.

Lemma combined_process_confirming_returns ADMIN_IDS m w :
  state w = Some Confirming →
  draft_ready (session w) →
  (CombinedBot.process_confirming ADMIN_IDS m w).1 = Ok ().
Proof.
  intros Hstate Hready.
  unfold draft_ready in Hready. cbn [session fst snd] in Hready. rewrite Hstate in Hready.
  destruct Hready as ((cake & Hcake & _) & [taste' Htaste] & (size' & Hsize & _)
                      & [decor' Hdecor]).
  destruct (decide (lower (strip (text m)) = lit "да")) as [Hyes|Hyes].
  - rewrite (process_confirming_yes ADMIN_IDS m w cake taste' size' decor') by
      (try done; destruct (data w); simpl in *; by subst).
    destruct (submitted_then_quiet ADMIN_IDS
                (CombinedBot.create_new_order (from_user_id m) (username_or_full_name m)
                   cake taste' size' decor')
                (username_or_full_name m) (from_user_id m) (data w)
                (add_events (admin_notice (CombinedBot.is_admin ADMIN_IDS (from_user_id m))
                               Admin_cannot_use) w)
                (create_new_order_returns _ _ _ _ _ _ _))
      as (? & ? & ? & _ & Hok & _).
    exact Hok.
  - unfold CombinedBot.process_confirming. unfold_M.
    destruct (CombinedBot.is_admin _ _); world_fields;
      rewrite (decide_False (P := lower (strip (text m)) = lit "да")) by done;
      by destruct (decide (lower (strip (text m)) = lit "нет")).
Qed.

Lemma combined_dispatch_ready ADMIN_IDS strptime m w :
  draft_ready (session w) →
  draft_ready (session (CombinedRouter.dispatch ADMIN_IDS strptime m w).2).
Proof.
  intros Hready. unfold CombinedRouter.dispatch.
  apply (dispatch_with_cases (λ r, draft_ready (session r.2))); [done|].
  intros accepts handler Hin Haccepts. unfold CombinedRouter.router in Hin.
  repeat (apply elem_of_cons in Hin as [[= -> ->]|Hin]);
    try (apply in_state_true in Haccepts).
  - exact (stays_or_clears_ready _ _ (combined_cmd_start ADMIN_IDS m w) Hready).
  - exact (goes_to_ChoosingCake_ready _ _ (combined_cmd_menu ADMIN_IDS m w) Hready).
  - exact (combined_process_choosing_cake ADMIN_IDS m w Hready).
  - exact (combined_process_choosing_taste ADMIN_IDS m w Haccepts Hready).
  - exact (combined_process_choosing_size ADMIN_IDS m w Haccepts Hready).
  - exact (proj1 (combined_process_choosing_decor ADMIN_IDS m w Haccepts Hready)).
  - exact (stays_or_clears_ready _ _ (combined_process_confirming ADMIN_IDS m w) Hready).
  - pose proof (combined_cmd_status ADMIN_IDS strptime m w) as Hs.
    unfold on_session in Hs. by rewrite <- Hs.
  - exact (stays_or_clears_ready _ _ (combined_admin_cmd_help ADMIN_IDS m w) Hready).
  - pose proof (combined_admin_cmd_view_orders ADMIN_IDS strptime m w) as Hs.
    unfold on_session in Hs. by rewrite <- Hs.
  - exact (goes_to_UpdatingOrderStatus_ready _ _
             (combined_admin_cmd_update_status ADMIN_IDS m w) Hready).
  - exact (stays_or_clears_ready _ _ (combined_process_update_status ADMIN_IDS m w) Hready).
  - by apply elem_of_nil in Hin.
Qed.

(** X9. In combined_bot.py a session never waits for an answer it cannot
    use. Whatever messages arrive, from whomever and in whatever order,
    starting from an idle session: in [ChoosingTaste] or later the draft
    holds a cake of the catalog (an entry with a name), in [ChoosingSize] or
    later a taste, in [ChoosingDecor] or later a size that passed
    [str.isdigit], and in [Confirming] a decor as well. So
    [process_choosing_decor]
    and [process_confirming] never raise [KeyError] on the draft: in these
    two states the handler returns for every message. Each single message
    keeps this property of the session, from whatever world it is handled
    in, so changes of the sheets between two messages do not break it. *)
Theorem combined_bot_draft_is_complete (ADMIN_IDS : list Z) (strptime : pystr → option Z)
    (messages : list Message) (w : World) :
  state w = None →
  let w' := run (CombinedRouter.dispatch ADMIN_IDS strptime) messages w in
  (∀ m w0, draft_ready (session w0) →
           draft_ready (session (CombinedRouter.dispatch ADMIN_IDS strptime m w0).2))
  ∧ draft_ready (session w')
  ∧ (state w' = Some Confirming →
     ∃ cake taste' size' decor',
       data w' = mkData (Some cake) (Some taste') (Some size') (Some decor')
       ∧ is_Some (cake !! lit "name") ∧ isdigit size' = true)
  ∧ ∀ m, (state w' = Some ChoosingDecor →
            (CombinedBot.process_choosing_decor ADMIN_IDS m w').1 = Ok ())
         ∧ (state w' = Some Confirming →
            (CombinedBot.process_confirming ADMIN_IDS m w').1 = Ok ()).
Proof.
  intros Hidle w'.
  assert (draft_ready (session w')) as Hready.
  { subst w'. induction messages as [|m messages IH] using rev_ind.
    - unfold draft_ready, session. simpl. by rewrite Hidle.
    - rewrite run_snoc. by apply combined_dispatch_ready. }
  split; [intros m w0; apply combined_dispatch_ready|].
  split; [done|]. split.
  - intros Hstate. unfold draft_ready in Hready. cbn [session fst snd] in Hready.
    rewrite Hstate in Hready.
    destruct Hready as ((cake & Hcake & Hname) & [taste' Htaste] & (size' & Hsize & Hdigit)
                        & [decor' Hdecor]).
    exists cake, taste', size', decor'. split; [|done].
    destruct (data w'); simpl in *; by subst.
  - intros m. split; intros Hstate.
    + by apply combined_process_choosing_decor.
    + by apply combined_process_confirming_returns.
Qed.

Lemma combined_bot_draft_is_complete_witness :
  let w' := run (CombinedRouter.dispatch [7] strptime_padded)
              [example_message (lit "/menu"); example_message (lit "chocolate");
               example_message (lit "dark"); example_message (lit "8");
               example_message (lit "none")] example_world in
  (∀ m w0, draft_ready (session w0) →
           draft_ready (session (CombinedRouter.dispatch [7] strptime_padded m w0).2))
  ∧ draft_ready (session w')
  ∧ (state w' = Some Confirming →
     ∃ cake taste' size' decor',
       data w' = mkData (Some cake) (Some taste') (Some size') (Some decor')
       ∧ is_Some (cake !! lit "name") ∧ isdigit size' = true)
  ∧ ∀ m, (state w' = Some ChoosingDecor →
            (CombinedBot.process_choosing_decor [7] m w').1 = Ok ())
         ∧ (state w' = Some Confirming →
            (CombinedBot.process_confirming [7] m w').1 = Ok ()).
Proof.
  apply (combined_bot_draft_is_complete [7] strptime_padded _ example_world). reflexivity.
Defined.

Example combined_bot_dialogue_reaches_confirming :
  state (run (CombinedRouter.dispatch [7] strptime_padded)
           [example_message (lit "/menu"); example_message (lit "chocolate");
            example_message (lit "dark"); example_message (lit "8");
            example_message (lit "none")] example_world)
  = Some Confirming.
Proof. by vm_compute. Qed.

(** ** Where the ledger is written *)

Lemma quiet_writes {A} (m : M A) w :
  quiet m →
  orders (m w).2 = orders w
  ∧ filter (λ e, is_ledger_write e = true) (trace (m w).2)
    = filter (λ e, is_ledger_write e = true) (trace w).
Proof.
  intros Hq. destruct (Hq w) as (evs & Ho & _ & _ & Ht & Hall). split; [done|].
  rewrite Ht, filter_app.
  assert (filter (λ e, is_ledger_write e = true) evs = []) as ->; [|by rewrite app_nil_r].
  clear -Hall. induction Hall as [|e evs He _ IH]; [done|].
  rewrite filter_cons_False; [done|]. by rewrite He.
Qed.

Lemma quiet_send_pages block shown page_size :
  quiet (CombinedBot.send_pages block shown page_size).
Proof. unfold CombinedBot.send_pages. solve_quiet. Qed.

Lemma quiet_get_all_orders_by_user user_id : quiet (CombinedBot.get_all_orders_by_user user_id).
Proof. unfold CombinedBot.get_all_orders_by_user. solve_quiet. Qed.

Lemma quiet_o3_get_all_orders_by_user user_id : quiet (O3.get_all_orders_by_user user_id).
Proof. unfold O3.get_all_orders_by_user. solve_quiet. Qed.

Lemma quiet_o3_show_cake cake : quiet (O3.show_cake cake).
Proof. unfold O3.show_cake. solve_quiet. Qed.

#[export] Hint Resolve quiet_send_pages quiet_get_all_orders_by_user
  quiet_o3_get_all_orders_by_user quiet_o3_show_cake quiet_show_cake : quiet.

Lemma quiet_user_bot_handle_cancel ADMIN_IDS m : quiet (UserBot.handle_cancel ADMIN_IDS m).
Proof. unfold UserBot.handle_cancel. solve_quiet. Qed.

Lemma quiet_o3_handle_cancel ADMIN_IDS m : quiet (O3.handle_cancel ADMIN_IDS m).
Proof. unfold O3.handle_cancel. solve_quiet. Qed.

#[export] Hint Resolve quiet_user_bot_handle_cancel quiet_o3_handle_cancel : quiet.

Lemma in_state_false s m st : st ≠ Some s → in_state s m st = false.
Proof. intros H. unfold in_state. by apply bool_decide_eq_false. Qed.

(** X10. The ledger is written from two states only. A message that
    arrives while the session is neither in [Confirming] nor in
    [UpdatingOrderStatus] leaves the orders sheet as it is, in each of the
    three bots and whoever sends it: no row is appended and no cell is
    updated, whatever handler the router picks. *)
Theorem ledger_is_written_from_two_states (ADMIN_IDS : list Z)
    (strptime : pystr → option Z) (m : Message) (w : World) :
  state w ≠ Some Confirming → state w ≠ Some UpdatingOrderStatus →
  let untouched (r : res () * World) :=
    orders r.2 = orders w
    ∧ filter (λ e, is_ledger_write e = true) (trace r.2)
      = filter (λ e, is_ledger_write e = true) (trace w) in
  untouched (CombinedRouter.dispatch ADMIN_IDS strptime m w)
  ∧ untouched (UserBot.dispatch ADMIN_IDS strptime m w)
  ∧ untouched (O3.dispatch ADMIN_IDS strptime m w).
Proof.
  intros Hconfirming Hupdating untouched.
  assert (∀ handlers,
    (∀ accepts handler, (accepts, handler) ∈ handlers → accepts m (state w) = true →
                        quiet (handler m)) →
    untouched (dispatch_with handlers m w)) as Hdispatch.
  { intros handlers Hquiet. apply (dispatch_with_cases untouched); [done|].
    intros accepts handler Hin Haccepts. apply quiet_writes. by eapply Hquiet. }
  split; [|split]; apply Hdispatch; intros accepts handler Hin Haccepts.
  - unfold CombinedRouter.router in Hin.
    repeat (apply elem_of_cons in Hin as [[= -> ->]|Hin]);
      try (by rewrite in_state_false in Haccepts);
      try (by apply elem_of_nil in Hin).
    + unfold CombinedBot.cmd_start. solve_quiet.
    + unfold CombinedBot.cmd_menu. solve_quiet.
    + unfold CombinedBot.process_choosing_cake. solve_quiet.
    + unfold CombinedBot.process_choosing_taste. solve_quiet.
    + unfold CombinedBot.process_choosing_size. solve_quiet.
    + unfold CombinedBot.process_choosing_decor. solve_quiet.
    + unfold CombinedBot.cmd_status. solve_quiet.
    + unfold CombinedBot.admin_cmd_help. solve_quiet.
    + unfold CombinedBot.admin_cmd_view_orders. solve_quiet.
    + unfold CombinedBot.admin_cmd_update_status. solve_quiet.
  - unfold UserBot.router in Hin.
    repeat (apply elem_of_cons in Hin as [[= -> ->]|Hin]);
      try (by rewrite in_state_false in Haccepts);
      try (by apply elem_of_nil in Hin).
    + unfold UserBot.handle_start. solve_quiet.
    + solve_quiet.
    + unfold UserBot.user_make_order, UserBot.get_catalog_of_cakes. solve_quiet.
    + unfold UserBot.user_check_status, UserBot.get_all_orders_by_user. solve_quiet.
    + unfold UserBot.user_choosing_cake, UserBot.get_catalog_of_cakes. solve_quiet.
    + unfold UserBot.user_choosing_taste. solve_quiet.
    + unfold UserBot.user_choosing_size. solve_quiet.
    + unfold UserBot.user_choosing_decor. solve_quiet.
    + unfold UserBot.admin_view_orders_menu, UserBot.get_all_orders. solve_quiet.
    + unfold UserBot.admin_update_status_menu. solve_quiet.
  - unfold O3.router in Hin.
    repeat (apply elem_of_cons in Hin as [[= -> ->]|Hin]);
      try (by rewrite in_state_false in Haccepts);
      try (by apply elem_of_nil in Hin).
    + unfold O3.handle_start. solve_quiet.
    + unfold O3.handle_cancel_command. solve_quiet.
    + unfold O3.user_make_order, O3.get_catalog_of_cakes. solve_quiet.
    + unfold O3.user_check_status. solve_quiet.
    + unfold O3.user_choosing_cake, O3.get_catalog_of_cakes. solve_quiet.
    + unfold O3.user_choosing_taste. solve_quiet.
    + unfold O3.user_choosing_size. solve_quiet.
    + unfold O3.user_choosing_decor. solve_quiet.
    + unfold O3.admin_view_orders_menu, O3.get_all_orders. solve_quiet.
    + unfold O3.admin_update_status_menu. solve_quiet.
Qed.

Lemma ledger_is_written_from_two_states_witness :
  let m := example_message (lit "Сделать заказ") in
  let untouched (r : res () * World) :=
    orders r.2 = orders example_choosing_size
    ∧ filter (λ e, is_ledger_write e = true) (trace r.2)
      = filter (λ e, is_ledger_write e = true) (trace example_choosing_size) in
  untouched (CombinedRouter.dispatch [7] strptime_padded m example_choosing_size)
  ∧ untouched (UserBot.dispatch [7] strptime_padded m example_choosing_size)
  ∧ untouched (O3.dispatch [7] strptime_padded m example_choosing_size).
Proof.
  apply (ledger_is_written_from_two_states [7] strptime_padded
           (example_message (lit "Сделать заказ")) example_choosing_size); done.
Defined.

(** ** Routing *)

(** X11. [/start] resets the session from every state. In each of the
    three bots a message whose first word is the command [/start] is handled
    by the start handler, whatever the state and the draft: the session is
    emptied, the sender is greeted according to the allow-list, and no sheet
    is read or written. *)
Theorem start_resets_the_session (ADMIN_IDS : list Z) (strptime : pystr → option Z)
    (m : Message) (w : World) :
  is_command "start" (text m) = true →
  let hello := if bool_decide (from_user_id m ∈ ADMIN_IDS) then Hello_admin else Hello_user in
  let fresh := mkWorld (orders w) (cakes w) None no_data (clock w)
                 (trace w ++ [Answer hello []]) in
  CombinedRouter.dispatch ADMIN_IDS strptime m w = (Ok (), fresh)
  ∧ UserBot.dispatch ADMIN_IDS strptime m w = (Ok (), fresh)
  ∧ O3.dispatch ADMIN_IDS strptime m w = (Ok (), fresh).
Proof.
  intros Hstart hello fresh. subst hello fresh.
  unfold CombinedRouter.dispatch, UserBot.dispatch, O3.dispatch, dispatch_with,
    CombinedRouter.router, UserBot.router, O3.router, route, command.
  rewrite Hstart.
  unfold CombinedBot.cmd_start, UserBot.handle_start, O3.handle_start,
    CombinedBot.is_admin, UserBot.is_admin, O3.is_admin.
  unfold_M. by destruct (bool_decide _).
Qed.

Lemma start_resets_the_session_witness :
  let m := example_message (lit "/start") in
  let fresh := mkWorld (orders example_confirming) (cakes example_confirming) None no_data
                 (clock example_confirming)
                 (trace example_confirming ++ [Answer Hello_user []]) in
  CombinedRouter.dispatch [7] strptime_padded m example_confirming = (Ok (), fresh)
  ∧ UserBot.dispatch [7] strptime_padded m example_confirming = (Ok (), fresh)
  ∧ O3.dispatch [7] strptime_padded m example_confirming = (Ok (), fresh).
Proof.
  apply (start_resets_the_session [7] strptime_padded (example_message (lit "/start"))
           example_confirming).
  by vm_compute.
Defined.

(** X12. In combined_bot.py a dialogue swallows the commands. The state
    handlers are registered before [/status], [/help], [/view_orders] and
    [/update_status], so while the session is in one of the five order states
    every message other than [/start] and [/menu] goes to the handler of the
    state, these commands included. In [ChoosingTaste], where every text is
    accepted, such a command is stored as the taste and the dialogue moves on
    to [ChoosingSize]. *)
Theorem combined_bot_dialogue_swallows_commands (ADMIN_IDS : list Z)
    (strptime : pystr → option Z) (m : Message) (w : World) :
  is_command "start" (text m) = false →
  is_command "menu" (text m) = false →
  let r := CombinedRouter.dispatch ADMIN_IDS strptime m w in
  match state w with
  | Some ChoosingCake => r = CombinedBot.process_choosing_cake ADMIN_IDS m w
  | Some ChoosingTaste =>
      r = CombinedBot.process_choosing_taste ADMIN_IDS m w
      ∧ state r.2 = Some ChoosingSize
      ∧ data r.2 = mkData (chosen_cake (data w)) (Some (strip (text m))) (size (data w))
                     (decor (data w))
      ∧ orders r.2 = orders w
  | Some ChoosingSize => r = CombinedBot.process_choosing_size ADMIN_IDS m w
  | Some ChoosingDecor => r = CombinedBot.process_choosing_decor ADMIN_IDS m w
  | Some Confirming => r = CombinedBot.process_confirming ADMIN_IDS m w
  | _ => True
  end.
Proof.
  intros Hstart Hmenu r. subst r.
  unfold CombinedRouter.dispatch, dispatch_with, CombinedRouter.router, route, command,
    in_state.
  rewrite Hstart, Hmenu.
  destruct (state w) as [[]|] eqn:Hstate; try reflexivity; try exact I.
  rewrite (bool_decide_eq_false_2 (Some ChoosingTaste = Some ChoosingCake)) by done.
  rewrite (bool_decide_eq_true_2 (Some ChoosingTaste = Some ChoosingTaste)) by done.
  split; [done|]. unfold CombinedBot.process_choosing_taste. unfold_M.
  by destruct (CombinedBot.is_admin _ _).
Qed.

Lemma combined_bot_dialogue_swallows_commands_witness :
  let w := mkWorld [example_header] example_catalog (Some ChoosingTaste)
             (mkData (Some example_cake) None None None) [] [] in
  let m := example_message (lit "/status") in
  let r := CombinedRouter.dispatch [7] strptime_padded m w in
  r = CombinedBot.process_choosing_taste [7] m w
  ∧ state r.2 = Some ChoosingSize
  ∧ data r.2 = mkData (chosen_cake (data w)) (Some (strip (text m))) (size (data w))
                 (decor (data w))
  ∧ orders r.2 = orders w.
Proof.
  apply (combined_bot_dialogue_swallows_commands [7] strptime_padded
           (example_message (lit "/status"))
           (mkWorld [example_header] example_catalog (Some ChoosingTaste)
              (mkData (Some example_cake) None None None) [] []));
    by vm_compute.
Defined.

(** ** The button presses of o3.py *)

Lemma split_colon_cons_piece s : ∃ piece pieces, split_colon s = piece :: pieces.
Proof.
  induction s as [|c s (piece & pieces & IH)]; simpl; [by eauto|].
  destruct (c =? 58)%N; [by eauto|]. rewrite IH. by eauto.
Qed.

Lemma split_colon_app_no_colon s rest :
  58%N ∉ s → ∃ piece pieces,
    split_colon rest = piece :: pieces
    ∧ split_colon (s ++ 58%N :: rest) = s :: piece :: pieces.
Proof.
  intros Hs. destruct (split_colon_cons_piece rest) as (piece & pieces & Hrest).
  exists piece, pieces. split; [done|].
  induction s as [|c s IH]; simpl.
  - by rewrite Hrest.
  - apply not_elem_of_cons in Hs as [Hc Hs]. rewrite IH by done.
    destruct (N.eqb_spec c 58) as [->|_]; done.
Qed.

Lemma get_all_orders_by_user_o3_eq user_id w :
  O3.get_all_orders_by_user user_id w
  = (Ok (filter (λ o, strip (str (get_or o (lit "user_id") (VStr []))) = str (VInt user_id))
           (Worksheet.get_all_records (orders w))),
     add_events [Fetched ORDERS_SHEET_NAME] w).
Proof. reflexivity. Qed.

Lemma orders_pagination_callback_page strptime sender data page w :
  (piece ← second_item (split_colon data); int_of_str piece) = Ok page →
  let mine :=
    filter (λ o, strip (str (get_or o (lit "user_id") (VStr [])))
                 = str (VInt (from_user_id sender)))
      (Worksheet.get_all_records (orders w)) in
  mine ≠ [] →
  ∃ text markup,
    O3.get_orders_page_text_and_markup (O3.sort_orders strptime mine) page 1
    = Ok (text, markup)
    ∧ O3.orders_pagination_callback strptime (mkCallbackQuery sender data) w
      = (Ok (), add_events [Fetched ORDERS_SHEET_NAME; Edit_text text markup;
                            Callback_answer None] w).
Proof.
  intros Hpage mine Hmine. unfold O3.orders_pagination_callback.
  cbn [callback_data callback_from_user]. rewrite Hpage.
  unfold mbind at 1, M_bind at 1. rewrite get_all_orders_by_user_o3_eq. fold mine.
  rewrite decide_False by done.
  destruct (markup_of_page (O3.sort_orders strptime mine) page 1 ltac:(lia))
    as (text & Hrender).
  rewrite Hrender. eexists _, _. split; [done|].
  unfold_M. unfold add_events. simpl. by rewrite <- !app_assoc.
Qed.

(** X13. A press of a page button shows the page the button names. For
    every button that [get_orders_page_text_and_markup] puts under a page of
    a customer's orders, [orders_pagination_callback] on the button's data
    reads the ledger again and replaces the message by the page before (for
    the back button) or after (for the forward button) the page the button
    stood on, rendered from the customer's orders as they are now, and
    answers the press. *)
Theorem page_button_shows_its_page (strptime : pystr → option Z) (sender : Message)
    (w : World) (shown : list dict) (page : Z) (text : text_out) (markup : list button)
    (b : button) :
  O3.get_orders_page_text_and_markup shown page 1 = Ok (text, markup) →
  b ∈ markup →
  let mine :=
    filter (λ o, strip (str (get_or o (lit "user_id") (VStr [])))
                 = str (VInt (from_user_id sender)))
      (Worksheet.get_all_records (orders w)) in
  mine ≠ [] →
  ∃ page' text' markup',
    (button_label b = BACK ∧ page' = page - 1 ∨ button_label b = FORWARD ∧ page' = page + 1)
    ∧ O3.get_orders_page_text_and_markup (O3.sort_orders strptime mine) page' 1
      = Ok (text', markup')
    ∧ O3.orders_pagination_callback strptime (mkCallbackQuery sender (button_data b)) w
      = (Ok (), add_events [Fetched ORDERS_SHEET_NAME; Edit_text text' markup';
                            Callback_answer None] w).
Proof.
  intros Hrender Hb mine Hmine.
  destruct (markup_of_page shown page 1 ltac:(lia)) as (text0 & Hmarkup).
  rewrite Hmarkup in Hrender. injection Hrender as _ <-.
  assert (∃ page', (button_label b = BACK ∧ page' = page - 1
                    ∨ button_label b = FORWARD ∧ page' = page + 1)
                   ∧ button_data b = lit "orders_page:" ++ str_of_int page')
    as (page' & Hlabel & Hdata).
  { apply elem_of_app in Hb as [Hb|Hb]; destruct (decide _); try (by apply elem_of_nil in Hb);
      apply list_elem_of_singleton in Hb as ->; eexists; (split; [|reflexivity]); auto. }
  destruct (orders_pagination_callback_page strptime sender (button_data b) page' w)
    as (text' & markup' & Hpage & Hcallback); [|done|].
  { rewrite Hdata. apply (requested_page_of_button []). }
  by exists page', text', markup'.
Qed.

Lemma page_button_shows_its_page_witness :
  let sender := example_message [] in
  let b := Button FORWARD (lit "orders_page:" ++ str_of_int 1) in
  ∃ page' text' markup',
    (button_label b = BACK ∧ page' = 0 - 1 ∨ button_label b = FORWARD ∧ page' = 0 + 1)
    ∧ O3.get_orders_page_text_and_markup
        (O3.sort_orders strptime_padded
           (filter (λ o, strip (str (get_or o (lit "user_id") (VStr [])))
                         = str (VInt (from_user_id sender)))
              (Worksheet.get_all_records (orders example_world)))) page' 1
      = Ok (text', markup')
    ∧ O3.orders_pagination_callback strptime_padded
        (mkCallbackQuery sender (button_data b)) example_world
      = (Ok (), add_events [Fetched ORDERS_SHEET_NAME; Edit_text text' markup';
                            Callback_answer None] example_world).
Proof.
  apply (page_button_shows_its_page strptime_padded (example_message []) example_world
           example_orders 0
           (Orders_page (O3.page_block <$> slice example_orders (0 * 1) (0 * 1 + 1)))
           [Button FORWARD (lit "orders_page:" ++ str_of_int 1)]).
  - reflexivity.
  - left.
  - intros Hnone. apply (f_equal length) in Hnone. vm_compute in Hnone. discriminate Hnone.
Defined.

(** X14. A page number that does not read as an integer is answered and
    nothing else happens. A press whose data starts with [orders_page:] goes
    to [orders_pagination_callback]; the data always has a second piece, and
    when that piece is no integer the press is answered with the notice of a
    wrong page number: no sheet is read, the message is not edited, the
    session is as before. *)
Theorem bad_page_number_is_answered (ADMIN_IDS : list Z) (strptime : pystr → option Z)
    (sender : Message) (rest : pystr) (w : World) :
  let c := mkCallbackQuery sender (lit "orders_page:" ++ rest) in
  (∀ piece pieces n, split_colon rest = piece :: pieces → int_of_str piece ≠ Ok n) →
  O3Callbacks.dispatch_callback ADMIN_IDS strptime c w
  = (Ok (), add_events [Callback_answer (Some Bad_page_number)] w).
Proof.
  intros c Hbad. subst c.
  unfold O3Callbacks.dispatch_callback, O3Callbacks.callback_router,
    O3Callbacks.route_callback, O3Callbacks.data_startswith.
  cbn [callback_data].
  assert (startswith (lit "orders_page:") (lit "orders_page:" ++ rest) = true) as Hstarts.
  { unfold startswith. apply bool_decide_eq_true_2. by rewrite take_app_length. }
  rewrite Hstarts.
  destruct (lit "orders_page:" ++ rest) as [|c0 s0] eqn:Hdata; [done|]. rewrite <- Hdata.
  unfold O3.orders_pagination_callback. cbn [callback_data].
  destruct (split_colon_app_no_colon (lit "orders_page") rest) as (piece & pieces & Hrest & Hsplit).
  { apply (bool_decide_unpack _). by vm_compute. }
  change (lit "orders_page:" ++ rest) with (lit "orders_page" ++ 58%N :: rest).
  rewrite Hsplit. cbn [second_item mbind res_bind].
  destruct (int_of_str piece) as [n|e] eqn:Hpiece; [by destruct (Hbad piece pieces n)|].
  rewrite (int_of_str_raises piece e Hpiece). reflexivity.
Qed.

Lemma bad_page_number_is_answered_witness :
  O3Callbacks.dispatch_callback [7] strptime_padded
    (mkCallbackQuery (example_message []) (lit "orders_page:" ++ lit "two")) example_world
  = (Ok (), add_events [Callback_answer (Some Bad_page_number)] example_world).
Proof.
  apply (bad_page_number_is_answered [7] strptime_padded (example_message []) (lit "two")
           example_world).
  intros piece pieces n [= <- <-]. by vm_compute.
Defined.

Lemma create_new_order_row_o3 user_id user_name cake taste size decor w :
  O3.create_new_order user_id user_name cake taste size decor w
  = match next_order_id (orders w), get_or cake (lit "name") (VStr []) with
    | Ok i, VStr name =>
        let row := new_row_o3 i user_id user_name cake name taste size decor (clock w) in
        (Ok (Some i),
         mkWorld (orders w ++ [str <$> row]) (cakes w) (state w) (data w) (clock w)
           (trace w ++ [Fetched ORDERS_SHEET_NAME; Appended row]))
    | _, _ => (Ok None, add_events [Fetched ORDERS_SHEET_NAME] w)
    end.
Proof.
  unfold O3.create_new_order, next_order_id, new_row_o3, add_events.
  unfold_M. unfold Worksheet.get_all_values, Worksheet.append_row, sheet_of. simpl.
  destruct (decide (length (orders w) < 2)%nat) as [Hlen|Hlen];
    [|destruct (last_item (orders w)) as [last_order|]; simpl; [|done];
      destruct (first_item last_order) as [cell|]; simpl; [|done];
      destruct (int_of_str cell) as [m|]; simpl; [|done]];
    (destruct (get_or cake (lit "name") (VStr [])) as [| |name]; simpl; try done;
     by rewrite <- app_assoc).
Qed.

Lemma o3_notify_admins_eq ADMIN_IDS order_id user_name user_id d current_date w :
  O3.notify_admins ADMIN_IDS order_id user_name user_id d current_date w
  = (Ok (),
     add_events
       ((λ admin_id,
           Send_message admin_id
             (New_order_notice order_id user_name user_id
                (get_or (default ∅ (chosen_cake d)) (lit "name") (VStr []))
                (default [] (taste d)) (default [] (size d)) (default [] (decor d))
                current_date)) <$> ADMIN_IDS) w).
Proof. unfold O3.notify_admins. by apply for_each_emits. Qed.

Lemma order_confirmation_callback_eq ADMIN_IDS sender answer_ w :
  58%N ∉ answer_ →
  O3.order_confirmation_callback ADMIN_IDS
    (mkCallbackQuery sender (lit "confirm_order:" ++ answer_)) w
  = (if decide (lower answer_ = lit "no") then
       edit_text Order_cancelled [] ;;
       state_clear ;;
       callback_answer None
     else
       d ← get_data;
       order_id ← O3.create_new_order (from_user_id sender) (username_or_full_name sender)
                    (default ∅ (chosen_cake d)) (default [] (taste d))
                    (default [] (size d)) (default [] (decor d));
       match order_id with
       | Some order_id =>
           edit_text (Order_accepted order_id) [] ;;
           current_date ← now_strftime;
           O3.notify_admins ADMIN_IDS order_id (username_or_full_name sender)
             (from_user_id sender) d current_date
       | None => edit_text Order_failed []
       end ;;
       state_clear ;;
       callback_answer None) w.
Proof.
  intros Hanswer. unfold O3.order_confirmation_callback.
  cbn [callback_data callback_from_user].
  destruct (split_colon_app_no_colon (lit "confirm_order") answer_)
    as (piece & pieces & Hrest & Hsplit).
  { apply (bool_decide_unpack _). by vm_compute. }
  rewrite split_colon_no_colon in Hrest by done. injection Hrest as <- <-.
  change (lit "confirm_order:" ++ answer_) with (lit "confirm_order" ++ 58%N :: answer_).
  by rewrite Hsplit.
Qed.

Lemma order_confirmation_callback_idle ADMIN_IDS sender answer_ w i :
  58%N ∉ answer_ → lower answer_ ≠ lit "no" → data w = no_data →
  next_order_id (orders w) = Ok i →
  let user_id := from_user_id sender in
  let user_name := username_or_full_name sender in
  let row := new_row_o3 i user_id user_name ∅ [] [] [] [] (clock w) in
  O3.order_confirmation_callback ADMIN_IDS
    (mkCallbackQuery sender (lit "confirm_order:" ++ answer_)) w
  = (Ok (),
     mkWorld (orders w ++ [str <$> row]) (cakes w) None no_data (clock w)
       (trace w
        ++ [Fetched ORDERS_SHEET_NAME; Appended row; Edit_text (Order_accepted i) []]
        ++ ((λ admin_id,
               Send_message admin_id
                 (New_order_notice i user_name user_id (VStr []) [] [] [] (clock w)))
              <$> ADMIN_IDS)
        ++ [Callback_answer None])).
Proof.
  intros Hanswer Hyes Hidle Hnext user_id user_name row.
  rewrite order_confirmation_callback_eq by done. rewrite decide_False by done.
  unfold mbind at 1, M_bind at 1, get_data at 1. rewrite Hidle.
  unfold no_data. cbn [chosen_cake taste size decor default].
  unfold mbind at 1, M_bind at 1. rewrite create_new_order_row_o3, Hnext.
  unfold get_or at 1. rewrite lookup_empty. cbn [default].
  cbv zeta. unfold mbind at 1, M_bind at 1. unfold mbind at 1, M_bind at 1.
  unfold edit_text at 1, emit at 1. unfold mbind at 1, M_bind at 1, now_strftime at 1.
  rewrite o3_notify_admins_eq.
  unfold_M. unfold add_events.
  cbn [fst snd orders cakes state data clock trace chosen_cake taste size decor default].
  unfold get_or. rewrite lookup_empty. cbn [default].
  subst row user_id user_name. f_equal. f_equal. by rewrite <- !app_assoc.
Qed.

(** X15. The confirmation buttons work in every state. A press whose data
    is [confirm_order:] followed by an answer goes to
    [order_confirmation_callback], which does not look at the state. With
    the answer [no], in any letter case, nothing is written to the ledger.
    With any other answer an order is created from whatever the draft holds,
    an absent field counting as the empty text: in an idle session, with no
    draft at all, the press still appends a row, with the next id and the
    sender, and with empty cake, price, taste, size and decor. *)
Theorem confirmation_button_has_no_state_check (ADMIN_IDS : list Z)
    (strptime : pystr → option Z) (sender : Message) (answer_ : pystr) (w : World) (i : Z) :
  58%N ∉ answer_ →
  next_order_id (orders w) = Ok i →
  let r := O3Callbacks.dispatch_callback ADMIN_IDS strptime
             (mkCallbackQuery sender (lit "confirm_order:" ++ answer_)) w in
  let writes (w' : World) := filter (λ e, is_ledger_write e = true) (trace w') in
  (lower answer_ = lit "no" → orders r.2 = orders w ∧ writes r.2 = writes w)
  ∧ (lower answer_ ≠ lit "no" → data w = no_data →
     let cells := [str_of_int i; str_of_int (from_user_id sender);
                   strip (username_or_full_name sender); []; []; []; []; [];
                   initial_status; clock w] in
     orders r.2 = orders w ++ [cells]
     ∧ writes r.2 = writes w ++ [Appended (VInt i :: (VStr <$> tail cells))]).
Proof.
  intros Hanswer Hnext r writes. subst r writes.
  unfold O3Callbacks.dispatch_callback, O3Callbacks.callback_router,
    O3Callbacks.route_callback, O3Callbacks.data_startswith.
  cbn [callback_data].
  assert (startswith (lit "orders_page:") (lit "confirm_order:" ++ answer_) = false) as Hpage
    by (by vm_compute).
  assert (startswith (lit "confirm_order:") (lit "confirm_order:" ++ answer_) = true) as Hstarts.
  { unfold startswith. apply bool_decide_eq_true_2. by rewrite take_app_length. }
  rewrite Hpage, Hstarts.
  destruct (lit "confirm_order:" ++ answer_) as [|c0 s0] eqn:Hdata; [done|]. rewrite <- Hdata.
  split.
  - intros Hno. rewrite order_confirmation_callback_eq by done.
    rewrite decide_True by done. unfold_M. cbn [fst snd orders trace].
    split; [done|]. by rewrite !filter_app, !app_nil_r.
  - intros Hyes Hidle.
    rewrite (order_confirmation_callback_idle ADMIN_IDS sender answer_ w i) by done.
    cbn [fst snd orders trace]. split; [done|].
    rewrite !filter_app. f_equal.
    assert (filter (λ e, is_ledger_write e = true)
              ((λ admin_id,
                  Send_message admin_id
                    (New_order_notice i (username_or_full_name sender) (from_user_id sender)
                       (VStr []) [] [] [] (clock w))) <$> ADMIN_IDS) = []) as ->.
    { induction ADMIN_IDS as [|a rest IH]; [done|].
      rewrite fmap_cons, filter_cons_False; [exact IH|done]. }
    reflexivity.
Qed.

Lemma confirmation_button_has_no_state_check_witness :
  let w := example_world in
  let sender := example_message [] in
  let r := O3Callbacks.dispatch_callback [7] strptime_padded
             (mkCallbackQuery sender (lit "confirm_order:" ++ lit "yes")) w in
  let writes (w' : World) := filter (λ e, is_ledger_write e = true) (trace w') in
  (lower (lit "yes") = lit "no" → orders r.2 = orders w ∧ writes r.2 = writes w)
  ∧ (lower (lit "yes") ≠ lit "no" → data w = no_data →
     let cells := [str_of_int 2; str_of_int (from_user_id sender);
                   strip (username_or_full_name sender); []; []; []; []; [];
                   initial_status; clock w] in
     orders r.2 = orders w ++ [cells]
     ∧ writes r.2 = writes w ++ [Appended (VInt 2 :: (VStr <$> tail cells))]).
Proof.
  apply (confirmation_button_has_no_state_check [7] strptime_padded (example_message [])
           (lit "yes") example_world 2).
  - apply (bool_decide_unpack _). by vm_compute.
  - by vm_compute.
Defined.

(** ** The operator allow-list *)

Lemma split_comma_no_comma s : 44%N ∉ s → split_comma s = [s].
Proof.
  induction s as [|c s IH]; simpl; [done|]. intros Hs.
  apply not_elem_of_cons in Hs as [Hc Hs]. rewrite IH by done.
  destruct (N.eqb_spec c 44) as [->|_]; done.
Qed.

Lemma split_comma_app s rest :
  44%N ∉ s → split_comma (s ++ 44%N :: rest) = s :: split_comma rest.
Proof.
  induction s as [|c s IH]; simpl; [done|]. intros Hs.
  apply not_elem_of_cons in Hs as [Hc Hs]. rewrite IH by done.
  destruct (N.eqb_spec c 44) as [->|_]; done.
Qed.

Lemma split_comma_join pieces :
  pieces ≠ [] → Forall (λ piece, 44%N ∉ piece) pieces →
  split_comma (join_comma pieces) = pieces.
Proof.
  induction pieces as [|piece pieces IH]; [done|]. intros _ Hall.
  apply Forall_cons in Hall as [Hpiece Hall].
  destruct pieces as [|piece' pieces]; simpl.
  - by apply split_comma_no_comma.
  - rewrite split_comma_app by done. f_equal. by apply IH.
Qed.

Lemma str_of_int_digits z : 0 ≤ z → isdigit (str_of_int z) = true.
Proof.
  destruct z as [|p|p]; [by vm_compute| |lia]. intros _. simpl.
  apply ascii_digits_isdigit.
  - destruct (uint_codes_head (Pos.to_uint p)) as (c & r & -> & _);
      [apply DecimalPos.Unsigned.to_uint_nonnil|done].
  - apply forallb_forall. intros d Hin. apply list_elem_of_In in Hin.
    by eapply uint_codes_digits.
Qed.

Lemma str_of_int_no_comma z : 44%N ∉ str_of_int z.
Proof.
  intros Hin. destruct z as [|p|p]; simpl in Hin.
  - by apply list_elem_of_singleton in Hin.
  - apply uint_codes_digits, is_digit_bounds in Hin. lia.
  - apply elem_of_cons in Hin as [?|Hin]; [done|].
    apply uint_codes_digits, is_digit_bounds in Hin. lia.
Qed.

Lemma filter_all {A} (P : A → Prop) `{∀ x, Decision (P x)} (l : list A) :
  Forall P l → filter P l = l.
Proof. induction 1; [done|]. rewrite filter_cons_True by done. by f_equal. Qed.

(** The entries the start-up code reads: those that pass [str.isdigit] once
    trimmed. *)
Lemma parse_digit_pieces pieces :
  match map_res (λ id_, int_of_str (strip id_))
          (filter (λ id_, isdigit (strip id_) = true) pieces) with
  | Ok ids => Forall (λ z, 0 ≤ z) ids ∧ (length ids ≤ length pieces)%nat
  | Raise e => e = ValueError
  end.
Proof.
  induction pieces as [|piece pieces IH]; [by split|].
  destruct (isdigit (strip piece)) eqn:Hdigit.
  - rewrite filter_cons_True by done. simpl. unfold mbind, res_bind, mret, res_ret.
    destruct (int_of_str (strip piece)) as [n|e] eqn:Hn; [|by eapply int_of_str_raises].
    destruct (map_res _ _) as [ids|e]; [|done]. destruct IH as [Hall Hlen].
    split; [|simpl; lia]. constructor; [|done]. by eapply isdigit_int_nonneg.
  - rewrite filter_cons_False by (by rewrite Hdigit).
    destruct (map_res _ _) as [ids|e]; [|done]. destruct IH as [Hall Hlen].
    split; [done|]. simpl. lia.
Qed.

Lemma parse_ADMIN_IDS_pieces pieces :
  pieces ≠ [] → Forall (λ piece, 44%N ∉ piece) pieces →
  parse_ADMIN_IDS (join_comma pieces)
  = match map_res (λ id_, int_of_str (strip id_))
            (filter (λ id_, isdigit (strip id_) = true) pieces) with
    | Ok ids => Ok ids
    | Raise _ => Ok []
    end.
Proof.
  intros Hne Hall. unfold parse_ADMIN_IDS. rewrite split_comma_join by done.
  pose proof (parse_digit_pieces pieces) as H.
  destruct (map_res _ _) as [ids|e]; [done|]. by rewrite H.
Qed.

(** X16. The allow-list is read for every text of the variable. The
    start-up code
    [[int(id_.strip()) for id_ in ADMIN_IDS.split(",") if id_.strip().isdigit()]]
    with its [except ValueError] gives, for every text, a list of integers
    that are all non-negative, at most one for each entry between commas. The
    entries that do not pass [str.isdigit] once trimmed (a negative number,
    a word, an empty entry) are left out without a notice: the list is the
    one read without them. When every entry that passes reads as an [int],
    the list holds these integers in the order of the entries; one entry that
    passes and does not read as an [int] (a superscript digit does that)
    empties the whole list. A list of non-negative ids written with commas
    between them is read back as it was. *)
Theorem allow_list_is_read_back :
  let passes := λ id_ : pystr, isdigit (strip id_) = true in
  (∀ env, ∃ ids, parse_ADMIN_IDS env = Ok ids
                 ∧ Forall (λ z, 0 ≤ z) ids
                 ∧ (length ids ≤ length (split_comma env))%nat)
  ∧ (∀ pieces, pieces ≠ [] → Forall (λ piece, 44%N ∉ piece) pieces →
       parse_ADMIN_IDS (join_comma pieces)
       = parse_ADMIN_IDS (join_comma (filter passes pieces)))
  ∧ (∀ pieces ids, pieces ≠ [] → Forall (λ piece, 44%N ∉ piece) pieces →
       Forall2 (λ piece z, int_of_str (strip piece) = Ok z) (filter passes pieces) ids →
       parse_ADMIN_IDS (join_comma pieces) = Ok ids)
  ∧ (∀ env piece, piece ∈ split_comma env → passes piece →
       (∀ z, int_of_str (strip piece) ≠ Ok z) → parse_ADMIN_IDS env = Ok [])
  ∧ (∀ ids, Forall (λ z, 0 ≤ z) ids →
            parse_ADMIN_IDS (join_comma (str_of_int <$> ids)) = Ok ids).
Proof.
  intros passes.
  assert (∀ pieces ids, pieces ≠ [] → Forall (λ piece, 44%N ∉ piece) pieces →
            Forall2 (λ piece z, int_of_str (strip piece) = Ok z) (filter passes pieces) ids →
            parse_ADMIN_IDS (join_comma pieces) = Ok ids) as Hread.
  { intros pieces ids Hne Hall Hids. rewrite parse_ADMIN_IDS_pieces by done.
    apply (map_res_Ok (λ id_, int_of_str (strip id_))) in Hids.
    subst passes. cbv beta in Hids. by rewrite Hids. }
  split; [|split; [|split; [|split]]].
  - intros env. unfold parse_ADMIN_IDS.
    pose proof (parse_digit_pieces (split_comma env)) as H.
    destruct (map_res _ _) as [ids|e].
    + by exists ids.
    + rewrite H. exists []. split; [done|]. split; [constructor|simpl; lia].
  - intros pieces Hne Hall. rewrite parse_ADMIN_IDS_pieces by done.
    destruct (filter passes pieces) as [|piece kept] eqn:Hkept.
    + subst passes. cbv beta in Hkept. rewrite Hkept. done.
    + rewrite parse_ADMIN_IDS_pieces.
      * rewrite <- Hkept. subst passes. cbv beta. by rewrite list_filter_filter_l.
      * done.
      * rewrite <- Hkept. apply Forall_forall. intros x [_ Hx]%list_elem_of_filter.
        by apply (proj1 (Forall_forall _ _) Hall).
  - exact Hread.
  - intros env piece Hin Hpasses Hbad. unfold parse_ADMIN_IDS.
    assert (piece ∈ filter passes (split_comma env)) as Hin'
      by (by apply list_elem_of_filter).
    destruct (int_of_str (strip piece)) as [z|e] eqn:Hpiece; [by destruct (Hbad z)|].
    destruct (map_res_Raise (λ id_, int_of_str (strip id_))
                (filter passes (split_comma env)) piece e Hin' Hpiece) as [e' He'].
    pose proof (parse_digit_pieces (split_comma env)) as H.
    subst passes. cbv beta in He'. rewrite He' in H |- *. by rewrite H.
  - intros ids Hall. destruct ids as [|z ids]; [done|].
    apply Hread.
    + done.
    + apply Forall_fmap, Forall_forall. intros; apply str_of_int_no_comma.
    + rewrite filter_all.
      * apply Forall2_fmap_l, Forall2_same_length_lookup. split; [done|].
        intros i x y Hx Hy. assert (y = x) as -> by congruence.
        unfold compose. by rewrite strip_str_of_int, int_of_str_of_int.
      * apply Forall_fmap, Forall_forall. intros x Hx. subst passes. cbv beta.
        unfold compose. rewrite strip_str_of_int. apply str_of_int_digits.
        by apply (proj1 (Forall_forall _ _) Hall).
Qed.

Example parse_ADMIN_IDS_ex :
  parse_ADMIN_IDS (lit "7, 12 ,abc,-5,,0042") = Ok [7; 12; 42]
  ∧ parse_ADMIN_IDS (lit "7,٣") = Ok [7; 3]
  ∧ parse_ADMIN_IDS (lit "7,²") = Ok [].
Proof. by vm_compute. Qed.

(** ** Who can change a status *)

Lemma appends_show_cake cake : steps_by only_appends (CombinedBot.show_cake cake).
Proof. unfold CombinedBot.show_cake. solve_steps. Qed.

Lemma appends_o3_show_cake cake : steps_by only_appends (O3.show_cake cake).
Proof. unfold O3.show_cake. solve_steps. Qed.

Lemma appends_send_pages block shown page_size :
  steps_by only_appends (CombinedBot.send_pages block shown page_size).
Proof. unfold CombinedBot.send_pages. solve_steps. Qed.

Lemma appends_create_new_order user_id user_name cake taste size decor :
  steps_by only_appends
    (CombinedBot.create_new_order user_id user_name cake taste size decor).
Proof. unfold CombinedBot.create_new_order. solve_steps. Qed.

Lemma appends_o3_create_new_order user_id user_name cake taste size decor :
  steps_by only_appends (O3.create_new_order user_id user_name cake taste size decor).
Proof. unfold O3.create_new_order. solve_steps. Qed.

Lemma appends_notify_admins ADMIN_IDS order_id user_name user_id d current_date :
  steps_by only_appends
    (CombinedBot.notify_admins ADMIN_IDS order_id user_name user_id d current_date).
Proof. unfold CombinedBot.notify_admins. solve_steps. Qed.

Lemma appends_o3_notify_admins ADMIN_IDS order_id user_name user_id d current_date :
  steps_by only_appends
    (O3.notify_admins ADMIN_IDS order_id user_name user_id d current_date).
Proof. unfold O3.notify_admins. solve_steps. Qed.

#[export] Hint Resolve appends_show_cake appends_o3_show_cake appends_send_pages
  appends_create_new_order appends_o3_create_new_order appends_notify_admins
  appends_o3_notify_admins : steps.

Lemma appends_user_bot_handle_cancel ADMIN_IDS m :
  steps_by only_appends (UserBot.handle_cancel ADMIN_IDS m).
Proof. unfold UserBot.handle_cancel. solve_steps. Qed.

Lemma appends_o3_handle_cancel ADMIN_IDS m :
  steps_by only_appends (O3.handle_cancel ADMIN_IDS m).
Proof. unfold O3.handle_cancel. solve_steps. Qed.

#[export] Hint Resolve appends_user_bot_handle_cancel appends_o3_handle_cancel : steps.

Lemma not_admin (ADMIN_IDS : list Z) (user_id : Z) :
  user_id ∉ ADMIN_IDS → bool_decide (user_id ∈ ADMIN_IDS) = false.
Proof. apply bool_decide_eq_false_2. Qed.

Lemma combined_dispatch_appends ADMIN_IDS strptime m w :
  from_user_id m ∉ ADMIN_IDS →
  only_appends w (CombinedRouter.dispatch ADMIN_IDS strptime m w).2.
Proof.
  intros Hcustomer. apply not_admin in Hcustomer. unfold CombinedRouter.dispatch.
  apply (dispatch_with_cases (λ r, only_appends w r.2)); [done|].
  intros accepts handler Hin _. revert w. change (steps_by only_appends (handler m)).
  unfold CombinedRouter.router in Hin.
  repeat (apply elem_of_cons in Hin as [[= -> ->]|Hin]); try (by apply elem_of_nil in Hin).
  - unfold CombinedBot.cmd_start. solve_steps.
  - unfold CombinedBot.cmd_menu. solve_steps.
  - unfold CombinedBot.process_choosing_cake. solve_steps.
  - unfold CombinedBot.process_choosing_taste. solve_steps.
  - unfold CombinedBot.process_choosing_size. solve_steps.
  - unfold CombinedBot.process_choosing_decor. solve_steps.
  - unfold CombinedBot.process_confirming. solve_steps.
  - unfold CombinedBot.cmd_status. solve_steps.
  - unfold CombinedBot.admin_cmd_help. solve_steps.
  - unfold CombinedBot.admin_cmd_view_orders. solve_steps.
  - unfold CombinedBot.admin_cmd_update_status. solve_steps.
  - unfold CombinedBot.process_update_status, CombinedBot.is_admin. rewrite Hcustomer. cbn [negb].
    solve_steps.
Qed.

Lemma user_bot_dispatch_appends ADMIN_IDS strptime m w :
  from_user_id m ∉ ADMIN_IDS →
  only_appends w (UserBot.dispatch ADMIN_IDS strptime m w).2.
Proof.
  intros Hcustomer. apply not_admin in Hcustomer. unfold UserBot.dispatch.
  apply (dispatch_with_cases (λ r, only_appends w r.2)); [done|].
  intros accepts handler Hin _. revert w. change (steps_by only_appends (handler m)).
  unfold UserBot.router in Hin.
  repeat (apply elem_of_cons in Hin as [[= -> ->]|Hin]); try (by apply elem_of_nil in Hin).
  - unfold UserBot.handle_start. solve_steps.
  - solve_steps.
  - unfold UserBot.user_make_order, UserBot.get_catalog_of_cakes. solve_steps.
  - unfold UserBot.user_check_status, UserBot.get_all_orders_by_user. solve_steps.
  - unfold UserBot.user_choosing_cake, UserBot.get_catalog_of_cakes. solve_steps.
  - unfold UserBot.user_choosing_taste. solve_steps.
  - unfold UserBot.user_choosing_size. solve_steps.
  - unfold UserBot.user_choosing_decor. solve_steps.
  - unfold UserBot.user_confirming_order, UserBot.create_new_order. solve_steps.
  - unfold UserBot.admin_view_orders_menu, UserBot.get_all_orders. solve_steps.
  - unfold UserBot.admin_update_status_menu. solve_steps.
  - unfold UserBot.admin_process_update_status, UserBot.is_admin. rewrite Hcustomer. cbn [negb].
    solve_steps.
Qed.

Lemma o3_dispatch_appends ADMIN_IDS strptime m w :
  from_user_id m ∉ ADMIN_IDS →
  only_appends w (O3.dispatch ADMIN_IDS strptime m w).2.
Proof.
  intros Hcustomer. apply not_admin in Hcustomer. unfold O3.dispatch.
  apply (dispatch_with_cases (λ r, only_appends w r.2)); [done|].
  intros accepts handler Hin _. revert w. change (steps_by only_appends (handler m)).
  unfold O3.router in Hin.
  repeat (apply elem_of_cons in Hin as [[= -> ->]|Hin]); try (by apply elem_of_nil in Hin).
  - unfold O3.handle_start. solve_steps.
  - unfold O3.handle_cancel_command. solve_steps.
  - unfold O3.user_make_order, O3.get_catalog_of_cakes. solve_steps.
  - unfold O3.user_check_status. solve_steps.
  - unfold O3.user_choosing_cake, O3.get_catalog_of_cakes. solve_steps.
  - unfold O3.user_choosing_taste. solve_steps.
  - unfold O3.user_choosing_size. solve_steps.
  - unfold O3.user_choosing_decor. solve_steps.
  - unfold O3.admin_view_orders_menu, O3.get_all_orders. solve_steps.
  - unfold O3.admin_update_status_menu. solve_steps.
  - unfold O3.admin_process_update_status, O3.is_admin. rewrite Hcustomer. cbn [negb].
    solve_steps.
Qed.

Lemma o3_callback_appends ADMIN_IDS strptime c w :
  only_appends w (O3Callbacks.dispatch_callback ADMIN_IDS strptime c w).2.
Proof.
  unfold O3Callbacks.dispatch_callback, O3Callbacks.callback_router,
    O3Callbacks.route_callback.
  revert w. match goal with |- ∀ w, only_appends w (?m w).2 => change (steps_by only_appends m) end.
  destruct (O3Callbacks.data_startswith _ c); [|destruct (O3Callbacks.data_startswith _ c)].
  - unfold O3.orders_pagination_callback. solve_steps.
  - unfold O3.order_confirmation_callback. solve_steps.
  - solve_steps.
Qed.

Lemma run_appends handle messages w :
  (∀ m w, m ∈ messages → only_appends w (handle m w).2) →
  only_appends w (run handle messages w).
Proof.
  induction messages as [|m messages IH] using rev_ind; intros Hstep; [done|].
  rewrite run_snoc. etrans.
  - apply IH. intros m' w' Hin. apply Hstep. apply elem_of_app. by left.
  - apply Hstep. apply elem_of_app. right. by left.
Qed.

(** X17. Only an operator can change a status. Whatever messages senders
    outside the allow-list send, in whatever state and order, the bot never
    calls [update_cell]: the rows the ledger had stay as they were, cell for
    cell, and the ledger can only have grown by appended orders. This holds
    for the three bots; in o3.py it holds for every button press as well. *)
Theorem only_operators_change_a_status (ADMIN_IDS : list Z) (strptime : pystr → option Z)
    (messages : list Message) (w : World) :
  Forall (λ m, from_user_id m ∉ ADMIN_IDS) messages →
  let grown (w' : World) :=
    orders w `prefix_of` orders w'
    ∧ ∃ evs, trace w' = trace w ++ evs ∧ Forall (λ e, is_status_write e = false) evs in
  grown (run (CombinedRouter.dispatch ADMIN_IDS strptime) messages w)
  ∧ grown (run (UserBot.dispatch ADMIN_IDS strptime) messages w)
  ∧ grown (run (O3.dispatch ADMIN_IDS strptime) messages w)
  ∧ ∀ c, grown (O3Callbacks.dispatch_callback ADMIN_IDS strptime c w).2.
Proof.
  intros Hcustomers grown. rewrite Forall_forall in Hcustomers.
  split; [|split; [|split]].
  - apply run_appends. intros m w' Hin. by apply combined_dispatch_appends, Hcustomers.
  - apply run_appends. intros m w' Hin. by apply user_bot_dispatch_appends, Hcustomers.
  - apply run_appends. intros m w' Hin. by apply o3_dispatch_appends, Hcustomers.
  - intros c. apply o3_callback_appends.
Qed.

Lemma only_operators_change_a_status_witness :
  let messages := [example_message (lit "Обновить статус заказа");
                   example_message (lit "1 Delivered")] in
  let grown (w' : World) :=
    orders example_updating `prefix_of` orders w'
    ∧ ∃ evs, trace w' = trace example_updating ++ evs
             ∧ Forall (λ e, is_status_write e = false) evs in
  grown (run (CombinedRouter.dispatch [7] strptime_padded) messages example_updating)
  ∧ grown (run (UserBot.dispatch [7] strptime_padded) messages example_updating)
  ∧ grown (run (O3.dispatch [7] strptime_padded) messages example_updating)
  ∧ ∀ c, grown (O3Callbacks.dispatch_callback [7] strptime_padded c example_updating).2.
Proof.
  apply (only_operators_change_a_status [7] strptime_padded
           [example_message (lit "Обновить статус заказа");
            example_message (lit "1 Delivered")] example_updating).
  repeat constructor; apply (bool_decide_unpack _); by vm_compute.
Defined.

(** ** The lists of orders *)

Lemma sorted_pages (block : dict → res (list value)) (strptime : pystr → option Z)
    (selected : list dict) (page_size : Z) (w : World) :
  0 < page_size →
  (∀ o, o ∈ selected → ∃ b, block o = Ok b) →
  ∃ shown pages,
    shown ≡ₚ selected
    ∧ Forall2 (λ o b, block o = Ok b) shown (concat pages)
    ∧ Forall (λ pg, (0 < length pg)%nat ∧ Z.of_nat (length pg) ≤ page_size) pages
    ∧ CombinedBot.send_pages block (CombinedBot.sort_orders strptime selected) page_size w
      = (Ok (), add_events ((λ pg, Answer (Orders_page pg) []) <$> pages) w).
Proof.
  intros Hsize Hblocks.
  pose proof (sort_orders_perm strptime selected) as Hperm.
  destruct (map_res_total block (CombinedBot.sort_orders strptime selected))
    as [blocks Hmap].
  { intros o Hin. apply Hblocks. by rewrite <- Hperm. }
  destruct (pages_of_cover blocks page_size Hsize) as (Hconcat & _ & Hsizes).
  exists (CombinedBot.sort_orders strptime selected), (pages_of blocks page_size).
  split; [done|]. split; [rewrite Hconcat; by apply map_res_Ok|].
  split; [done|]. by apply send_pages_eq.
Qed.

Lemma get_all_orders_eq w :
  CombinedBot.get_all_orders w
  = (Ok (Worksheet.get_all_records (orders w)), add_events [Fetched ORDERS_SHEET_NAME] w).
Proof. reflexivity. Qed.

Lemma admin_cmd_view_orders_admin_bot ADMIN_IDS strptime m w :
  from_user_id m ∈ ADMIN_IDS →
  AdminBot.admin_cmd_view_orders ADMIN_IDS strptime m w
  = let records := Worksheet.get_all_records (orders w) in
    let w1 := add_events [Fetched ORDERS_SHEET_NAME] w in
    if decide (records = []) then answer No_orders_available w1
    else CombinedBot.send_pages CombinedBot.admin_block
           (CombinedBot.sort_orders strptime records) 10 w1.
Proof.
  intros Hadmin. unfold AdminBot.admin_cmd_view_orders, AdminBot.is_admin,
    AdminBot.get_all_orders.
  rewrite (bool_decide_eq_true_2 _ Hadmin). cbn [negb].
  unfold mbind at 1, M_bind at 1. rewrite get_all_orders_eq. cbv zeta.
  by destruct (decide _).
Qed.

Lemma admin_cmd_view_orders_combined ADMIN_IDS strptime m w :
  from_user_id m ∈ ADMIN_IDS →
  CombinedBot.admin_cmd_view_orders ADMIN_IDS strptime m w
  = let records := Worksheet.get_all_records (orders w) in
    let pending := filter (λ o, get o (lit "status") ≠ VStr (lit "Доставлен")) records in
    let w1 := add_events [Fetched ORDERS_SHEET_NAME] w in
    if decide (records = []) then answer No_orders_available w1
    else if decide (pending = []) then answer No_pending_orders w1
    else CombinedBot.send_pages CombinedBot.admin_block
           (CombinedBot.sort_orders strptime pending) 10 w1.
Proof.
  intros Hadmin. unfold CombinedBot.admin_cmd_view_orders, CombinedBot.is_admin.
  rewrite (bool_decide_eq_true_2 _ Hadmin). cbn [negb].
  unfold mbind at 1, M_bind at 1. rewrite get_all_orders_eq. cbv zeta.
  destruct (decide _); [done|]. by destruct (decide _).
Qed.

Ltac events_eq :=
  unfold answer, emit, add_events;
  cbn [fst snd orders cakes state data clock trace];
  by rewrite <- ?app_assoc.

(** X18. What the operator's list shows. For an operator, when every
    record of the ledger has the ten columns the list prints: the list of
    admin_bot.py shows every order of the ledger, the lists of
    combined_bot.py and user_bot.py show every order whose status is not
    exactly [Доставлен]. Each of these orders is shown once, ten to a
    message at most, after one read of the ledger; an empty ledger, or one
    with delivered orders only, is answered with one notice. *)
Theorem operator_list_shows_the_orders (ADMIN_IDS : list Z) (strptime : pystr → option Z)
    (m : Message) (w : World) :
  from_user_id m ∈ ADMIN_IDS →
  let records := Worksheet.get_all_records (orders w) in
  (∀ o, o ∈ records → ∃ b, CombinedBot.admin_block o = Ok b) →
  let pending := filter (λ o, get o (lit "status") ≠ VStr (lit "Доставлен")) records in
  let lists (selected : list dict) (r : res () * World) :=
    ∃ shown pages,
      shown ≡ₚ selected
      ∧ Forall2 (λ o b, CombinedBot.admin_block o = Ok b) shown (concat pages)
      ∧ Forall (λ pg, (0 < length pg)%nat ∧ Z.of_nat (length pg) ≤ 10) pages
      ∧ r = (Ok (), add_events (Fetched ORDERS_SHEET_NAME
                                  :: ((λ pg, Answer (Orders_page pg) []) <$> pages)) w) in
  let notice t := (Ok (), add_events [Fetched ORDERS_SHEET_NAME; Answer t []] w) in
  let r_admin := AdminBot.admin_cmd_view_orders ADMIN_IDS strptime m w in
  let r_combined := CombinedBot.admin_cmd_view_orders ADMIN_IDS strptime m w in
  let r_user := UserBot.admin_view_orders_menu ADMIN_IDS strptime m w in
  (if decide (records = []) then r_admin = notice No_orders_available
   else lists records r_admin)
  ∧ r_user = r_combined
  ∧ (if decide (records = []) then r_combined = notice No_orders_available
     else if decide (pending = []) then r_combined = notice No_pending_orders
     else lists pending r_combined).
Proof.
  intros Hadmin records Hblocks pending lists notice r_admin r_combined r_user.
  subst r_admin r_combined r_user notice.
  assert (UserBot.admin_view_orders_menu ADMIN_IDS strptime m w
          = CombinedBot.admin_cmd_view_orders ADMIN_IDS strptime m w) as Huser
    by reflexivity.
  rewrite Huser, admin_cmd_view_orders_admin_bot, admin_cmd_view_orders_combined by done.
  cbv zeta. fold records. fold pending.
  split; [|split; [done|]].
  - destruct (decide (records = [])) as [Hnone|Hsome]; [events_eq|].
    destruct (sorted_pages CombinedBot.admin_block strptime records 10
                (add_events [Fetched ORDERS_SHEET_NAME] w) ltac:(lia) Hblocks)
      as (shown & pages & Hperm & Hall & Hsizes & Hsend).
    exists shown, pages. split; [done|]. split; [done|]. split; [done|].
    rewrite Hsend. events_eq.
  - destruct (decide (records = [])) as [Hnone|Hsome]; [events_eq|].
    destruct (decide (pending = [])) as [Hnone'|Hsome']; [events_eq|].
    destruct (sorted_pages CombinedBot.admin_block strptime pending 10
                (add_events [Fetched ORDERS_SHEET_NAME] w) ltac:(lia))
      as (shown & pages & Hperm & Hall & Hsizes & Hsend).
    { intros o Hin. apply Hblocks. subst pending.
      by apply list_elem_of_filter in Hin as [_ Hin]. }
    exists shown, pages. split; [done|]. split; [done|]. split; [done|].
    rewrite Hsend. events_eq.
Qed.

Lemma operator_list_shows_the_orders_witness :
  let m := example_operator_message (lit "/view_orders") in
  let w := example_world in
  let records := Worksheet.get_all_records (orders w) in
  let pending := filter (λ o, get o (lit "status") ≠ VStr (lit "Доставлен")) records in
  let lists (selected : list dict) (r : res () * World) :=
    ∃ shown pages,
      shown ≡ₚ selected
      ∧ Forall2 (λ o b, CombinedBot.admin_block o = Ok b) shown (concat pages)
      ∧ Forall (λ pg, (0 < length pg)%nat ∧ Z.of_nat (length pg) ≤ 10) pages
      ∧ r = (Ok (), add_events (Fetched ORDERS_SHEET_NAME
                                  :: ((λ pg, Answer (Orders_page pg) []) <$> pages)) w) in
  let notice t := (Ok (), add_events [Fetched ORDERS_SHEET_NAME; Answer t []] w) in
  let r_admin := AdminBot.admin_cmd_view_orders [7] strptime_padded m w in
  let r_combined := CombinedBot.admin_cmd_view_orders [7] strptime_padded m w in
  let r_user := UserBot.admin_view_orders_menu [7] strptime_padded m w in
  (if decide (records = []) then r_admin = notice No_orders_available
   else lists records r_admin)
  ∧ r_user = r_combined
  ∧ (if decide (records = []) then r_combined = notice No_orders_available
     else if decide (pending = []) then r_combined = notice No_pending_orders
     else lists pending r_combined).
Proof.
  apply (operator_list_shows_the_orders [7] strptime_padded
           (example_operator_message (lit "/view_orders")) example_world).
  - apply (bool_decide_unpack _). by vm_compute.
  - intros o Hin. apply list_elem_of_singleton in Hin as ->. eexists. by vm_compute.
Defined.

Lemma cmd_status_eq ADMIN_IDS strptime m w :
  CombinedBot.cmd_status ADMIN_IDS strptime m w
  = let mine :=
      filter (λ order, strip (str (get_or order (lit "user_id") (VStr [])))
                       = strip (str (VInt (from_user_id m))))
        (Worksheet.get_all_records (orders w)) in
    let notice :=
      admin_notice (CombinedBot.is_admin ADMIN_IDS (from_user_id m)) Admin_cannot_use in
    let w1 := add_events (notice ++ [Fetched ORDERS_SHEET_NAME]) w in
    if decide (mine = []) then answer No_orders_yet w1
    else CombinedBot.send_pages CombinedBot.user_block
           (CombinedBot.sort_orders strptime mine) 5 w1.
Proof.
  unfold CombinedBot.cmd_status. unfold mbind at 1, M_bind at 1.
  assert (∀ w0, (if CombinedBot.is_admin ADMIN_IDS (from_user_id m)
                 then answer Admin_cannot_use else mret ()) w0
                = (Ok (), add_events (admin_notice (CombinedBot.is_admin ADMIN_IDS
                                                      (from_user_id m))
                                        Admin_cannot_use) w0)) as ->.
  { intros w0. destruct (CombinedBot.is_admin _ _); [done|].
    unfold add_events. simpl. rewrite app_nil_r. by destruct w0. }
  unfold mbind at 1, M_bind at 1. rewrite get_all_orders_by_user_eq. cbv zeta.
  unfold add_events. cbn [orders cakes state data clock trace]. rewrite <- app_assoc.
  by destruct (decide _).
Qed.

(** On records with an integer customer id, the test of
    [get_all_orders_by_user] selects the orders of that customer. *)
Lemma selected_by_user_id (records : list dict) (user_id : Z) :
  integer_column (lit "user_id") records →
  filter (λ order, strip (str (get_or order (lit "user_id") (VStr [])))
                   = str_of_int user_id) records
  = filter (λ order, order !! lit "user_id" = Some (VInt user_id)) records.
Proof.
  intros Hids. induction records as [|o records IH]; [done|].
  destruct (Hids o) as [n Hn]; [left|].
  assert (strip (str (get_or o (lit "user_id") (VStr []))) = str_of_int user_id
          ↔ o !! lit "user_id" = Some (VInt user_id)) as Hiff.
  { unfold get_or. rewrite Hn.
    change (str (default (VStr []) (Some (VInt n)))) with (str_of_int n).
    rewrite strip_str_of_int. split.
    - by intros ->%str_of_int_inj.
    - by intros [= ->]. }
  assert (integer_column (lit "user_id") records) as Hrest
    by (intros o' Ho'; apply Hids; by right).
  destruct (decide (o !! lit "user_id" = Some (VInt user_id))) as [Hyes|Hno].
  - rewrite (filter_cons_True (λ order : dict, order !! lit "user_id" = _)) by done.
    rewrite filter_cons_True by (by apply Hiff). by rewrite IH.
  - rewrite (filter_cons_False (λ order : dict, order !! lit "user_id" = _)) by done.
    rewrite filter_cons_False by (by rewrite Hiff). by apply IH.
Qed.

(** X19. What the customer's list shows. On a ledger whose orders carry
    an integer as the customer's id, [cmd_status] of combined_bot.py and
    [user_check_status] of user_bot.py (the same text) read the ledger once
    and select the orders whose customer id is the sender's. When each
    selected order has the eight columns the list prints, they are shown:
    each of them once, five to a message at most, and no order of another
    customer. A sender without orders gets the notice that there are none.
    (An operator gets the notice for operators first and then the same
    list.) *)
Theorem customer_list_shows_their_orders (ADMIN_IDS : list Z) (strptime : pystr → option Z)
    (m : Message) (w : World) :
  let records := Worksheet.get_all_records (orders w) in
  integer_column (lit "user_id") records →
  let mine :=
    filter (λ order, order !! lit "user_id" = Some (VInt (from_user_id m))) records in
  (∀ o, o ∈ mine → ∃ b, CombinedBot.user_block o = Ok b) →
  let notice :=
    admin_notice (CombinedBot.is_admin ADMIN_IDS (from_user_id m)) Admin_cannot_use in
  let r := CombinedBot.cmd_status ADMIN_IDS strptime m w in
  UserBot.user_check_status ADMIN_IDS strptime m w = r
  ∧ if decide (mine = [])
    then r = (Ok (), add_events (notice ++ [Fetched ORDERS_SHEET_NAME;
                                            Answer No_orders_yet []]) w)
    else ∃ shown pages,
           shown ≡ₚ mine
           ∧ Forall2 (λ o b, CombinedBot.user_block o = Ok b) shown (concat pages)
           ∧ Forall (λ pg, (0 < length pg)%nat ∧ Z.of_nat (length pg) ≤ 5) pages
           ∧ r = (Ok (), add_events (notice ++ Fetched ORDERS_SHEET_NAME
                                       :: ((λ pg, Answer (Orders_page pg) []) <$> pages)) w).
Proof.
  intros records Hids mine Hblocks notice r. subst r. split; [reflexivity|].
  rewrite cmd_status_eq. cbv zeta. cbn [str]. rewrite strip_str_of_int.
  fold records.
  rewrite (selected_by_user_id records (from_user_id m) Hids). fold mine. fold notice.
  destruct (decide (mine = [])) as [Hnone|Hsome]; [events_eq|].
  destruct (sorted_pages CombinedBot.user_block strptime mine 5
              (add_events (notice ++ [Fetched ORDERS_SHEET_NAME]) w) ltac:(lia) Hblocks)
    as (shown & pages & Hperm & Hall & Hsizes & Hsend).
  exists shown, pages. split; [done|]. split; [done|]. split; [done|].
  rewrite Hsend. unfold add_events. cbn [orders cakes state data clock trace].
  by rewrite <- !app_assoc.
Qed.

Lemma customer_list_shows_their_orders_witness :
  let m := example_message (lit "/status") in
  let w := example_world in
  let records := Worksheet.get_all_records (orders w) in
  let mine :=
    filter (λ order, order !! lit "user_id" = Some (VInt (from_user_id m))) records in
  let notice := admin_notice (CombinedBot.is_admin [7] (from_user_id m)) Admin_cannot_use in
  let r := CombinedBot.cmd_status [7] strptime_padded m w in
  UserBot.user_check_status [7] strptime_padded m w = r
  ∧ if decide (mine = [])
    then r = (Ok (), add_events (notice ++ [Fetched ORDERS_SHEET_NAME;
                                            Answer No_orders_yet []]) w)
    else ∃ shown pages,
           shown ≡ₚ mine
           ∧ Forall2 (λ o b, CombinedBot.user_block o = Ok b) shown (concat pages)
           ∧ Forall (λ pg, (0 < length pg)%nat ∧ Z.of_nat (length pg) ≤ 5) pages
           ∧ r = (Ok (), add_events (notice ++ Fetched ORDERS_SHEET_NAME
                                       :: ((λ pg, Answer (Orders_page pg) []) <$> pages)) w).
Proof.
  apply (customer_list_shows_their_orders [7] strptime_padded
           (example_message (lit "/status")) example_world).
  - intros o Hin. apply list_elem_of_singleton in Hin as ->. exists 5. by vm_compute.
  - intros o Hin. apply list_elem_of_filter in Hin as [_ Hin].
    apply list_elem_of_singleton in Hin as ->. eexists. by vm_compute.
Defined.

(** ** Choosing and confirming *)




Example cake_is_chosen_by_name_ex :
  state (CombinedBot.process_choosing_cake [7] (example_message (lit " CHOCOLATE "))
           example_world).2 = Some ChoosingTaste
  ∧ state (CombinedBot.process_choosing_cake [7] (example_message (lit "Choco"))
             example_world).2 = None.
Proof. by vm_compute. Qed.

Lemma notify_admins_eq ADMIN_IDS order_id user_name user_id d current_date w cake name
    taste' size' decor' :
  d = mkData (Some cake) (Some taste') (Some size') (Some decor') →
  cake !! lit "name" = Some name →
  CombinedBot.notify_admins ADMIN_IDS order_id user_name user_id d current_date w
  = (Ok (),
     add_events
       ((λ admin_id,
           Send_message admin_id
             (New_order_notice order_id user_name user_id name taste' size' decor'
                current_date)) <$> ADMIN_IDS) w).
Proof.
  intros -> Hname. unfold CombinedBot.notify_admins. apply for_each_emits.
  intros admin_id w' _. unfold_M. unfold getitem. simpl. by rewrite Hname.
Qed.

(** X21. A confirmed order is written once and announced to every operator
    once. In [Confirming], with a complete draft whose cake has a text name
    and a price, and a ledger whose last row carries a readable id, the
    affirmative answer makes [process_confirming] read the ledger once,
    append one row (the next id, the sender, the trimmed fields of the draft,
    the status of a new order and the time), tell the customer the id, send
    one notice to each operator of the allow-list in its order (all with the
    same text), and empty the session; it returns without raising. *)
Theorem confirmed_order_is_announced (ADMIN_IDS : list Z) (m : Message) (w : World)
    (cake : dict) (name : pystr) (price : value) (taste' size' decor' : pystr) (i : Z) :
  lower (strip (text m)) = lit "да" →
  data w = mkData (Some cake) (Some taste') (Some size') (Some decor') →
  cake !! lit "name" = Some (VStr name) →
  cake !! lit "price" = Some price →
  next_order_id (orders w) = Ok i →
  let user_id := from_user_id m in
  let user_name := username_or_full_name m in
  let notice := admin_notice (CombinedBot.is_admin ADMIN_IDS user_id) Admin_cannot_use in
  let row := new_row i user_id user_name name price taste' size' decor' (clock w) in
  ∃ notice_date,
    CombinedBot.process_confirming ADMIN_IDS m w
    = (Ok (),
       mkWorld (orders w ++ [str <$> row]) (cakes w) None no_data (clock w)
         (trace w ++ notice
          ++ [Fetched ORDERS_SHEET_NAME; Appended row; Answer (Order_accepted i) []]
          ++ ((λ admin_id,
                 Send_message admin_id
                   (New_order_notice i user_name user_id (VStr name) taste' size' decor'
                      notice_date)) <$> ADMIN_IDS))).
Proof.
  intros Hyes Hdata Hname Hprice Hnext user_id user_name notice row. exists (clock w).
  rewrite (process_confirming_yes ADMIN_IDS m w cake taste' size' decor') by done.
  unfold mbind at 1, M_bind at 1. rewrite create_new_order_row.
  cbn [orders cakes state data clock trace add_events]. rewrite Hnext, Hname, Hprice.
  cbv zeta. unfold mbind at 1, M_bind at 1. unfold mbind at 1, M_bind at 1.
  unfold answer at 1, emit at 1. unfold mbind at 1, M_bind at 1, now_strftime at 1.
  rewrite (notify_admins_eq ADMIN_IDS i _ _ (data w) _ _ cake (VStr name) taste' size' decor')
    by done.
  unfold state_clear, add_events. cbn [fst snd orders cakes state data clock trace].
  subst row notice user_id user_name. f_equal. f_equal. by rewrite <- !app_assoc.
Qed.

Lemma confirmed_order_is_announced_witness :
  let m := example_message (lit " Да ") in
  let w := example_confirming in
  let row := new_row 1 5 (lit "bob") (lit "Chocolate") (VInt 500) (lit "dark") (lit "8")
               (lit "none") (clock w) in
  ∃ notice_date,
    CombinedBot.process_confirming [7; 8] m w
    = (Ok (),
       mkWorld (orders w ++ [str <$> row]) (cakes w) None no_data (clock w)
         (trace w ++ admin_notice (CombinedBot.is_admin [7; 8] 5) Admin_cannot_use
          ++ [Fetched ORDERS_SHEET_NAME; Appended row; Answer (Order_accepted 1) []]
          ++ ((λ admin_id,
                 Send_message admin_id
                   (New_order_notice 1 (lit "bob") 5 (VStr (lit "Chocolate")) (lit "dark")
                      (lit "8") (lit "none") notice_date)) <$> [7; 8]))).
Proof.
  apply (confirmed_order_is_announced [7; 8] (example_message (lit " Да "))
           example_confirming example_cake (lit "Chocolate") (VInt 500) (lit "dark")
           (lit "8") (lit "none") 1); by vm_compute.
Defined.

(** X22. The renderer does not clamp the page. For a page size above 0 and
    a page index at or beyond the page count, [get_orders_page_text_and_markup]
    renders a page without any order, with the back button alone (and none
    on page 0, which only an empty list puts out of range): a press with
    such a page number in its data empties the message of orders. *)
Theorem page_out_of_range_is_empty (shown : list dict) (page page_size : Z) :
  0 < page_size →
  page_count (Z.of_nat (length shown)) page_size ≤ page →
  O3.get_orders_page_text_and_markup shown page page_size
  = Ok (Orders_page [],
        if decide (page > 0)
        then [Button BACK (lit "orders_page:" ++ str_of_int (page - 1))] else []).
Proof.
  intros Hsize Hpage.
  pose proof (page_count_is_ceiling (Z.of_nat (length shown)) page_size Hsize) as Hceil.
  cbv zeta in Hceil.
  pose proof (page_count_nonneg (Z.of_nat (length shown)) page_size ltac:(lia) Hsize).
  unfold O3.get_orders_page_text_and_markup.
  rewrite decide_False by lia.
  rewrite slice_page by lia.
  rewrite drop_ge by nia. rewrite take_nil.
  rewrite (decide_False (P := page < _ - 1)) by lia.
  rewrite app_nil_r. reflexivity.
Qed.

Lemma page_out_of_range_is_empty_witness :
  O3.get_orders_page_text_and_markup example_orders 99 1
  = Ok (Orders_page [],
        if decide (99 > 0)
        then [Button BACK (lit "orders_page:" ++ str_of_int (99 - 1))] else []).
Proof.
  apply (page_out_of_range_is_empty example_orders 99 1).
  - lia.
  - by vm_compute.
Defined.

(** ** The lists are shown sorted *)

(** [sorted(...)] inside [try]: all or nothing. *)
Lemma sorted_reverse_shown (key : dict → res Z) (selected : list dict) :
  shown_sorted key selected
    (match sorted_reverse key selected with
     | Ok sorted_orders => sorted_orders
     | Raise _ => selected
     end).
Proof.
  split.
  - intros Hall. destruct (sorted_reverse_sorted key selected Hall) as (s & -> & ? & ?).
    done.
  - intros (x & Hx & Hkey). destruct (key x) as [t|e] eqn:Hk; [by destruct (Hkey t)|].
    by destruct (sorted_reverse_raises key selected x e Hx Hk) as [e' ->].
Qed.

Lemma sort_orders_perm_o3 strptime l : O3.sort_orders strptime l ≡ₚ l.
Proof.
  unfold O3.sort_orders.
  destruct (sorted_reverse _ l) as [sorted|] eqn:Hsorted; [|done].
  by eapply sorted_reverse_perm.
Qed.

(** The page loop on a list whose orders all have the printed fields. *)
Lemma send_pages_shown (block : dict → res (list value)) (selected shown : list dict)
    (page_size : Z) (w : World) :
  shown ≡ₚ selected →
  (∀ o, o ∈ selected → ∃ b, block o = Ok b) →
  ∃ blocks,
    Forall2 (λ o b, block o = Ok b) shown blocks
    ∧ CombinedBot.send_pages block shown page_size w
      = (Ok (), add_events ((λ pg, Answer (Orders_page pg) []) <$> pages_of blocks page_size)
                  w).
Proof.
  intros Hperm Hblocks.
  destruct (map_res_total block shown) as [blocks Hmap].
  { intros o Hin. apply Hblocks. by rewrite <- Hperm. }
  exists blocks. split; [by apply map_res_Ok|]. by apply send_pages_eq.
Qed.

Lemma admin_view_orders_menu_o3 ADMIN_IDS strptime m w :
  from_user_id m ∈ ADMIN_IDS →
  O3.admin_view_orders_menu ADMIN_IDS strptime m w
  = let records := Worksheet.get_all_records (orders w) in
    let pending := filter (λ o, get o (lit "status") ≠ VStr (lit "Доставлен")) records in
    let w1 := add_events [Fetched ORDERS_SHEET_NAME] w in
    if decide (records = []) then answer No_orders_available w1
    else if decide (pending = []) then answer No_pending_orders w1
    else CombinedBot.send_pages O3.admin_block (O3.sort_orders strptime pending) 10 w1.
Proof.
  intros Hadmin. unfold O3.admin_view_orders_menu, O3.is_admin.
  rewrite (bool_decide_eq_true_2 _ Hadmin). cbn [negb].
  unfold mbind at 1, M_bind at 1.
  change (O3.get_all_orders w)
    with (Ok (Worksheet.get_all_records (orders w)), add_events [Fetched ORDERS_SHEET_NAME] w).
  cbv beta iota zeta. destruct (decide _); [done|]. by destruct (decide _).
Qed.

Lemma user_check_status_o3 ADMIN_IDS strptime m w :
  from_user_id m ∉ ADMIN_IDS →
  O3.user_check_status ADMIN_IDS strptime m w
  = let mine :=
      filter (λ o, strip (str (get_or o (lit "user_id") (VStr [])))
                   = str_of_int (from_user_id m))
        (Worksheet.get_all_records (orders w)) in
    let w1 := add_events [Fetched ORDERS_SHEET_NAME] w in
    if decide (mine = []) then answer No_orders_yet w1
    else
      let shown := O3.sort_orders strptime mine in
      ('(text, markup) ← lift (O3.get_orders_page_text_and_markup shown 0 1);
       answer_with text markup) w1.
Proof.
  intros Hadmin. unfold O3.user_check_status, O3.is_admin.
  rewrite (bool_decide_eq_false_2 _ Hadmin).
  unfold mbind at 1, M_bind at 1. rewrite get_all_orders_by_user_o3_eq. cbv zeta.
  cbn [str]. by destruct (decide _).
Qed.

(** C6. Every handler that shows a list of orders shows [sort_orders] of
    the orders it selected, cut into its pages, and [sort_orders] is all or
    nothing: when the date of every selected order parses (the [date] field
    is a text that [strptime] accepts), the list shown is sorted by that
    time, newest first, and holds the same orders; when the date of at least
    one selected order does not parse, the list shown is the selected list
    in the order of the store, nothing sorted and nothing dropped. This is
    stated for the customer's list of combined_bot.py and user_bot.py
    ([cmd_status], [user_check_status]: messages of five orders), for the
    customer's list of o3.py ([user_check_status] shows the first order,
    [orders_pagination_callback] the order of the page asked for), and for
    the operator's lists of combined_bot.py, user_bot.py and o3.py (the
    orders not yet delivered) and of admin_bot.py (all orders), in messages
    of ten orders. The lists of combined_bot.py print their fields with
    [order['...']], so they are stated for orders that have these fields. *)
Theorem C6_sort_is_all_or_nothing (ADMIN_IDS : list Z) (strptime : pystr → option Z)
    (m : Message) (pressed : pystr) (w : World) :
  let records := Worksheet.get_all_records (orders w) in
  let mine :=
    filter (λ o, strip (str (get_or o (lit "user_id") (VStr [])))
                 = str_of_int (from_user_id m)) records in
  let pending := filter (λ o, get o (lit "status") ≠ VStr (lit "Доставлен")) records in
  let key := CombinedBot.date_key strptime in
  let key_o3 := O3.date_key strptime in
  let read := Fetched ORDERS_SHEET_NAME in
  let notice :=
    admin_notice (CombinedBot.is_admin ADMIN_IDS (from_user_id m)) Admin_cannot_use in
  let lists (key : dict → res Z) (block : dict → res (list value))
        (selected : list dict) (page_size : Z) (before : list event)
        (r : res () * World) :=
    ∃ shown blocks,
      shown_sorted key selected shown
      ∧ Forall2 (λ o b, block o = Ok b) shown blocks
      ∧ r = (Ok (),
             add_events (before ++ ((λ pg, Answer (Orders_page pg) [])
                                      <$> pages_of blocks page_size)) w) in
  ((∀ l, shown_sorted key l (CombinedBot.sort_orders strptime l))
   ∧ (∀ l, shown_sorted key_o3 l (O3.sort_orders strptime l))
   ∧ (∀ x t, key x = Ok t ↔ ∃ s, x !! lit "date" = Some (VStr s) ∧ strptime s = Some t)
   ∧ (∀ x t, key_o3 x = Ok t
             ↔ ∃ s, get_or x (lit "date") (VStr []) = VStr s ∧ strptime s = Some t))
  ∧ (mine ≠ [] → (∀ o, o ∈ mine → ∃ b, CombinedBot.user_block o = Ok b) →
     lists key CombinedBot.user_block mine 5 (notice ++ [read])
       (CombinedBot.cmd_status ADMIN_IDS strptime m w)
     ∧ UserBot.user_check_status ADMIN_IDS strptime m w
       = CombinedBot.cmd_status ADMIN_IDS strptime m w)
  ∧ (mine ≠ [] → from_user_id m ∉ ADMIN_IDS →
     ∃ shown markup,
       shown_sorted key_o3 mine shown
       ∧ O3.user_check_status ADMIN_IDS strptime m w
         = (Ok (), add_events [read; Answer (Orders_page (O3.page_block <$> slice shown 0 1))
                                       markup] w))
  ∧ (mine ≠ [] →
     ∀ page, (piece ← second_item (split_colon pressed); int_of_str piece) = Ok page →
     ∃ shown markup,
       shown_sorted key_o3 mine shown
       ∧ O3.orders_pagination_callback strptime (mkCallbackQuery m pressed) w
         = (Ok (),
            add_events [read;
                        Edit_text (Orders_page (O3.page_block <$> slice shown page (page + 1)))
                          markup;
                        Callback_answer None] w))
  ∧ (from_user_id m ∈ ADMIN_IDS → pending ≠ [] →
     (∀ o, o ∈ pending → ∃ b, CombinedBot.admin_block o = Ok b) →
     lists key CombinedBot.admin_block pending 10 [read]
       (CombinedBot.admin_cmd_view_orders ADMIN_IDS strptime m w)
     ∧ UserBot.admin_view_orders_menu ADMIN_IDS strptime m w
       = CombinedBot.admin_cmd_view_orders ADMIN_IDS strptime m w)
  ∧ (from_user_id m ∈ ADMIN_IDS → records ≠ [] →
     (∀ o, o ∈ records → ∃ b, CombinedBot.admin_block o = Ok b) →
     lists key CombinedBot.admin_block records 10 [read]
       (AdminBot.admin_cmd_view_orders ADMIN_IDS strptime m w))
  ∧ (from_user_id m ∈ ADMIN_IDS → pending ≠ [] →
     lists key_o3 O3.admin_block pending 10 [read]
       (O3.admin_view_orders_menu ADMIN_IDS strptime m w)).
Proof.
  intros records mine pending key key_o3 read notice lists. subst read.
  assert (∀ l, shown_sorted key l (CombinedBot.sort_orders strptime l)) as Hsort
    by (intros l; apply sorted_reverse_shown).
  assert (∀ l, shown_sorted key_o3 l (O3.sort_orders strptime l)) as Hsort_o3
    by (intros l; apply sorted_reverse_shown).
  assert (∀ block selected page_size before,
            (∀ o, o ∈ selected → ∃ b, block o = Ok b) →
            lists key block selected page_size before
              (CombinedBot.send_pages block (CombinedBot.sort_orders strptime selected)
                 page_size (add_events before w))) as Hlists.
  { intros block selected page_size before Hblocks.
    destruct (send_pages_shown block selected (CombinedBot.sort_orders strptime selected)
                page_size (add_events before w) (sort_orders_perm strptime selected) Hblocks)
      as (blocks & Hall & ->).
    exists (CombinedBot.sort_orders strptime selected), blocks.
    split; [apply Hsort|]. split; [done|].
    unfold add_events. cbn [orders cakes state data clock trace]. by rewrite <- app_assoc. }
  split; [|split; [|split; [|split; [|split; [|split]]]]].
  - split; [done|]. split; [done|]. split; [apply date_key_combined|apply date_key_o3].
  - intros Hmine Hblocks. split; [|reflexivity].
    rewrite cmd_status_eq. cbv zeta. cbn [str]. rewrite strip_str_of_int.
    fold records. fold mine. fold notice. rewrite decide_False by done.
    by apply Hlists.
  - intros Hmine Hcustomer. rewrite user_check_status_o3 by done. cbv zeta.
    fold records. fold mine. rewrite decide_False by done.
    unfold O3.get_orders_page_text_and_markup. rewrite decide_False by done.
    eexists (O3.sort_orders strptime mine), _. split; [apply Hsort_o3|].
    unfold_M. unfold add_events. cbn [fst snd orders cakes state data clock trace].
    by rewrite <- app_assoc.
  - intros Hmine page Hpage. unfold O3.orders_pagination_callback.
    cbn [callback_data callback_from_user]. rewrite Hpage.
    unfold mbind at 1, M_bind at 1. rewrite get_all_orders_by_user_o3_eq.
    cbn [str]. fold records. fold mine. rewrite decide_False by done.
    unfold O3.get_orders_page_text_and_markup. rewrite decide_False by done.
    cbv zeta. rewrite Z.mul_1_r.
    eexists (O3.sort_orders strptime mine), _. split; [apply Hsort_o3|].
    unfold_M. unfold add_events. cbn [fst snd orders cakes state data clock trace].
    by rewrite <- !app_assoc.
  - intros Hadmin Hpending Hblocks. split; [|reflexivity].
    rewrite admin_cmd_view_orders_combined by done. cbv zeta. fold records. fold pending.
    rewrite decide_False by (intros Hnone; apply Hpending; subst pending; by rewrite Hnone).
    rewrite decide_False by done. by apply Hlists.
  - intros Hadmin Hrecords Hblocks.
    rewrite admin_cmd_view_orders_admin_bot by done. cbv zeta. fold records.
    rewrite decide_False by done. by apply Hlists.
  - intros Hadmin Hpending.
    rewrite admin_view_orders_menu_o3 by done. cbv zeta. fold records. fold pending.
    rewrite decide_False by (intros Hnone; apply Hpending; subst pending; by rewrite Hnone).
    rewrite decide_False by done.
    destruct (send_pages_shown O3.admin_block pending (O3.sort_orders strptime pending) 10
                (add_events [Fetched ORDERS_SHEET_NAME] w)
                (sort_orders_perm_o3 strptime pending))
      as (blocks & Hall & ->); [by eauto|].
    exists (O3.sort_orders strptime pending), blocks.
    split; [apply Hsort_o3|]. split; [done|].
    unfold add_events. cbn [orders cakes state data clock trace]. by rewrite <- app_assoc.
Qed.

Lemma C6_witness :
  let m := example_message (lit "/status") in
  let w := example_world in
  let key := CombinedBot.date_key strptime_padded in
  let mine :=
    filter (λ o, strip (str (get_or o (lit "user_id") (VStr [])))
                 = str_of_int (from_user_id m))
      (Worksheet.get_all_records (orders w)) in
  (StronglySorted (not_newer key) (CombinedBot.sort_orders strptime_padded example_orders)
   ∧ CombinedBot.sort_orders strptime_padded example_orders ≡ₚ example_orders)
  ∧ CombinedBot.sort_orders strptime_padded example_orders_bad_date
    = example_orders_bad_date
  ∧ ∃ shown blocks,
      shown_sorted key mine shown
      ∧ Forall2 (λ o b, CombinedBot.user_block o = Ok b) shown blocks
      ∧ CombinedBot.cmd_status [7] strptime_padded m w
        = (Ok (),
           add_events
             ((admin_notice (CombinedBot.is_admin [7] (from_user_id m)) Admin_cannot_use
               ++ [Fetched ORDERS_SHEET_NAME])
              ++ ((λ pg, Answer (Orders_page pg) []) <$> pages_of blocks 5)) w).
Proof.
  intros m w key mine.
  destruct (C6_sort_is_all_or_nothing [7] strptime_padded m (lit "orders_page:1") w)
    as ((Hsort & _) & Hstatus & _).
  split; [|split].
  - destruct (Hsort example_orders) as [Hall _]. apply Hall.
    clear. intros x Hx. apply list_elem_of_In in Hx.
    destruct Hx as [<-|[<-|[<-|[]]]]; eexists; vm_compute; reflexivity.
  - destruct (Hsort example_orders_bad_date) as [_ Hbad]. apply Hbad.
    clear. exists (example_order 2 (lit "05.03.2024")).
    split; [apply list_elem_of_further, list_elem_of_here|].
    intros t. vm_compute. discriminate.
  - apply Hstatus.
    + intros Hnone. apply (f_equal length) in Hnone. vm_compute in Hnone.
      discriminate Hnone.
    + intros o Hin. apply list_elem_of_filter in Hin as [_ Hin].
      apply list_elem_of_singleton in Hin as ->. eexists. by vm_compute.
Defined.
